(** * The versioned document store of mmapi: MetadataCollector

    A shallow embedding of [mmm/metadata_collector.py] (class
    [MetadataCollector] and [get_station_coordinates]) and, from
    [mmm/common.py], of [validate_schema], [normalize_string],
    [reverse_dictionary], [load_fields_from_dict] and [detect_common_path].

    - A JSON document is a Python [dict]: here an association list that keeps
      insertion order, with the dictionary operations written out.
    - The two MongoDB databases ([db], [db_history]) map a collection name to
      the list of its documents in insertion order.
    - The read-through cache is the nested dictionary [self.__cache].
    - Every method is a computation in a state-and-exception monad over the
      [world]: an exception leaves the mutations made before it in place, as in
      Python. *)

From Stdlib Require Import ZArith Ascii String List Bool Lia.
From stdpp Require Import base option list gmap strings pretty.

Set Warnings "-register-all".
Local Open Scope Z_scope.
Local Open Scope string_scope.
Local Open Scope list_scope.

(** ** JSON values and Python dictionaries *)

(** A decoded JSON value. Numbers are integers: floating-point values are not
    part of the model. *)
Inductive value : Type :=
  | JNull
  | JBool (b : bool)
  | JNum (n : Z)
  | JStr (s : string)
  | JList (l : list value)
  | JDict (d : list (string * value)).

(** A Python [dict] with string keys, in insertion order. *)
Abbreviation dict := (list (string * value)).

Definition keys (d : dict) : list string := map fst d.

(** [d.get(k)]: the value bound to [k], if any. *)
Fixpoint dict_get (k : string) (d : dict) : option value :=
  match d with
  | [] => None
  | (k', v) :: d' => if String.eqb k k' then Some v else dict_get k d'
  end.

(** [k in d.keys()] *)
Definition dict_has (k : string) (d : dict) : bool :=
  match dict_get k d with Some _ => true | None => false end.

(** [d[k] = v]: an existing key keeps its position, a new key goes last. *)
Fixpoint dict_set (k : string) (v : value) (d : dict) : dict :=
  match d with
  | [] => [(k, v)]
  | (k', v') :: d' =>
      if String.eqb k k' then (k', v) :: d' else (k', v') :: dict_set k v d'
  end.

(** [d.pop(k)] for a key that may be absent. *)
Fixpoint dict_pop (k : string) (d : dict) : dict :=
  match d with
  | [] => []
  | (k', v') :: d' =>
      if String.eqb k k' then d' else (k', v') :: dict_pop k d'
  end.

(** [d.update(other)] *)
Definition dict_update (d other : dict) : dict :=
  fold_left (fun acc kv => dict_set (fst kv) (snd kv) acc) other d.

(** [key.startswith(p)] *)
Definition startswith (p key : string) : bool := String.prefix p key.


(** [{key: value for key, value in doc.items() if key.startswith("#")}] *)
Definition metadata_fields (doc : dict) : dict :=
  List.filter (fun kv => startswith "#" (fst kv)) doc.

(** [MetadataCollector.strip_metadata_fields], also written inline as
    [{key: value for key, value in doc.items() if not key.startswith("#")}] *)
Definition strip_metadata_fields (doc : dict) : dict :=
  List.filter (fun kv => negb (startswith "#" (fst kv))) doc.

(** Structural equality of JSON values: the comparison the database applies
    to the value of an equality filter. *)
Fixpoint value_eqb (a b : value) {struct a} : bool :=
  match a, b with
  | JNull, JNull => true
  | JBool x, JBool y => Bool.eqb x y
  | JNum x, JNum y => Z.eqb x y
  | JStr x, JStr y => String.eqb x y
  | JList l, JList l' =>
      (fix go (l l' : list value) {struct l} : bool :=
         match l, l' with
         | [], [] => true
         | x :: l, y :: l' => value_eqb x y && go l l'
         | _, _ => false
         end) l l'
  | JDict d, JDict d' =>
      (fix go (d d' : dict) {struct d} : bool :=
         match d, d' with
         | [], [] => true
         | (k, x) :: d, (k', y) :: d' =>
             String.eqb k k' && value_eqb x y && go d d'
         | _, _ => false
         end) d d'
  | _, _ => false
  end.

(** Python's [==] on decoded JSON: [True == 1], lists compare element by
    element, dictionaries compare as maps whatever the order of their keys. *)
Fixpoint py_eq (a b : value) {struct a} : bool :=
  match a, b with
  | JNull, JNull => true
  | JBool x, JBool y => Bool.eqb x y
  | JBool x, JNum y | JNum y, JBool x => Z.eqb (Z.b2z x) y
  | JNum x, JNum y => Z.eqb x y
  | JStr x, JStr y => String.eqb x y
  | JList l, JList l' =>
      (fix go (l l' : list value) {struct l} : bool :=
         match l, l' with
         | [], [] => true
         | x :: l, y :: l' => py_eq x y && go l l'
         | _, _ => false
         end) l l'
  | JDict d, JDict d' =>
      Nat.eqb (length d) (length d') &&
      (fix go (d : dict) {struct d} : bool :=
         match d with
         | [] => true
         | (k, x) :: d =>
             match dict_get k d' with
             | Some y => py_eq x y
             | None => false
             end && go d
         end) d
  | _, _ => false
  end.

(** [x in l] for a Python list. *)
Definition py_in (x : value) (l : list value) : bool := existsb (py_eq x) l.

(** ** [str()] and [repr()] as used by the f-strings *)

Definition quote1 : ascii := "'"%char.
Definition quote2 : ascii := Ascii.ascii_of_nat 34.
Definition backslash : ascii := "\"%char.

Definition hex_digit (n : nat) : ascii :=
  Ascii.ascii_of_nat (if Nat.ltb n 10 then 48 + n else 87 + n).

Fixpoint contains_char (c : ascii) (s : string) : bool :=
  match s with
  | EmptyString => false
  | String c' rest => Ascii.eqb c c' || contains_char c rest
  end.

(** The body of [repr(s)] between the quotes, for the quote [q] chosen. *)
Fixpoint escape_str (q : ascii) (s : string) : string :=
  match s with
  | EmptyString => EmptyString
  | String c rest =>
      let n := Ascii.nat_of_ascii c in
      (if Ascii.eqb c backslash || Ascii.eqb c q then String backslash (String c EmptyString)
       else if Nat.eqb n 10 then String backslash "n"
       else if Nat.eqb n 13 then String backslash "r"
       else if Nat.eqb n 9 then String backslash "t"
       else if Nat.ltb n 32 || Nat.eqb n 127 then
         String backslash (String "x"%char
           (String (hex_digit (Nat.div n 16)) (String (hex_digit (Nat.modulo n 16)) EmptyString)))
       else String c EmptyString) +:+ escape_str q rest
  end.

(** [repr(s)] of a string: single quotes unless the string holds a single
    quote and no double quote. Bytes above 127 are left as they are. *)
Definition repr_str (s : string) : string :=
  let q := if contains_char quote1 s && negb (contains_char quote2 s) then quote2 else quote1 in
  String q (escape_str q s) +:+ String q EmptyString.

Definition join_comma (l : list string) : string :=
  match l with
  | [] => EmptyString
  | x :: rest => fold_left (fun acc y => acc +:+ ", " +:+ y) rest x
  end.

(** [repr(v)] *)
Fixpoint py_repr (v : value) : string :=
  match v with
  | JNull => "None"
  | JBool true => "True"
  | JBool false => "False"
  | JNum n => pretty n
  | JStr s => repr_str s
  | JList l => "[" +:+ join_comma (map py_repr l) +:+ "]"
  | JDict d =>
      "{" +:+ join_comma
        ((fix go (d : dict) : list string :=
            match d with
            | [] => []
            | (k, x) :: d => (repr_str k +:+ ": " +:+ py_repr x) :: go d
            end) d) +:+ "}"
  end.

(** [str(v)], the conversion an f-string applies to [{v}]. *)
Definition py_str (v : value) : string :=
  match v with
  | JStr s => s
  | _ => py_repr v
  end.

(** [in] on a list of strings, as in [collection not in self.collection_names]. *)
Definition str_in (s : string) (l : list string) : bool := existsb (String.eqb s) l.
Arguments str_in : simpl never.

(** [now.split(".")[0]] *)
Fixpoint before_dot (s : string) : string :=
  match s with
  | EmptyString => EmptyString
  | String c rest => if Ascii.eqb c "."%char then EmptyString else String c (before_dot rest)
  end.

(** ** The environment of the collector

    What the module takes from outside: its configuration, the schema tables
    of [mmm.schemas], the [jsonschema] library and the clock. *)
Class Runtime := {
  (** [self.default_author] *)
  default_author : string;
  (** [mmm_metadata], the envelope schema every document must satisfy *)
  mmm_metadata : dict;
  (** [mmm_schemas], one schema per collection that has one *)
  mmm_schemas : gmap string dict;
  (** [jsonschema.validate(doc, schema=schema)]: [None] when the document is
      valid, otherwise the message of the [ValidationError] raised *)
  jsonschema_validate : dict -> dict -> option string;
  (** [time.time()] at the n-th reading of the clock, in whole seconds: only
      the order and the differences of the readings are used *)
  time_time : nat -> Z;
  (** [datetime.datetime.utcnow().isoformat()] at the n-th reading of the clock *)
  utcnow_isoformat : nat -> string
}.

(** [self.collection_names] *)
Definition collection_names : list string :=
  ["sensors"; "stations"; "variables"; "qualityControl"; "people"; "units"; "processes";
   "organizations"; "datasets"; "operations"; "activities"; "projects"; "resources";
   "programmes"].

(** [self.__cache_timeout_s] *)
Definition cache_timeout_s : Z := 300.

(** ** Dictionary keys

    A Python dictionary key is hashed and compared with [==]: [True] and [1]
    are one key, a list or a dictionary is not hashable. *)
Inductive hkey : Type :=
  | KNone
  | KInt (n : Z)
  | KStr (s : string).

#[global] Instance hkey_eq_dec : EqDecision hkey.
Proof. solve_decision. Defined.

#[global] Instance hkey_countable : Countable hkey.
Proof.
  refine (inj_countable'
    (fun k => match k with KNone => inl tt | KInt n => inr (inl n) | KStr s => inr (inr s) end)
    (fun x => match x with inl _ => KNone | inr (inl n) => KInt n | inr (inr s) => KStr s end) _).
  intros []; reflexivity.
Defined.

(** [hash(v)]: the key [v] stands for, [None] when [v] is unhashable. *)
Definition py_hash (v : value) : option hkey :=
  match v with
  | JNull => Some KNone
  | JBool b => Some (KInt (Z.b2z b))
  | JNum n => Some (KInt n)
  | JStr s => Some (KStr s)
  | JList _ | JDict _ => None
  end.

(** ** The database

    A MongoDB database maps a collection name to its documents; a collection
    never written to is empty. Documents are kept in insertion order, which is
    the order [find] returns them in. The [_id] the driver assigns on insert is
    not stored: every read path strips it ([strip_mongo_ids]). A filter is a
    conjunction of [field = value] tests on top-level fields, compared as JSON
    values; query operators and dotted paths are not part of the model. *)
Abbreviation database := (gmap string (list dict)).

Definition coll (d : database) (collection : string) : list dict :=
  default [] (d !! collection).

Definition matches (flt : dict) (doc : dict) : bool :=
  forallb (fun kv => match dict_get (fst kv) doc with
                     | Some v => value_eqb v (snd kv)
                     | None => false
                     end) flt.

(** [db_collection.find(mongo_filter)], the cursor read into a list *)
Definition find (flt : dict) (l : list dict) : list dict := List.filter (matches flt) l.

(** [db[collection].insert_one(doc)] *)
Definition insert_one (collection : string) (doc : dict) (d : database) : database :=
  <[collection := coll d collection ++ [doc]]> d.

Fixpoint replace_first (flt new : dict) (l : list dict) : list dict :=
  match l with
  | [] => []
  | doc :: l' => if matches flt doc then new :: l' else doc :: replace_first flt new l'
  end.

Fixpoint delete_first (flt : dict) (l : list dict) : list dict :=
  match l with
  | [] => []
  | doc :: l' => if matches flt doc then l' else doc :: delete_first flt l'
  end.

(** [db[collection].replace_one(filter, doc)]: the first match is replaced
    where it stands; without a match nothing is written (no upsert). *)
Definition replace_one (collection : string) (flt new : dict) (d : database) : database :=
  alter (replace_first flt new) collection d.

(** [db[collection].delete_one(filter)] *)
Definition delete_one (collection : string) (flt : dict) (d : database) : database :=
  alter (delete_first flt) collection d.

(** [strip_mongo_ids] on one document *)
Definition strip_mongo_ids (doc : dict) : dict := dict_pop "_id" doc.

(** ** The state and the monad of the methods *)

Record world := World {
  db : database;                             (** [self.db], the latest versions *)
  db_history : database;                     (** [self.db_history], every version *)
  cache : gmap string (gmap hkey (Z * dict));(** [self.__cache] *)
  used_time : Z;                             (** [self.used_time] *)
  console : list string;                     (** what [rich.print] was given, oldest first *)
  tick : nat                                 (** clock readings taken so far *)
}.

(** The exception classes the methods raise. [KeyError] is a subclass of
    [LookupError]. Messages are not modelled. *)
Inductive exn : Type :=
  | LookupError
  | KeyError
  | ValueError
  | NameError
  | AssertionError
  | TypeError.


Inductive result (A : Type) : Type :=
  | Ok (a : A)
  | Raised (e : exn).
Arguments Ok {A} a.
Arguments Raised {A} e.

Definition M (A : Type) : Type := world -> result A * world.

Definition ret {A} (a : A) : M A := fun w => (Ok a, w).
Definition raise {A} (e : exn) : M A := fun w => (Raised e, w).
Definition bind {A B} (m : M A) (k : A -> M B) : M B :=
  fun w => match m w with
           | (Ok a, w') => k a w'
           | (Raised e, w') => (Raised e, w')
           end.

Declare Scope py_scope.
Delimit Scope py_scope with py.
Notation "x <- c ;; k" := (bind c (fun x => k))
  (at level 100, c at next level, right associativity) : py_scope.
Notation "c ;;; k" := (bind c (fun _ => k))
  (at level 100, right associativity) : py_scope.
Local Open Scope py_scope.


(** [d[k]] *)
Definition getitem (k : string) (d : dict) : M value :=
  match dict_get k d with
  | Some v => ret v
  | None => raise KeyError
  end.

(** a [for] loop threading one variable *)
Fixpoint for_each {A B} (l : list A) (body : A -> B -> M B) (acc : B) : M B :=
  match l with
  | [] => ret acc
  | x :: l' => acc' <- body x acc ;; for_each l' body acc'
  end.

Definition rich_print (s : string) : M unit :=
  fun w => (Ok tt, World (db w) (db_history w) (cache w) (used_time w) (console w ++ [s]) (tick w)).

Definition set_db (d : database) : M unit :=
  fun w => (Ok tt, World d (db_history w) (cache w) (used_time w) (console w) (tick w)).

Definition set_db_history (d : database) : M unit :=
  fun w => (Ok tt, World (db w) d (cache w) (used_time w) (console w) (tick w)).

Definition set_cache (c : gmap string (gmap hkey (Z * dict))) : M unit :=
  fun w => (Ok tt, World (db w) (db_history w) c (used_time w) (console w) (tick w)).

Definition add_used_time (dt : Z) : M unit :=
  fun w => (Ok tt, World (db w) (db_history w) (cache w) (used_time w + dt) (console w) (tick w)).

Definition gets {A} (f : world -> A) : M A := fun w => (Ok (f w), w).

(** ** The methods of [MetadataCollector] *)

Section Methods.
Context `{Runtime}.

(** [time.time()] *)
Definition time_now : M Z :=
  fun w => (Ok (time_time (tick w)),
            World (db w) (db_history w) (cache w) (used_time w) (console w) (S (tick w))).

(** [get_timestamp_string] *)
Definition get_timestamp_string : M string :=
  fun w => (Ok (before_dot (utcnow_isoformat (tick w)) +:+ "Z"),
            World (db w) (db_history w) (cache w) (used_time w) (console w) (S (tick w))).

(** [MetadataCollector.__add_to_cache] *)
Definition add_to_cache (collection : string) (doc : dict) : M unit :=
  doc_id <- getitem "#id" doc ;;
  c <- gets cache ;;
  (match c !! collection with
   | None => set_cache (<[collection := ∅]> c)
   | Some _ => ret tt
   end) ;;;
  now <- time_now ;;
  match py_hash doc_id with
  | None => raise TypeError
  | Some k =>
      c <- gets cache ;;
      set_cache (<[collection := <[k := (now, doc)]> (default ∅ (c !! collection))]> c)
  end.

(** [MetadataCollector.__get_from_cache] *)
Definition get_from_cache (collection : string) (doc_id : value) : M (option dict) :=
  c <- gets cache ;;
  match c !! collection with
  | None => ret None
  | Some entries =>
      match py_hash doc_id with
      | None => raise TypeError
      | Some k =>
          match entries !! k with
          | None => ret None
          | Some (timestamp, doc) =>
              now <- time_now ;;
              if Z.gtb (now - timestamp) cache_timeout_s
              then set_cache (<[collection := delete k entries]> c) ;;; ret None
              else ret (Some doc)
          end
      end
  end.

(** [validate_schema] of [mmm/common.py] *)
Definition validate_schema (doc schema : dict) (errors : list string) (verbose : bool)
  : M (list string) :=
  if negb (dict_has "$id" schema) then raise ValueError else
  (if verbose
   then doc_id <- getitem "#id" doc ;;
        schema_id <- getitem "$id" schema ;;
        rich_print ("   Validating doc='" +:+ py_str doc_id +:+ "' against schema "
                    +:+ py_str schema_id)
   else ret tt) ;;;
  match jsonschema_validate doc schema with
  | None => ret errors
  | Some message =>
      doc_id <- getitem "#id" doc ;;
      schema_id <- getitem "$id" schema ;;
      let txt := "[red]Document='" +:+ py_str doc_id +:+ "' not valid for schema '"
                 +:+ py_str schema_id +:+ "'[/red]. Cause: " +:+ message in
      (if verbose then rich_print txt else ret tt) ;;;
      ret (errors ++ [txt])
  end.

(** [MetadataCollector.validate_document] *)
Definition validate_document (doc : dict) (collection : string) (exception : bool) : M bool :=
  errors <- validate_schema doc mmm_metadata [] false ;;
  errors <- match mmm_schemas !! collection with
            | None => rich_print ("[yellow]WARNING: no schema for '" +:+ collection +:+ "'") ;;;
                      ret errors
            | Some schema => validate_schema doc schema errors false
            end ;;
  match errors with
  | [] => ret true
  | _ =>
      for_each errors (fun e _ => rich_print ("[red]ERROR: " +:+ e)) tt ;;;
      if exception then raise ValueError else ret false
  end.

(** [MetadataCollector.get_documents] *)
Definition get_documents (collection : string) (mongo_filter : dict) (history : bool)
  : M (list dict) :=
  if negb (str_in collection collection_names) then raise LookupError else
  documents <- gets (fun w => find mongo_filter
                                (coll (if history then db_history w else db w) collection)) ;;
  ret (map strip_mongo_ids documents).

(** [MetadataCollector.get_identifiers] *)
Definition get_identifiers (collection : string) : M (list value) :=
  documents <- get_documents collection [] false ;;
  for_each documents (fun d ids => i <- getitem "#id" d ;; ret (ids ++ [i])) [].

(** [MetadataCollector.get_document]; [version = 0] is the default, no
    version asked for. *)
Definition get_document (collection : string) (document_id : value) (version : Z) : M dict :=
  t <- time_now ;;
  doc <- get_from_cache collection document_id ;;
  match doc with
  | Some (kv :: rest) =>
      t' <- time_now ;;
      add_used_time (t' - t) ;;;
      ret (kv :: rest)
  | _ =>
      (if negb (Z.eqb version 0) then rich_print "[purple]Using historical database" else ret tt) ;;;
      if negb (str_in collection collection_names) then raise LookupError else
      let mongo_filter :=
        if negb (Z.eqb version 0)
        then [("#id", document_id); ("#version", JNum version)]
        else [("#id", document_id)] in
      documents <- gets (fun w => find mongo_filter
                          (coll (if negb (Z.eqb version 0) then db_history w else db w) collection)) ;;
      match documents with
      | [] => raise LookupError
      | [d] =>
          let doc := strip_mongo_ids d in
          add_to_cache collection doc ;;;
          t' <- time_now ;;
          add_used_time (t' - t) ;;;
          ret doc
      | _ => raise AssertionError
      end
  end.

(** [MetadataCollector.get_document_history] *)
Definition get_document_history (collection : string) (document_id : value) : M (list dict) :=
  documents <- gets (fun w => map strip_mongo_ids
                                (find [("#id", document_id)] (coll (db_history w) collection))) ;;
  match documents with
  | [] => raise LookupError
  | _ => ret documents
  end.

(** [metadata["#version"] += 1] *)
Definition increment_version (metadata : dict) : M dict :=
  v <- getitem "#version" metadata ;;
  match v with
  | JNum n => ret (dict_set "#version" (JNum (n + 1)) metadata)
  | JBool b => ret (dict_set "#version" (JNum (Z.b2z b + 1)) metadata)
  | _ => raise TypeError
  end.

(** [MetadataCollector.replace_document]; an empty [author] is the default,
    no author given. *)
Definition replace_document (collection : string) (document_id : value) (document : dict)
    (author : string) (force : bool) : M dict :=
  doc_id <- getitem "#id" document ;;
  if negb (py_eq doc_id document_id) then raise ValueError else
  let author := if String.eqb author EmptyString then default_author else author in
  old_document <- get_document collection document_id 0 ;;
  let metadata := metadata_fields old_document in
  let old_contents := strip_metadata_fields old_document in
  metadata <- increment_version metadata ;;
  now <- get_timestamp_string ;;
  let metadata := dict_set "#modificationDate" (JStr now) metadata in
  let metadata := dict_set "#author" (JStr author) metadata in
  let contents := strip_metadata_fields document in
  (if py_eq (JDict contents) (JDict old_contents)
   then if force
        then rich_print ("[yellow]WARNING! document " +:+ py_str doc_id
                         +:+ " is identical to previous one")
        else raise AssertionError
   else ret tt) ;;;
  let new_document := dict_update metadata contents in
  validate_document new_document collection (negb force) ;;;
  d <- gets db ;;
  set_db (replace_one collection [("#id", document_id)] new_document d) ;;;
  h <- gets db_history ;;
  set_db_history (insert_one collection new_document h) ;;;
  ret new_document.

(** [MetadataCollector.insert_document]; an empty [author] is the default. *)
Definition insert_document (collection : string) (document : dict) (author : string)
    (force force_meta update : bool) : M dict :=
  let author := if String.eqb author EmptyString then default_author else author in
  if negb (str_in collection collection_names) then raise ValueError else
  doc_id <- getitem "#id" document ;;
  ids <- get_identifiers collection ;;
  if py_in doc_id ids then
    if update
    then replace_document collection doc_id document EmptyString force
    else raise NameError
  else
  new_document <-
    (if negb force_meta
     then now <- get_timestamp_string ;;
          let new_document :=
            [("#id", doc_id); ("#version", JNum 1); ("#creationDate", JStr now);
             ("#modificationDate", JStr now); ("#author", JStr author)] in
          ret (dict_update new_document (strip_metadata_fields document))
     else ret document) ;;
  validate_document new_document collection (negb force) ;;;
  d <- gets db ;;
  set_db (insert_one collection new_document d) ;;;
  h <- gets db_history ;;
  set_db_history (insert_one collection new_document h) ;;;
  ret new_document.

(** [MetadataCollector.delete_document] *)
Definition delete_document (collection : string) (document_id : value) : M unit :=
  d <- gets db ;;
  set_db (delete_one collection [("#id", document_id)] d).











(** ** Reference definitions the scanner is compared with *)



(** A link the scanner can look up without an exception other than a failed
    lookup: its target is hashable and the target collection holds at most one
    document under that identifier. *)
Definition link_checkable (w : world) (link : string * value) : bool :=
  match py_hash (snd link) with
  | Some _ => Nat.leb (length (find [("#id", snd link)] (coll (db w) (fst link)))) 1
  | None => false
  end.



End Methods.

(** ** Reference definitions for the cache *)

(** The entry [self.__cache] holds for a document, if any. *)
Definition cached (w : world) (collection : string) (doc_id : value) : option (Z * dict) :=
  match cache w !! collection, py_hash doc_id with
  | Some entries, Some k => entries !! k
  | _, _ => None
  end.

(** The document a [get_document] started in [w] takes from the cache: the
    entry must be a non-empty document and not older than the timeout at the
    reading of the clock that follows the first one. *)
Definition cache_answer `{Runtime} (w : world) (collection : string) (doc_id : value)
  : option dict :=
  match cached w collection doc_id with
  | Some (timestamp, kv :: rest) =>
      if Z.gtb (time_time (S (tick w)) - timestamp) cache_timeout_s then None
      else Some (kv :: rest)
  | _ => None
  end.

(** The filter and the store a [get_document] reads when the cache does not
    answer. *)
Definition lookup_filter (document_id : value) (version : Z) : dict :=
  if Z.eqb version 0 then [("#id", document_id)]
  else [("#id", document_id); ("#version", JNum version)].

Definition lookup_store (w : world) (version : Z) : database :=
  if Z.eqb version 0 then db w else db_history w.

(** The part of [get_document] that runs when the cache does not answer:
    the read of the store, the insertion into the cache and the time
    accounting, [t] being the first reading of the clock. *)
Definition fetch_from_store `{Runtime} (collection : string) (document_id : value)
    (version : Z) (t : Z) : M dict :=
  ((if negb (Z.eqb version 0) then rich_print "[purple]Using historical database" else ret tt) ;;;
   if negb (str_in collection collection_names) then raise LookupError else
   documents <- gets (fun w => find (lookup_filter document_id version)
                                 (coll (lookup_store w version) collection)) ;;
   match documents with
   | [] => raise LookupError
   | [d] =>
       let doc := strip_mongo_ids d in
       add_to_cache collection doc ;;;
       t' <- time_now ;;
       add_used_time (t' - t) ;;;
       ret doc
   | _ => raise AssertionError
   end)%py.

(** ** Reference definitions for the validator *)




(** The world with lines added to the console. *)
Definition printed (w : world) (lines : list string) : world :=
  World (db w) (db_history w) (cache w) (used_time w) (console w ++ lines) (tick w).

(** ** Reference definitions for the writes *)

(** The world after one more reading of the clock. *)
Definition ticked (w : world) : world :=
  World (db w) (db_history w) (cache w) (used_time w) (console w) (S (tick w)).

(** The timestamp [get_timestamp_string] returns in [w]. *)
Definition timestamp_at `{Runtime} (w : world) : string :=
  before_dot (utcnow_isoformat (tick w)) +:+ "Z".

(** The author a write records: the one given, or the default one. *)
Definition effective_author `{Runtime} (author : string) : string :=
  if String.eqb author EmptyString then default_author else author.

(** The document [replace_document] builds from the document [old] it read at
    version [n]: the metadata of [old] with the version incremented, the
    modification date and the author set, then the contents of the candidate. *)
Definition replaced_document (old document : dict) (author now : string) (n : Z) : dict :=
  dict_update
    (dict_set "#author" (JStr author)
       (dict_set "#modificationDate" (JStr now)
          (dict_set "#version" (JNum (n + 1)) (metadata_fields old))))
    (strip_metadata_fields document).

(** The metadata [insert_document] generates. *)
Definition generated_metadata (doc_id : value) (author now : string) : dict :=
  [("#id", doc_id); ("#version", JNum 1); ("#creationDate", JStr now);
   ("#modificationDate", JStr now); ("#author", JStr author)].

(** The world after a document is written to both stores: appended to both
    ([insert_document]) or replacing the current one ([replace_document]). *)
Definition stored (collection : string) (doc : dict) (w : world) : world :=
  World (insert_one collection doc (db w)) (insert_one collection doc (db_history w))
        (cache w) (used_time w) (console w) (tick w).

Definition restored (collection : string) (document_id : value) (doc : dict) (w : world)
  : world :=
  World (replace_one collection [("#id", document_id)] doc (db w))
        (insert_one collection doc (db_history w))
        (cache w) (used_time w) (console w) (tick w).

(** [#version] of a document, when it is a number. *)
Definition version_of (doc : dict) : option Z :=
  match dict_get "#version" doc with
  | Some (JNum n) => Some n
  | _ => None
  end.

(** The documents carry versions that never decrease along the list. *)
Fixpoint ascending_versions (docs : list dict) : bool :=
  match docs with
  | [] => true
  | d :: rest =>
      match rest with
      | [] => match version_of d with Some _ => true | None => false end
      | d' :: _ =>
          match version_of d, version_of d' with
          | Some n, Some n' => Z.leb n n' && ascending_versions rest
          | _, _ => false
          end
      end
  end.

(** ** The scanner, field by field *)




(** ** Reference definitions for the healthcheck *)

(** A computation that writes to neither store, whatever its outcome. *)
Definition read_only {A} (m : M A) : Prop :=
  forall w, db (snd (m w)) = db w /\ db_history (snd (m w)) = db_history w.





(** ** The other methods of [MetadataCollector] *)

Section MoreMethods.
Context `{Runtime}.

(** [json.dumps(doc, indent=2)], of the [json] library. *)
Variable json_dumps : dict -> string.

(** [MetadataCollector.__ensure_ids]. The counter of duplicates runs over all
    the collections; a document without [#id] stops the pass at once. *)
Definition ensure_ids : M unit :=
  errors <-
    for_each collection_names (fun c errors =>
      documents <- get_documents c [] false ;;
      ids <- for_each documents (fun doc ids =>
               match dict_get "#id" doc with
               | Some i => ret (ids ++ [i])
               | None => rich_print ("[red]" +:+ json_dumps doc) ;;; raise KeyError
               end) [] ;;
      r <- for_each ids (fun check_id acc =>
             if negb (py_in check_id (fst acc))
             then ret (fst acc ++ [check_id], snd acc)
             else rich_print ("[red]ERROR: collection " +:+ c +:+ " has duplicated id='"
                              +:+ py_str check_id +:+ "'") ;;;
                  ret (fst acc, (snd acc + 1)%nat)) ([], errors) ;;
      ret (snd r)) 0%nat ;;
  match errors with
  | O => ret tt
  | S _ => raise ValueError
  end.


(** [MetadataCollector.get_sensor] and the other wrappers of [get_document] *)
Definition get_sensor (identifier : value) : M dict := get_document "sensors" identifier 0.
Definition get_variable (identifier : value) : M dict := get_document "variables" identifier 0.
Definition get_station (identifier : value) : M dict := get_document "stations" identifier 0.
Definition get_unit (identifier : value) : M dict := get_document "units_old" identifier 0.
Definition get_people (identifier : value) : M dict := get_document "people" identifier 0.
Definition get_organization (identifier : value) : M dict :=
  get_document "organizations" identifier 0.

(** [MetadataCollector.reset_version_history] *)
Definition reset_version_history : M unit :=
  set_db_history ∅ ;;;
  for_each collection_names (fun col _ =>
    docs <- get_documents col [] false ;;
    for_each docs (fun doc _ =>
      v <- getitem "#version" doc ;;
      (if negb (py_eq v (JNum 1)) then
         i <- getitem "#id" doc ;;
         v <- getitem "#version" doc ;;
         rich_print ("modifying " +:+ col +:+ " " +:+ py_str i +:+ " v=" +:+ py_str v) ;;;
         i <- getitem "#id" doc ;;
         d <- gets db ;;
         set_db (replace_one col [("#id", i)] doc d)
       else ret tt) ;;;
      h <- gets db_history ;;
      set_db_history (insert_one col doc h)) tt) tt.

(** What a [for] loop goes through when it iterates over a JSON value: the
    elements of a list, the keys of an object, the characters of a string;
    a number, a boolean or [None] is not iterable. *)
Definition py_iter (v : value) : M (list value) :=
  match v with
  | JList l => ret l
  | JDict d => ret (map (fun kv => JStr (fst kv)) d)
  | JStr s => ret (map (fun c => JStr (String c EmptyString)) (list_ascii_of_string s))
  | _ => raise TypeError
  end.

(** [v[k]] for a string [k]: only an object can be indexed by a string. *)
Definition subscript (k : string) (v : value) : M value :=
  match v with
  | JDict d => getitem k d
  | _ => raise TypeError
  end.

(** The body of the loop of [get_contact_by_role]: [None] when the contact
    does not have the role, the loop going on. *)
Definition contact_by_role (role : string) (contact : value) : M (option (dict * string)) :=
  r <- subscript "role" contact ;;
  if py_eq r (JStr role) then
    match contact with
    | JDict c =>
        match dict_get "@people" c, dict_get "@organizations" c with
        | Some p, _ => d <- get_document "people" p 0 ;; ret (Some (d, "people"))
        | None, Some o => d <- get_document "organizations" o 0 ;;
                          ret (Some (d, "organizations"))
        | None, None => raise ValueError
        end
    | _ => raise TypeError
    end
  else ret None.

(** [MetadataCollector.get_contact_by_role]. The message of either
    [LookupError] reads [doc['#id']] first, which is a [KeyError] on a
    document without identifier. *)
Definition get_contact_by_role (doc : dict) (role : string) : M (dict * string) :=
  if negb (dict_has "contacts" doc) then getitem "#id" doc ;;; raise LookupError else
  contacts <- getitem "contacts" doc ;;
  contacts <- py_iter contacts ;;
  found <- for_each contacts (fun contact found =>
             match found with
             | Some _ => ret found
             | None => contact_by_role role contact
             end) None ;;
  match found with
  | Some r => ret r
  | None => getitem "#id" doc ;;; raise LookupError
  end.

(** [MetadataCollector.get_people_from_role]: the first contact of the
    sensor that has the role is taken for a person. *)
Definition get_people_from_role (sensor_id : value) (role : string) : M dict :=
  sensor <- get_sensor sensor_id ;;
  contacts <- getitem "contacts" sensor ;;
  contacts <- py_iter contacts ;;
  found <- for_each contacts (fun contact found =>
             match found with
             | Some _ => ret found
             | None =>
                 r <- subscript "role" contact ;;
                 if py_eq r (JStr role) then
                   p <- subscript "@people" contact ;;
                   d <- get_people p ;;
                   ret (Some d)
                 else ret None
             end) None ;;
  match found with
  | Some d => ret d
  | None => raise LookupError
  end.

(** [MetadataCollector.get_organization_from_role] *)
Definition get_organization_from_role (sensor_id : value) (role : string) : M dict :=
  sensor <- get_sensor sensor_id ;;
  contacts <- getitem "contacts" sensor ;;
  contacts <- py_iter contacts ;;
  found <- for_each contacts (fun contact found =>
             match found with
             | Some _ => ret found
             | None =>
                 r <- subscript "role" contact ;;
                 if py_eq r (JStr role) then
                   o <- subscript "@organizations" contact ;;
                   d <- get_organization o ;;
                   ret (Some d)
                 else ret None
             end) None ;;
  match found with
  | Some d => ret d
  | None => raise LookupError
  end.


(** [get_station_deployments], of which only the type matters here: its
    query uses a dotted path, which the filters of the model do not have. *)
Variable get_station_deployments : dict -> M (list (dict * value)).

(** [get_station_coordinates]. The loop over the reversed deployments
    breaks after its first round: it reads the last deployment, and leaves
    the three variables unbound when there is none ([UnboundLocalError], a
    [NameError]). *)
Definition get_station_coordinates (station : value) : M (value * value * value) :=
  station <- match station with
             | JStr _ => get_document "station" station 0
             | JDict d => ret d
             | _ => raise ValueError
             end ;;
  deployments <- get_station_deployments station ;;
  match rev deployments with
  | (deployment, _) :: _ =>
      where_ <- getitem "where" deployment ;;
      position <- subscript "position" where_ ;;
      latitude <- subscript "latitude" position ;;
      where_ <- getitem "where" deployment ;;
      position <- subscript "position" where_ ;;
      longitude <- subscript "longitude" position ;;
      where_ <- getitem "where" deployment ;;
      position <- subscript "position" where_ ;;
      depth <- subscript "depth" position ;;
      ret (latitude, longitude, depth)
  | [] => raise NameError
  end.

(** [MetadataCollector.drop_all] *)
Definition drop_all : M unit :=
  for_each collection_names (fun col _ =>
    docs <- get_documents col [] false ;;
    for_each docs (fun doc _ =>
      i <- getitem "#id" doc ;;
      delete_document col i) tt) tt.

End MoreMethods.

(** ** Reference definitions for the other methods *)

(** The number of identifiers of the list that [==] an identifier met before
    them, [seen] being those met so far by [__ensure_ids]. *)
Fixpoint duplicates (ids seen : list value) : nat :=
  match ids with
  | [] => O
  | i :: rest =>
      if py_in i seen then S (duplicates rest seen) else duplicates rest (seen ++ [i])
  end.

(** The identifiers of documents, when each of them carries one. *)
Fixpoint identifiers_of (docs : list dict) : option (list value) :=
  match docs with
  | [] => Some []
  | d :: rest =>
      match dict_get "#id" d, identifiers_of rest with
      | Some i, Some ids => Some (i :: ids)
      | _, _ => None
      end
  end.

(** A computation that prints, and leaves the stores, the cache and the clock
    as they were. *)
Definition prints_only {A} (m : M A) : Prop :=
  forall w, exists lines, snd (m w) = printed w lines.

(** Every entry of the cache is filed under the hash of the [#id] of the
    document it holds. *)
Definition cache_wf (c : gmap string (gmap hkey (Z * dict))) : Prop :=
  forall collection entries k timestamp doc,
    c !! collection = Some entries -> entries !! k = Some (timestamp, doc) ->
    exists i, dict_get "#id" doc = Some i /\ py_hash i = Some k.

(** ** [mmm/common.py]: strings and dictionaries *)

(** [s.replace(old, new)] for one-character [old] and [new]. On the bytes of
    a UTF-8 string this is the replacement of the character: an ASCII byte is
    never part of the encoding of another character. *)
Fixpoint replace_char (old new : ascii) (s : string) : string :=
  match s with
  | EmptyString => EmptyString
  | String c s' => String (if Ascii.eqb c old then new else c) (replace_char old new s')
  end.

(** [s.lower()] on ASCII text. *)
Definition lower_char (c : ascii) : ascii :=
  let n := nat_of_ascii c in
  if Nat.leb 65 n && Nat.leb n 90 then ascii_of_nat (n + 32) else c.

Fixpoint lower (s : string) : string :=
  match s with
  | EmptyString => EmptyString
  | String c s' => String (lower_char c) (lower s')
  end.

Definition is_ascii (s : string) : bool :=
  forallb (fun c => Nat.ltb (nat_of_ascii c) 128) (list_ascii_of_string s).

Definition forbidden_chars : list ascii :=
  [":"; "@"; "$"; "%"; "&"; "/"; "+"; ","; ";"; " "; "-"]%char.

(** [normalize_string] *)
Definition normalize_string (instring : string) (lower_case : bool) : string :=
  let outstring :=
    fold_left (fun outstring char => replace_char char "_" outstring) forbidden_chars instring in
  if lower_case then lower outstring else outstring.

(** The character [normalize_string] puts in the place of [c]. *)
Definition normalized_char (lower_case : bool) (c : ascii) : ascii :=
  let c' := if existsb (Ascii.eqb c) forbidden_chars then "_"%char else c in
  if lower_case then lower_char c' else c'.

Fixpoint map_string (f : ascii -> ascii) (s : string) : string :=
  match s with
  | EmptyString => EmptyString
  | String c s' => String (f c) (map_string f s')
  end.

(** A Python dictionary with keys of any hashable type whose [==] is
    equality (strings, integers): an association list in insertion order. *)
Section Dictionaries.
Context {K V : Type} `{EqDecision K}.

Fixpoint assoc_get (k : K) (d : list (K * V)) : option V :=
  match d with
  | [] => None
  | (k', v) :: d' => if decide (k = k') then Some v else assoc_get k d'
  end.

(** [d[k] = v]: an existing key keeps its position, a new key goes last. *)
Fixpoint assoc_set (k : K) (v : V) (d : list (K * V)) : list (K * V) :=
  match d with
  | [] => [(k, v)]
  | (k', v') :: d' => if decide (k = k') then (k', v) :: d' else (k', v') :: assoc_set k v d'
  end.

End Dictionaries.

(** [reverse_dictionary]: [{value: key for key, value in data.items()}] *)
Definition reverse_dictionary {K V : Type} `{EqDecision V} (data : list (K * V))
  : list (V * K) :=
  fold_left (fun acc kv => assoc_set (snd kv) (fst kv) acc) data [].

(** [s.split(sep)] for a one-character separator *)
Fixpoint split_on (sep : ascii) (s : string) : list string :=
  match s with
  | EmptyString => [EmptyString]
  | String c s' =>
      if Ascii.eqb c sep then EmptyString :: split_on sep s'
      else match split_on sep s' with
           | seg :: segs => String c seg :: segs
           | [] => [String c EmptyString]
           end
  end.

(** [sep.join(segs)] *)
Fixpoint join (sep : string) (segs : list string) : string :=
  match segs with
  | [] => EmptyString
  | seg :: rest =>
      match rest with
      | [] => seg
      | _ => seg +:+ sep +:+ join sep rest
      end
  end.

(** [sep in s] for a one-character [sep] *)
Definition contains (sep : ascii) (s : string) : bool :=
  existsb (Ascii.eqb sep) (list_ascii_of_string s).

(** What [__get_field] returns, [(True, value)] or [(False, None)], or the
    [AttributeError] it raises when it is handed something that is not a
    dictionary and has no [keys]. *)
Inductive field : Type :=
  | Found (v : value)
  | Missing
  | AttributeError.

(** [__get_field], by recursion on the segments of the key: the source
    splits the key at every call, looks the first segment up and goes on with
    the other segments joined again. *)
Fixpoint get_path (doc : value) (keys : list string) : field :=
  match doc with
  | JDict d =>
      match keys with
      | [] => Missing
      | key :: rest =>
          match rest with
          | [] => match dict_get key d with
                  | Some v => Found v
                  | None => Missing
                  end
          | _ => match dict_get key d with
                 | Some v => get_path v rest
                 | None => Missing
                 end
          end
      end
  | _ => AttributeError
  end.

Definition get_field (doc : value) (key : string) : field :=
  get_path doc (split_on "/" key).

(** [load_fields_from_dict]; [rename] is a dictionary from strings to
    strings, in insertion order. [None] is the [AttributeError] of
    [__get_field]. *)
Definition load_fields_from_dict (doc : dict) (fields : list string)
    (rename : list (string * string)) : option dict :=
  match
    fold_left (fun results field =>
                 match results with
                 | None => None
                 | Some results =>
                     match get_field (JDict doc) field with
                     | Found result => Some (dict_set field result results)
                     | Missing => Some results
                     | AttributeError => None
                     end
                 end) fields (Some [])
  with
  | None => None
  | Some results =>
      Some (fold_left (fun results kv =>
                         match dict_get (fst kv) results with
                         | Some v => dict_set (snd kv) v (dict_pop (fst kv) results)
                         | None => results
                         end) rename results)
  end.

(** The loop of [detect_common_path]: [rest] is what is left of the first
    path from index [i] on, so that [path_splits[0][i]] is its head, and an
    [IndexError], written [None], when nothing is left. *)
Fixpoint common_index (rest : list string) (others : list (list string)) (i : nat)
  : option nat :=
  match rest with
  | [] => None
  | compare :: rest' =>
      if existsb (fun p => Nat.leb (length p) i
                           || negb (String.eqb compare (nth i p EmptyString))) others
      then Some i
      else common_index rest' others (S i)
  end.

(** [detect_common_path]: what it hands to [rich.print], and what it
    returns, [None] for an [IndexError]. *)
Definition detect_common_path (paths : list string) : list string * option string :=
  (paths,
   match map (split_on "/") paths with
   | [] => None
   | first :: others =>
       match common_index first others 0 with
       | Some i => Some (join "/" (firstn i first) +:+ "/")
       | None => None
       end
   end).

(** ** A concrete environment and concrete states, for the examples *)

(** A validator that knows one keyword: a schema with ["required": k] rejects
    the documents that lack the key [k]. *)
Definition demo_validate (doc schema : dict) : option string :=
  match dict_get "required" schema with
  | Some (JStr k) =>
      if dict_has k doc then None else Some ("'" +:+ k +:+ "' is a required property")
  | _ => None
  end.

(** Every reading of the clock comes one second after the one before. *)
Definition demo_runtime : Runtime := {|
  default_author := "admin";
  mmm_metadata := [("$id", JStr "mmm:metadata"); ("required", JStr "#id")];
  mmm_schemas := {["sensors" := [("$id", JStr "mmm:sensors"); ("required", JStr "name")]]};
  jsonschema_validate := demo_validate;
  time_time := fun n => Z.of_nat n;
  utcnow_isoformat := fun n => "2022-11-30T10:00:" +:+ pretty n +:+ ".250000"
|}.

(** The collector right after [__init__] on empty databases. *)
Definition empty_world : world := World ∅ ∅ ∅ 0 [] 0.

(** Run a method and keep the world it leaves. *)
Definition exec {A} (m : M A) (w : world) : world := snd (m w).

(** The same environment with a clock that jumps by 1000 seconds at its
    sixth reading. *)
Definition jump_runtime : Runtime := {|
  default_author := "admin";
  mmm_metadata := [("$id", JStr "mmm:metadata"); ("required", JStr "#id")];
  mmm_schemas := {["sensors" := [("$id", JStr "mmm:sensors"); ("required", JStr "name")]]};
  jsonschema_validate := demo_validate;
  time_time := fun n => if Nat.ltb n 5 then Z.of_nat n else Z.of_nat n + 1000;
  utcnow_isoformat := fun n => "2022-11-30T10:00:" +:+ pretty n +:+ ".250000"
|}.

Definition sensor_ctd : dict := [("#id", JStr "s1"); ("name", JStr "CTD")].
Definition sensor_ctd2 : dict := [("#id", JStr "s1"); ("name", JStr "CTD-2")].

(** The scenario of the specification: a sensor is inserted, then replaced. *)
Definition w_inserted : world :=
  exec (insert_document (H := demo_runtime) "sensors" sensor_ctd EmptyString false false false)
       empty_world.

Definition w_replaced : world :=
  exec (replace_document (H := demo_runtime) "sensors" (JStr "s1") sensor_ctd2 EmptyString false)
       w_inserted.

(** ... then deleted, and inserted again. *)
Definition w_deleted : world := exec (delete_document "sensors" (JStr "s1")) w_replaced.

Definition w_reinserted : world :=
  exec (insert_document (H := demo_runtime) "sensors" sensor_ctd EmptyString false false false)
       w_deleted.

(** Under the jumping clock: inserted, then replaced. The cache entry the
    replace has left (version 1) is expired at the next reading of the clock. *)
Definition w_replaced_late : world :=
  exec (replace_document (H := jump_runtime) "sensors" (JStr "s1") sensor_ctd2 EmptyString false)
    (exec (insert_document (H := jump_runtime) "sensors" sensor_ctd EmptyString
             false false false)
       empty_world).

(** ... then read, which caches version 2, then deleted. The collection is
    empty and the cache still holds version 2. *)
Definition w_emptied : world :=
  exec (delete_document "sensors" (JStr "s1"))
    (exec (get_document (H := jump_runtime) "sensors" (JStr "s1") 0) w_replaced_late).

(** Version 1 of the sensor, as the first insert of the scenario stores it. *)
Definition sensor_v1 : dict :=
  [("#id", JStr "s1"); ("#version", JNum 1);
   ("#creationDate", JStr "2022-11-30T10:00:0Z");
   ("#modificationDate", JStr "2022-11-30T10:00:0Z");
   ("#author", JStr "admin"); ("name", JStr "CTD")].

(** The scenario after the insert, then read. *)
Definition w_read : world :=
  exec (get_document (H := demo_runtime) "sensors" (JStr "s1") 0) w_inserted.

(** Under the jumping clock, after the replace: version 1 read from the
    history. *)
Definition w_read_v1 : world :=
  exec (get_document (H := jump_runtime) "sensors" (JStr "s1") 1) w_replaced_late.



(** A stand-in for [json.dumps(doc, indent=2)]. *)
Definition demo_json_dumps (doc : dict) : string := py_repr (JDict doc).




(** A second sensor, as given and as stored after the first one. *)
Definition sensor_adcp : dict := [("#id", JStr "s2"); ("name", JStr "ADCP")].

Definition sensor_adcp_v1 : dict :=
  [("#id", JStr "s2"); ("#version", JNum 1);
   ("#creationDate", JStr "2022-11-30T10:00:1Z");
   ("#modificationDate", JStr "2022-11-30T10:00:1Z");
   ("#author", JStr "admin"); ("name", JStr "ADCP")].

Definition w_two : world :=
  exec (insert_document (H := demo_runtime) "sensors" sensor_adcp EmptyString
          false false false) w_inserted.

(** A database that holds the sensor twice. *)
Definition w_duplicated : world :=
  World {["sensors" := [sensor_v1; sensor_v1]]} ∅ ∅ 0 [] 0.

(** A sensor with two contacts: a person who maintains it and an
    organization that owns it. *)
Definition contact_maintainer : dict := [("role", JStr "maintainer"); ("@people", JStr "bob")].
Definition contact_owner : dict := [("role", JStr "owner"); ("@organizations", JStr "upc")].

Definition sensor_contacts : dict :=
  [("#id", JStr "s3"); ("#version", JNum 1); ("#author", JStr "admin");
   ("name", JStr "SBE37");
   ("contacts", JList [JDict contact_maintainer; JDict contact_owner])].

Definition w_contacts : world :=
  World {["sensors" := [sensor_contacts]]} ∅ ∅ 0 [] 0.

(** ... after the sensor has been read. *)
Definition w_contacts_read : world :=
  exec (get_sensor (H := demo_runtime) (JStr "s3")) w_contacts.

(** Under the jumping clock, the world in which the collection is empty and
    the cache still holds version 2, after a replace. *)
Definition w_history_only : world :=
  exec (replace_document (H := jump_runtime) "sensors" (JStr "s1") sensor_ctd EmptyString false)
    w_emptied.

(** A table of two names. *)
Definition short_names : list (string * string) := [("temperature", "TEMP"); ("salinity", "PSAL")].

(** Version 2 of the sensor, as the replace of the scenario stores it. *)
Definition sensor_v2 : dict :=
  [("#id", JStr "s1"); ("#version", JNum 2);
   ("#creationDate", JStr "2022-11-30T10:00:0Z");
   ("#modificationDate", JStr "2022-11-30T10:00:4Z");
   ("#author", JStr "admin"); ("name", JStr "CTD-2")].

(** * Properties *)

(** ** Dictionaries *)

Lemma dict_get_pop_ne (k k' : string) (d : dict) :
  k <> k' -> dict_get k (dict_pop k' d) = dict_get k d.
Proof.
  intros Hne. induction d as [|[k0 v0] d IH]; simpl; [reflexivity|].
  destruct (String.eqb k' k0) eqn:E'.
  - apply String.eqb_eq in E'. subst k0.
    destruct (String.eqb k k') eqn:E; [apply String.eqb_eq in E; contradiction|reflexivity].
  - simpl. destruct (String.eqb k k0); [reflexivity|apply IH].
Qed.

Lemma dict_pop_absent (k : string) (d : dict) :
  dict_get k d = None -> dict_pop k d = d.
Proof.
  induction d as [|[k0 v0] d IH]; simpl; [reflexivity|].
  destruct (String.eqb k k0); [discriminate|]. intros Hd. now rewrite IH.
Qed.

Lemma dict_get_set_eq (k : string) (v : value) (d : dict) :
  dict_get k (dict_set k v d) = Some v.
Proof.
  induction d as [|[k0 v0] d IH]; simpl.
  - now rewrite String.eqb_refl.
  - destruct (String.eqb k k0) eqn:E; simpl; rewrite E; [reflexivity|apply IH].
Qed.

Lemma dict_get_set_ne (k k' : string) (v : value) (d : dict) :
  k <> k' -> dict_get k (dict_set k' v d) = dict_get k d.
Proof.
  intros Hne. induction d as [|[k0 v0] d IH]; simpl.
  - destruct (String.eqb k k') eqn:E; [apply String.eqb_eq in E; contradiction|reflexivity].
  - destruct (String.eqb k' k0) eqn:E'; simpl.
    + apply String.eqb_eq in E'. subst k0.
      destruct (String.eqb k k') eqn:E; [apply String.eqb_eq in E; contradiction|reflexivity].
    + destruct (String.eqb k k0); [reflexivity|apply IH].
Qed.



Lemma dict_get_None_keys (k : string) (d : dict) :
  dict_get k d = None <-> ~ In k (keys d).
Proof.
  induction d as [|[k0 v0] d IH]; simpl; [tauto|].
  destruct (String.eqb k k0) eqn:E.
  - apply String.eqb_eq in E. subst. split; [discriminate|intros Hn; exfalso; apply Hn; now left].
  - apply String.eqb_neq in E. rewrite IH. split.
    + intros Hn [Heq|Hin]; [congruence|contradiction].
    + intros Hn Hin. apply Hn. now right.
Qed.


Lemma dict_get_update_outside (k : string) (d other : dict) :
  ~ In k (keys other) -> dict_get k (dict_update d other) = dict_get k d.
Proof.
  unfold dict_update. revert d.
  induction other as [|[k0 v0] other IH]; intros d Hk; simpl; [reflexivity|].
  rewrite IH.
  - apply dict_get_set_ne. intros ->. apply Hk. now left.
  - intros Hin. apply Hk. now right.
Qed.

Lemma strip_metadata_fields_keys (doc : dict) (k : string) :
  In k (keys (strip_metadata_fields doc)) -> startswith "#" k = false.
Proof.
  unfold keys, strip_metadata_fields. intros Hin.
  apply in_map_iff in Hin. destruct Hin as [[k0 v0] [Hk Hin]]. simpl in Hk. subst k0.
  apply filter_In in Hin. destruct Hin as [_ Hf]. simpl in Hf.
  now apply negb_true_iff in Hf.
Qed.

Lemma strip_metadata_fields_NoDup (doc : dict) :
  List.NoDup (keys doc) -> List.NoDup (keys (strip_metadata_fields doc)).
Proof.
  unfold keys, strip_metadata_fields.
  induction doc as [|[k v] doc IH]; simpl; intros Hnd; [constructor|].
  apply NoDup_cons_iff in Hnd. destruct Hnd as [Hk Hnd].
  destruct (negb (startswith "#" k)); simpl; [|now apply IH].
  constructor; [|now apply IH].
  intros Hin. apply Hk. apply in_map_iff in Hin. destruct Hin as [x [Hx Hin]].
  apply filter_In in Hin. destruct Hin as [Hin _]. apply in_map_iff. now exists x.
Qed.

(** ** The database *)

Lemma coll_insert_one (c : string) (doc : dict) (d : database) :
  coll (insert_one c doc d) c = coll d c ++ [doc].
Proof. unfold coll, insert_one. now rewrite lookup_insert_eq. Qed.

Lemma coll_alter (f : list dict -> list dict) (c : string) (d : database) :
  f [] = [] -> coll (alter f c d) c = f (coll d c).
Proof.
  intros Hf. unfold coll. rewrite lookup_alter_eq.
  destruct (d !! c); simpl; [reflexivity|now rewrite Hf].
Qed.

Lemma coll_alter_ne (f : list dict -> list dict) (c c' : string) (d : database) :
  c <> c' -> coll (alter f c d) c' = coll d c'.
Proof. intros Hne. unfold coll. now rewrite lookup_alter_ne. Qed.

Lemma find_app (flt : dict) (l l' : list dict) :
  find flt (l ++ l') = find flt l ++ find flt l'.
Proof. apply List.filter_app. Qed.

Lemma find_matches (flt doc : dict) (l : list dict) :
  In doc (find flt l) -> matches flt doc = true.
Proof. unfold find. intros Hin. apply filter_In in Hin. tauto. Qed.




(** ** delete *)


(** ** get and the cache *)

Ltac run :=
  unfold bind, ret, raise, gets, getitem, set_cache, set_db, set_db_history,
    add_used_time, rich_print, time_now, get_timestamp_string in *;
  simpl in *.

Lemma value_eqb_hash (a b : value) :
  value_eqb a b = true -> py_hash a = py_hash b.
Proof.
  destruct a, b; simpl; try discriminate; try reflexivity; intros E.
  - apply Bool.eqb_prop in E. now subst.
  - apply Z.eqb_eq in E. now subst.
  - apply String.eqb_eq in E. now subst.
Qed.


(** A document found under an identifier carries that identifier. *)
Lemma matches_id (document_id : value) (flt doc : dict) :
  matches (("#id", document_id) :: flt) doc = true ->
  exists v, dict_get "#id" doc = Some v /\ value_eqb v document_id = true.
Proof.
  unfold matches. simpl. intros Hm. apply andb_true_iff in Hm. destruct Hm as [Hm _].
  destruct (dict_get "#id" doc) as [v|]; [|discriminate]. now exists v.
Qed.

Lemma lookup_filter_matches_id (document_id : value) (version : Z) (doc : dict) :
  matches (lookup_filter document_id version) doc = true ->
  exists v, dict_get "#id" doc = Some v /\ value_eqb v document_id = true.
Proof.
  unfold lookup_filter. destruct (Z.eqb version 0); apply matches_id.
Qed.

Lemma strip_mongo_ids_id (doc : dict) :
  dict_get "#id" (strip_mongo_ids doc) = dict_get "#id" doc.
Proof. unfold strip_mongo_ids. now apply dict_get_pop_ne. Qed.

Section Properties.
Context `{Runtime}.

(** A fresh, non-empty cache entry answers [get_document] whatever the
    version asked for: neither store is read. *)
Lemma get_document_hit (collection : string) (document_id : value) (version : Z)
    (w : world) (doc : dict) :
  cache_answer w collection document_id = Some doc ->
  get_document collection document_id version w
  = (Ok doc, World (db w) (db_history w) (cache w)
               (used_time w + (time_time (S (S (tick w))) - time_time (tick w)))
               (console w) (S (S (S (tick w))))).
Proof.
  unfold cache_answer, cached, get_document, get_from_cache. run.
  destruct (cache w !! collection) as [entries|]; [|discriminate].
  destruct (py_hash document_id) as [k|]; [|discriminate].
  destruct (entries !! k) as [[timestamp [|kv rest]]|]; try discriminate.
  destruct (Z.gtb _ _); [discriminate|].
  intros [= <-]. reflexivity.
Qed.

(** What a [get_document] that returns has done: either the cache answered,
    or the store was read in a world that differs from the initial one in the
    cache and the clock only. *)
Lemma get_document_cases (collection : string) (document_id : value) (version : Z)
    (w w' : world) (r : result dict) :
  get_document collection document_id version w = (r, w') ->
  (exists doc, r = Ok doc /\ cache_answer w collection document_id = Some doc) \/
  (r = Raised TypeError /\ py_hash document_id = None /\
   db w' = db w /\ db_history w' = db_history w) \/
  (cache_answer w collection document_id = None /\
   exists w1, db w1 = db w /\ db_history w1 = db_history w /\
     fetch_from_store collection document_id version (time_time (tick w)) w1 = (r, w')).
Proof.
  unfold cache_answer, cached, get_document, get_from_cache, fetch_from_store,
    lookup_filter, lookup_store.
  destruct w as [d h c u o t]. run.
  destruct (c !! collection) as [entries|] eqn:Ec; simpl.
  - destruct (py_hash document_id) as [k|] eqn:Ek; simpl.
    + destruct (entries !! k) as [[timestamp cdoc]|] eqn:Ee; simpl.
      * destruct (Z.gtb (time_time (S t) - timestamp) cache_timeout_s) eqn:Eg; simpl.
        -- intros Hget. right. right. split; [now destruct cdoc|].
           eexists. split; [|split; [|destruct (Z.eqb version 0); exact Hget]]; reflexivity.
        -- destruct cdoc as [|kv rest]; simpl.
           ++ intros Hget. right. right. split; [reflexivity|].
              eexists. split; [|split; [|destruct (Z.eqb version 0); exact Hget]]; reflexivity.
           ++ intros [= <- <-]. left. eexists. split; reflexivity.
      * intros Hget. right. right. split; [reflexivity|].
        eexists. split; [|split; [|destruct (Z.eqb version 0); exact Hget]]; reflexivity.
    + intros [= <- <-]. right. left. auto.
  - intros Hget. right. right. split; [reflexivity|].
    eexists. split; [|split; [|destruct (Z.eqb version 0); exact Hget]]; reflexivity.
Qed.

(** The store read of [get_document], outcome by outcome. The stores are not
    written; on success the document read is in the cache under the collection
    and the identifier alone, stamped with the reading of the clock taken
    then. *)
Lemma fetch_from_store_spec (collection : string) (document_id : value) (version : Z)
    (t : Z) (w1 : world) :
  let docs := find (lookup_filter document_id version)
                (coll (lookup_store w1 version) collection) in
  exists w',
    fetch_from_store collection document_id version t w1
    = (if negb (str_in collection collection_names) then Raised LookupError
       else match docs with
            | [] => Raised LookupError
            | [h] => match py_hash document_id with
                     | Some _ => Ok (strip_mongo_ids h)
                     | None => Raised TypeError
                     end
            | _ => Raised AssertionError
            end, w') /\
    db w' = db w1 /\ db_history w' = db_history w1 /\
    (forall h, str_in collection collection_names = true -> docs = [h] ->
       py_hash document_id <> None ->
       tick w' = S (S (tick w1)) /\
       cached w' collection document_id = Some (time_time (tick w1), strip_mongo_ids h) /\
       strip_mongo_ids h <> []).
Proof.
  unfold fetch_from_store, add_to_cache, cached, lookup_store.
  destruct w1 as [d h c u o t1]. run.
  destruct (Z.eqb version 0) eqn:Ev; simpl;
    (destruct (str_in collection collection_names); simpl;
     [|eexists; (split; [reflexivity|]); (split; [reflexivity|]); (split; [reflexivity|]); intros; congruence]);
    (destruct (find _ _) as [|h0 [|h1 rest]] eqn:Ef; simpl;
     [eexists; (split; [reflexivity|]); (split; [reflexivity|]); (split; [reflexivity|]); intros; congruence
     | |eexists; (split; [reflexivity|]); (split; [reflexivity|]); (split; [reflexivity|]); intros; congruence]);
    (assert (Hm : matches (lookup_filter document_id version) h0 = true)
       by (eapply find_matches; rewrite Ef; now left));
    apply lookup_filter_matches_id in Hm; destruct Hm as [v0 [Hv0 Heq]];
    rewrite strip_mongo_ids_id, Hv0; simpl;
    rewrite (value_eqb_hash _ _ Heq);
    (assert (Hne : strip_mongo_ids h0 <> [])
       by (intros Hnil; pose proof (strip_mongo_ids_id h0) as Hid;
           rewrite Hnil, Hv0 in Hid; discriminate));
    destruct (c !! collection) as [entries|] eqn:Ec; simpl;
    destruct (py_hash document_id) as [k|] eqn:Ek; simpl;
    eexists; (split; [reflexivity|]); (split; [reflexivity|]); (split; [reflexivity|]);
    intros h' _ [= <-] Hhash; try congruence; simpl;
    rewrite ?lookup_insert_eq, ?Ec; simpl; rewrite ?lookup_insert_eq; simpl;
    rewrite ?lookup_insert_eq; auto.
Qed.

Lemma lookup_store_frame (w w1 : world) (version : Z) :
  db w1 = db w -> db_history w1 = db_history w ->
  lookup_store w1 version = lookup_store w version.
Proof. unfold lookup_store. intros -> ->. reflexivity. Qed.

(** A [get_document] that returns a document without the cache answering has
    read exactly one document from the store and has put it in the cache. *)
Lemma get_document_miss (collection : string) (document_id : value) (version : Z)
    (w w' : world) (doc : dict) :
  cache_answer w collection document_id = None ->
  get_document collection document_id version w = (Ok doc, w') ->
  exists h n,
    str_in collection collection_names = true /\
    find (lookup_filter document_id version) (coll (lookup_store w version) collection) = [h] /\
    doc = strip_mongo_ids h /\ doc <> [] /\
    db w' = db w /\ db_history w' = db_history w /\
    tick w' = S (S n) /\
    cached w' collection document_id = Some (time_time n, doc).
Proof.
  intros Hmiss Hget.
  destruct (get_document_cases _ _ _ _ _ _ Hget)
    as [[doc' [_ Hhit]]|[[Hr _]|[_ [w1 [Hd [Hh Hfetch]]]]]]; [congruence|discriminate|].
  destruct (fetch_from_store_spec collection document_id version (time_time (tick w)) w1)
    as [w2 [Hspec [Hd2 [Hh2 Hcache]]]].
  rewrite Hfetch in Hspec. injection Hspec as Hr Hw. subst w2.
  rewrite (lookup_store_frame w w1 version Hd Hh) in *.
  destruct (str_in collection collection_names); simpl in Hr; [|discriminate].
  destruct (find _ _) as [|h [|h1 rest]]; try discriminate.
  destruct (py_hash document_id) as [k|] eqn:Ek; [|discriminate].
  injection Hr as ->.
  destruct (Hcache h eq_refl eq_refl) as [Ht [Hc Hne]]; [discriminate|].
  exists h, (tick w1). repeat split; try assumption; congruence.
Qed.

(** C10. A [get_document] that returns a document without the cache answering,
    with or without a version, has read exactly one document from the store it
    addresses (the history store filtered by identifier and version when a
    version is given) and has put it in the cache under the collection and the
    identifier alone. A [get_document] without version that follows, while the
    entry is not older than the timeout, returns that same document: after a
    read of version [v], the snapshot of version [v]. *)
Theorem get_document_caches_without_version (collection : string) (document_id : value)
    (version : Z) (w w' : world) (doc : dict) :
  cache_answer w collection document_id = None ->
  get_document collection document_id version w = (Ok doc, w') ->
  (exists h,
     find (lookup_filter document_id version) (coll (lookup_store w version) collection) = [h] /\
     doc = strip_mongo_ids h) /\
  exists n,
    tick w' = S (S n) /\
    cached w' collection document_id = Some (time_time n, doc) /\
    (time_time (S (tick w')) - time_time n <= cache_timeout_s ->
     fst (get_document collection document_id 0 w') = Ok doc).
Proof.
  intros Hmiss Hget.
  destruct (get_document_miss _ _ _ _ _ _ Hmiss Hget)
    as [h [n [_ [Hfind [Hdoc [Hne [_ [_ [Ht Hc]]]]]]]]].
  split; [now exists h|].
  exists n. split; [exact Ht|]. split; [exact Hc|].
  intros Hfresh. rewrite (get_document_hit collection document_id 0 w' doc); [reflexivity|].
  unfold cache_answer. rewrite Hc.
  destruct doc as [|kv rest]; [contradiction|].
  destruct (Z.gtb _ _) eqn:Eg; [|reflexivity].
  apply Z.gtb_lt in Eg. lia.
Qed.

(** ** The validator *)

Lemma printed_nil (w : world) : printed w [] = w.
Proof. destruct w. unfold printed. simpl. now rewrite app_nil_r. Qed.

Lemma printed_app (w : world) (l l' : list string) :
  printed (printed w l) l' = printed w (l ++ l').
Proof. unfold printed. simpl. now rewrite app_assoc. Qed.





(** ** Sequencing *)

Lemma bind_run {A B} (m : M A) (k : A -> M B) (w w1 : world) (a : A) :
  m w = (Ok a, w1) -> bind m k w = k a w1.
Proof. unfold bind. now intros ->. Qed.

(** [get_document] writes to neither store, whatever its outcome. *)
Lemma get_document_frame (collection : string) (document_id : value) (version : Z)
    (w w' : world) (r : result dict) :
  get_document collection document_id version w = (r, w') ->
  db w' = db w /\ db_history w' = db_history w.
Proof.
  intros Hget.
  destruct (get_document_cases _ _ _ _ _ _ Hget)
    as [[doc [-> Hhit]]|[[_ [_ Hfr]]|[_ [w1 [Hd [Hh Hfetch]]]]]].
  - rewrite (get_document_hit _ _ version _ _ Hhit) in Hget.
    injection Hget as <-. now split.
  - exact Hfr.
  - destruct (fetch_from_store_spec collection document_id version (time_time (tick w)) w1)
      as [w2 [Hspec [Hd2 [Hh2 _]]]].
    rewrite Hfetch in Hspec. injection Hspec as _ <-. split; congruence.
Qed.

Lemma dict_get_metadata_fields (k : string) (doc : dict) :
  startswith "#" k = true -> dict_get k (metadata_fields doc) = dict_get k doc.
Proof.
  intros Hk. unfold metadata_fields.
  induction doc as [|[k0 v0] doc IH]; simpl; [reflexivity|].
  destruct (String.eqb k k0) eqn:E.
  - apply String.eqb_eq in E. subst k0. rewrite Hk. simpl. now rewrite String.eqb_refl.
  - destruct (startswith "#" k0); simpl; [rewrite E|]; exact IH.
Qed.

Lemma dict_get_strip_metadata_fields (k : string) (doc : dict) :
  startswith "#" k = false -> dict_get k (strip_metadata_fields doc) = dict_get k doc.
Proof.
  intros Hk. unfold strip_metadata_fields.
  induction doc as [|[k0 v0] doc IH]; simpl; [reflexivity|].
  destruct (String.eqb k k0) eqn:E.
  - apply String.eqb_eq in E. subst k0. rewrite Hk. simpl. now rewrite String.eqb_refl.
  - destruct (negb (startswith "#" k0)); simpl; [rewrite E|]; exact IH.
Qed.

(** A metadata field of the document [replace_document] and [insert_document]
    build is the one of the metadata: the contents never override it. *)
Lemma dict_get_update_contents (k : string) (metadata document : dict) :
  startswith "#" k = true ->
  dict_get k (dict_update metadata (strip_metadata_fields document)) = dict_get k metadata.
Proof.
  intros Hk. apply dict_get_update_outside. intros Hin.
  apply strip_metadata_fields_keys in Hin. congruence.
Qed.

(** ** replace *)

(** [replace_document] once the old document has been read at version [n]. *)
Lemma replace_document_run (collection : string) (document_id : value)
    (document : dict) (author : string) (force : bool) (w w1 : world) (old : dict)
    (doc_id : value) (n : Z) :
  dict_get "#id" document = Some doc_id ->
  py_eq doc_id document_id = true ->
  get_document collection document_id 0 w = (Ok old, w1) ->
  dict_get "#version" old = Some (JNum n) ->
  let new := replaced_document old document (effective_author author)
               (timestamp_at w1) n in
  let same := py_eq (JDict (strip_metadata_fields document))
                (JDict (strip_metadata_fields old)) in
  replace_document collection document_id document author force w
  = if same && negb force then (Raised AssertionError, ticked w1)
    else
      match validate_document new collection (negb force)
              (if same
               then printed (ticked w1)
                      ["[yellow]WARNING! document " +:+ py_str doc_id
                       +:+ " is identical to previous one"]
               else ticked w1) with
      | (Ok _, w2) => (Ok new, restored collection document_id new w2)
      | (Raised e, w2) => (Raised e, w2)
      end.
Proof.
  intros Hid Heq Hget Hver new same.
  unfold replace_document.
  unfold getitem at 1. rewrite Hid.
  rewrite (bind_run (ret doc_id) _ w w doc_id eq_refl).
  rewrite Heq. cbn [negb].
  rewrite (bind_run _ _ _ _ _ Hget).
  unfold increment_version, getitem.
  rewrite (dict_get_metadata_fields "#version" old eq_refl), Hver.
  rewrite (bind_run (x <- ret (JNum n) ;; ret (dict_set "#version" (JNum (n + 1)) (metadata_fields old))) _ w1 w1 _ eq_refl).
  rewrite (bind_run get_timestamp_string _ w1 (ticked w1) (timestamp_at w1) eq_refl).
  fold (effective_author author).
  fold (replaced_document old document (effective_author author) (timestamp_at w1) n).
  fold new. fold same.
  destruct same; cbn [andb].
  - destruct force; cbn [negb].
    + rewrite (bind_run (rich_print _) _ (ticked w1) (printed (ticked w1) [_]) tt eq_refl).
      unfold bind at 1.
      destruct (validate_document _ _ _ _) as [[b|e] w2]; reflexivity.
    + reflexivity.
  - rewrite (bind_run (ret tt) _ (ticked w1) (ticked w1) tt eq_refl).
    unfold bind at 1.
    destruct (validate_document _ _ _ _) as [[b|e] w2]; reflexivity.
Qed.

Lemma replaced_document_get (k : string) (old document : dict) (author now : string) (n : Z) :
  startswith "#" k = true ->
  k <> "#author" -> k <> "#modificationDate" ->
  dict_get k (replaced_document old document author now n)
  = if String.eqb k "#version" then Some (JNum (n + 1)) else dict_get k old.
Proof.
  intros Hk Ha Hm. unfold replaced_document.
  rewrite (dict_get_update_contents k _ document Hk).
  rewrite dict_get_set_ne by exact Ha. rewrite dict_get_set_ne by exact Hm.
  destruct (String.eqb k "#version") eqn:E.
  - apply String.eqb_eq in E. subst k. apply dict_get_set_eq.
  - apply String.eqb_neq in E. rewrite dict_get_set_ne by exact E.
    now apply dict_get_metadata_fields.
Qed.


(** ** insert *)





(** With [update], an insert under an identifier the collection already holds
    is the replace of that document with no author given; without [update] it
    raises [NameError]. *)
Lemma insert_document_existing (collection : string) (document : dict) (author : string)
    (force force_meta update : bool) (w : world) (doc_id : value) (ids : list value) :
  str_in collection collection_names = true ->
  dict_get "#id" document = Some doc_id ->
  get_identifiers collection w = (Ok ids, w) ->
  py_in doc_id ids = true ->
  insert_document collection document author force force_meta update w
  = if update then replace_document collection doc_id document EmptyString force w
    else (Raised NameError, w).
Proof.
  intros Hc Hid Hids Hin. unfold insert_document. rewrite Hc. cbn [negb].
  unfold getitem at 1. rewrite Hid.
  rewrite (bind_run (ret doc_id) _ w w doc_id eq_refl).
  rewrite (bind_run _ _ _ _ _ Hids). rewrite Hin.
  destruct update; reflexivity.
Qed.

(** ** getHistory *)

(** C8, as the code has it. [get_document_history] returns the history
    entries that carry the identifier, all of them and no other, in the order
    of the history store, which is the order they were written in: an entry
    written later comes out last. It raises [LookupError] when there is none.
    The state is left as it was. *)
Theorem get_document_history_store_order (collection : string) (document_id : value)
    (w : world) :
  let entries := find [("#id", document_id)] (coll (db_history w) collection) in
  get_document_history collection document_id w
  = (match entries with
     | [] => Raised LookupError
     | _ => Ok (map strip_mongo_ids entries)
     end, w) /\
  (forall doc, In doc entries <->
     In doc (coll (db_history w) collection) /\ matches [("#id", document_id)] doc = true) /\
  (forall doc, matches [("#id", document_id)] doc = true ->
     fst (get_document_history collection document_id
            (World (db w) (insert_one collection doc (db_history w)) (cache w)
                   (used_time w) (console w) (tick w)))
     = Ok (map strip_mongo_ids entries ++ [strip_mongo_ids doc])).
Proof.
  intros entries. split; [|split].
  - unfold get_document_history, bind, gets. fold entries.
    destruct entries; reflexivity.
  - intros doc. unfold entries, find. apply filter_In.
  - intros doc Hm. unfold get_document_history, bind, gets. simpl.
    rewrite coll_insert_one, find_app. fold entries.
    change (find [("#id", document_id)] [doc])
      with (if matches [("#id", document_id)] doc then [doc] else []).
    rewrite Hm, map_app. simpl.
    destruct (map strip_mongo_ids entries ++ [strip_mongo_ids doc]) eqn:E; [|reflexivity].
    destruct (map strip_mongo_ids entries); discriminate.
Qed.

(** ** The scanner *)

Lemma value_ind_nested (P : value -> Prop) :
  P JNull -> (forall b, P (JBool b)) -> (forall n, P (JNum n)) -> (forall s, P (JStr s)) ->
  (forall l, Forall P l -> P (JList l)) ->
  (forall d, Forall (fun kv => P (snd kv)) d -> P (JDict d)) ->
  forall v, P v.
Proof.
  intros HNull HBool HNum HStr HList HDict.
  fix IH 1. intros [| b | n | s | l | d].
  - apply HNull.
  - apply HBool.
  - apply HNum.
  - apply HStr.
  - apply HList.
    exact ((fix go (l : list value) : Forall P l :=
              match l with
              | [] => List.Forall_nil P
              | x :: l' => @List.Forall_cons _ P x l' (IH x) (go l')
              end) l).
  - apply HDict.
    exact ((fix go (d : dict) : Forall (fun kv => P (snd kv)) d :=
              match d with
              | [] => List.Forall_nil _
              | kv :: d' => @List.Forall_cons _ _ kv d' (IH (snd kv)) (go d')
              end) d).
Qed.


















(** ** The healthcheck *)

Lemma read_only_ret {A} (a : A) : read_only (ret a).
Proof. intros w. now split. Qed.

Lemma read_only_raise {A} (e : exn) : read_only (@raise A e).
Proof. intros w. now split. Qed.

Lemma read_only_bind {A B} (m : M A) (k : A -> M B) :
  read_only m -> (forall a, read_only (k a)) -> read_only (bind m k).
Proof.
  intros Hm Hk w. unfold bind. specialize (Hm w).
  destruct (m w) as [[a|e] w1]; simpl in Hm; [|exact Hm].
  specialize (Hk a w1). destruct Hm as [<- <-]. exact Hk.
Qed.

Lemma read_only_rich_print (s : string) : read_only (rich_print s).
Proof. intros w. now split. Qed.

Lemma read_only_getitem (k : string) (d : dict) : read_only (getitem k d).
Proof. unfold getitem. destruct (dict_get k d); [apply read_only_ret|apply read_only_raise]. Qed.


Lemma read_only_for_each {A B} (l : list A) (body : A -> B -> M B) (acc : B) :
  (forall x acc, read_only (body x acc)) -> read_only (for_each l body acc).
Proof.
  intros Hbody. revert acc. induction l as [|x l IH]; intros acc; simpl.
  - apply read_only_ret.
  - apply read_only_bind; [apply Hbody|exact IH].
Qed.



Lemma read_only_validate_schema (doc schema : dict) (errors : list string) (verbose : bool) :
  read_only (validate_schema doc schema errors verbose).
Proof.
  unfold validate_schema.
  destruct (negb (dict_has "$id" schema)); [apply read_only_raise|].
  apply read_only_bind.
  - destruct verbose; [|apply read_only_ret].
    apply read_only_bind; [apply read_only_getitem|]. intros doc_id.
    apply read_only_bind; [apply read_only_getitem|]. intros schema_id.
    apply read_only_rich_print.
  - intros _. destruct (jsonschema_validate doc schema); [|apply read_only_ret].
    apply read_only_bind; [apply read_only_getitem|]. intros doc_id.
    apply read_only_bind; [apply read_only_getitem|]. intros schema_id.
    apply read_only_bind; [|intros _; apply read_only_ret].
    destruct verbose; [apply read_only_rich_print|apply read_only_ret].
Qed.













End Properties.

(** * The scenario of the specification, run *)

(** C8: after insert, replace, delete and a second insert of the same
    identifier, the history comes out with the versions 1, 2, 1. *)
Lemma history_not_ascending :
  exists docs,
    fst (get_document_history "sensors" (JStr "s1") w_reinserted) = Ok docs /\
    map version_of docs = [Some 1; Some 2; Some 1] /\
    ascending_versions docs = false.
Proof. eexists. split; [vm_compute; reflexivity|]. split; reflexivity. Qed.

(** C1. After the insert and the replace of the scenario the cache holds
    version 1 of the sensor. Asking for version 2 returns that cached
    version 1, although the history store holds exactly one entry of
    version 2: the cache is looked up before the version is considered. *)
Theorem get_document_version_answered_by_cache :
  exists cached_doc entry,
    fst (get_document (H := demo_runtime) "sensors" (JStr "s1") 2 w_replaced) = Ok cached_doc /\
    version_of cached_doc = Some 1 /\
    dict_get "name" cached_doc = Some (JStr "CTD") /\
    find (lookup_filter (JStr "s1") 2) (coll (db_history w_replaced) "sensors") = [entry] /\
    version_of entry = Some 2 /\
    dict_get "name" entry = Some (JStr "CTD-2").
Proof.
  eexists. eexists.
  split; [vm_compute; reflexivity|].
  split; [reflexivity|]. split; [reflexivity|].
  split; [vm_compute; reflexivity|].
  split; reflexivity.
Qed.

(** C5. An insert with [update] of an existing sensor, with the author
    "alice", records the default author: [insert_document] does not hand its
    author to [replace_document], and the replace with the same arguments
    records "alice". *)
Theorem insert_update_drops_author :
  exists via_insert via_replace,
    fst (insert_document (H := demo_runtime) "sensors" sensor_ctd2 "alice" false false true
           w_inserted) = Ok via_insert /\
    fst (replace_document (H := demo_runtime) "sensors" (JStr "s1") sensor_ctd2 "alice" false
           w_inserted) = Ok via_replace /\
    dict_get "#author" via_insert = Some (JStr "admin") /\
    dict_get "#author" via_replace = Some (JStr "alice").
Proof.
  eexists. eexists.
  split; [vm_compute; reflexivity|].
  split; [vm_compute; reflexivity|].
  split; reflexivity.
Qed.





(** * The theorems at work on the scenario *)

(** C10 on the scenario, under the jumping clock: after the replace the
    store holds version 2 and the cache entry is expired; a read of version 1
    caches the snapshot, and the read without version that follows is answered
    with version 1. *)
Lemma get_document_caches_without_version_witness :
  map version_of (coll (db w_replaced_late) "sensors") = [Some 2] /\
  version_of sensor_v1 = Some 1 /\
  (exists h,
     find (lookup_filter (JStr "s1") 1) (coll (lookup_store w_replaced_late 1) "sensors") = [h]
     /\ sensor_v1 = strip_mongo_ids h) /\
  exists n,
    tick w_read_v1 = S (S n) /\
    cached w_read_v1 "sensors" (JStr "s1")
    = Some (time_time (Runtime := jump_runtime) n, sensor_v1) /\
    (time_time (Runtime := jump_runtime) (S (tick w_read_v1))
     - time_time (Runtime := jump_runtime) n <= cache_timeout_s ->
     fst (get_document (H := jump_runtime) "sensors" (JStr "s1") 0 w_read_v1) = Ok sensor_v1).
Proof.
  split; [vm_compute; reflexivity|]. split; [reflexivity|].
  apply (get_document_caches_without_version (H := jump_runtime)
           "sensors" (JStr "s1") 1 w_replaced_late w_read_v1 sensor_v1).
  - vm_compute. reflexivity.
  - vm_compute. reflexivity.
Defined.






(** C8 on the scenario: the history of the sensor after the replace. *)
Lemma get_document_history_store_order_witness :
  get_document_history "sensors" (JStr "s1") w_replaced
  = (match find [("#id", JStr "s1")] (coll (db_history w_replaced) "sensors") with
     | [] => Raised LookupError
     | _ => Ok (map strip_mongo_ids
                  (find [("#id", JStr "s1")] (coll (db_history w_replaced) "sensors")))
     end, w_replaced) /\
  (forall doc,
     In doc (find [("#id", JStr "s1")] (coll (db_history w_replaced) "sensors")) <->
     In doc (coll (db_history w_replaced) "sensors")
     /\ matches [("#id", JStr "s1")] doc = true) /\
  (forall doc, matches [("#id", JStr "s1")] doc = true ->
     fst (get_document_history "sensors" (JStr "s1")
            (World (db w_replaced) (insert_one "sensors" doc (db_history w_replaced))
                   (cache w_replaced) (used_time w_replaced) (console w_replaced)
                   (tick w_replaced)))
     = Ok (map strip_mongo_ids
             (find [("#id", JStr "s1")] (coll (db_history w_replaced) "sensors"))
           ++ [strip_mongo_ids doc])).
Proof. apply (get_document_history_store_order "sensors" (JStr "s1") w_replaced). Defined.


(** * The other methods *)

Lemma value_eqb_refl (v : value) : value_eqb v v = true.
Proof.
  induction v as [| b | n | s | l IHl | d IHd] using value_ind_nested; simpl.
  - reflexivity.
  - apply Bool.eqb_reflx.
  - apply Z.eqb_refl.
  - apply String.eqb_refl.
  - induction IHl as [|x l Hx _ IH]; [reflexivity|]. now rewrite Hx, IH.
  - induction IHd as [|[k x] d Hx _ IH]; [reflexivity|].
    simpl in Hx. now rewrite String.eqb_refl, Hx, IH.
Qed.

Lemma str_in_In (s : string) (l : list string) : str_in s l = true <-> In s l.
Proof.
  unfold str_in. rewrite existsb_exists. split.
  - intros [x [Hin Heq]]. apply String.eqb_eq in Heq. now subst.
  - intros Hin. exists s. split; [exact Hin|apply String.eqb_refl].
Qed.

(** A document matches the filter on its own identifier. *)
Lemma matches_own_id (doc : dict) (i : value) :
  dict_get "#id" doc = Some i -> matches [("#id", i)] doc = true.
Proof. intros Hi. unfold matches. simpl. now rewrite Hi, value_eqb_refl. Qed.

(** The empty filter finds every document. *)
Lemma find_all (l : list dict) : find [] l = l.
Proof. induction l as [|x l IH]; [reflexivity|]. unfold find in *. simpl. now rewrite IH. Qed.

Section MoreProperties.
Context `{Runtime}.

(** [get_documents] without filter on a known collection: all its documents,
    as stored, without their [_id]. *)
Lemma get_documents_all (col : string) (w : world) :
  str_in col collection_names = true ->
  get_documents col [] false w = (Ok (map strip_mongo_ids (coll (db w) col)), w).
Proof.
  intros Hn. unfold get_documents. rewrite Hn. cbn [negb].
  unfold bind, gets, ret. now rewrite find_all.
Qed.

(** ** drop_all *)

(** The inner loop of [drop_all]: the documents of the collection, deleted
    one by one under their identifiers, in the order they were read. *)
Lemma drop_all_collection (col : string) (docs : list dict) (w : world) :
  coll (db w) col = docs ->
  (forall d, In d docs -> dict_has "#id" d = true) ->
  exists d',
    for_each (map strip_mongo_ids docs)
      (fun doc _ => bind (getitem "#id" doc) (fun i => delete_document col i)) tt w
    = (Ok tt, World d' (db_history w) (cache w) (used_time w) (console w) (tick w)) /\
    coll d' col = [] /\
    (forall c, c <> col -> coll d' c = coll (db w) c).
Proof.
  revert w. induction docs as [|doc docs IH]; intros w Hcoll Hids.
  - exists (db w). destruct w. simpl in *. auto.
  - assert (Hid : dict_has "#id" doc = true) by (apply Hids; now left).
    unfold dict_has in Hid. destruct (dict_get "#id" doc) as [i|] eqn:Ei; [|discriminate].
    set (w1 := World (delete_one col [("#id", i)] (db w)) (db_history w) (cache w)
                 (used_time w) (console w) (tick w)).
    assert (Hc1 : coll (db w1) col = docs).
    { unfold w1, delete_one. simpl. rewrite coll_alter by reflexivity.
      rewrite Hcoll. cbn [delete_first]. now rewrite (matches_own_id doc i Ei). }
    destruct (IH w1 Hc1) as [d' [Hrun [Hempty Hother]]].
    { intros d Hd. apply Hids. now right. }
    exists d'. split; [|split].
    + simpl. unfold bind at 1. unfold getitem at 1. rewrite strip_mongo_ids_id, Ei.
      unfold bind at 1. unfold ret at 1.
      change (delete_document col i w) with (Ok tt, w1). exact Hrun.
    + exact Hempty.
    + intros c Hne. rewrite (Hother c Hne). unfold w1, delete_one. simpl.
      apply coll_alter_ne. congruence.
Qed.

Lemma drop_all_collections (cols : list string) (w : world) :
  (forall col, In col cols -> str_in col collection_names = true) ->
  (forall col d, In col cols -> In d (coll (db w) col) -> dict_has "#id" d = true) ->
  exists d',
    for_each cols
      (fun col _ =>
         bind (get_documents col [] false)
           (fun docs => for_each docs
              (fun doc _ => bind (getitem "#id" doc) (fun i => delete_document col i)) tt)) tt w
    = (Ok tt, World d' (db_history w) (cache w) (used_time w) (console w) (tick w)) /\
    (forall col, In col cols -> coll d' col = []) /\
    (forall c, ~ In c cols -> coll d' c = coll (db w) c).
Proof.
  revert w. induction cols as [|col cols IH]; intros w Hnames Hids.
  - exists (db w). destruct w. simpl. split; [reflexivity|]. split; [intros col []|auto].
  - destruct (drop_all_collection col (coll (db w) col) w eq_refl) as [d1 [Hrun1 [He1 Ho1]]].
    { intros d Hd. apply (Hids col d); [now left|exact Hd]. }
    set (w1 := World d1 (db_history w) (cache w) (used_time w) (console w) (tick w)) in *.
    destruct (IH w1) as [d' [Hrun [Hempty Hother]]].
    { intros c Hc. apply Hnames. now right. }
    { intros c d Hc Hd. simpl in Hd. destruct (String.eqb_spec c col) as [->|Hne].
      - rewrite He1 in Hd. contradiction.
      - rewrite (Ho1 c Hne) in Hd. apply (Hids c d); [now right|exact Hd]. }
    exists d'. split; [|split].
    + simpl for_each.
      assert (Hn : str_in col collection_names = true) by (apply Hnames; now left).
      rewrite (bind_run _ _ w w1 tt); [exact Hrun|].
      rewrite (bind_run _ _ _ _ _ (get_documents_all col w Hn)). exact Hrun1.
    + intros c [<-|Hc].
      * destruct (in_dec string_dec col cols) as [Hin|Hnin]; [now apply Hempty|].
        now rewrite (Hother col Hnin).
      * now apply Hempty.
    + intros c Hnin. rewrite Hother by (intros Hc; apply Hnin; now right).
      simpl. apply Ho1. intros ->. apply Hnin. now left.
Qed.

(** X1. When every document of the known collections carries an [#id],
    [drop_all] succeeds and leaves every known collection of the current store
    empty, duplicates included. The history store and the cache are as before,
    so is any other collection of the current store. *)
Theorem drop_all_empties_current (w : world) :
  (forall col d, In col collection_names -> In d (coll (db w) col) ->
     dict_has "#id" d = true) ->
  exists w',
    drop_all w = (Ok tt, w') /\
    (forall col, In col collection_names -> coll (db w') col = []) /\
    (forall c, ~ In c collection_names -> coll (db w') c = coll (db w) c) /\
    db_history w' = db_history w /\
    cache w' = cache w.
Proof.
  intros Hids.
  destruct (drop_all_collections collection_names w) as [d' [Hrun [Hempty Hother]]].
  - intros col Hc. now apply str_in_In.
  - exact Hids.
  - eexists. split; [exact Hrun|]. simpl. auto.
Qed.

(** ** __ensure_ids *)

Lemma value_eqb_hashable (a b : value) (k : hkey) :
  value_eqb a b = true -> py_hash b = Some k -> a = b.
Proof.
  destruct a, b; simpl; try discriminate; try reflexivity; intros E Hk.
  - apply Bool.eqb_prop in E. now subst.
  - apply Z.eqb_eq in E. now subst.
  - apply String.eqb_eq in E. now subst.
Qed.

Lemma py_eq_refl_hashable (a : value) (k : hkey) : py_hash a = Some k -> py_eq a a = true.
Proof.
  destruct a; simpl; try discriminate; intros _.
  - reflexivity.
  - apply Bool.eqb_reflx.
  - apply Z.eqb_refl.
  - apply String.eqb_refl.
Qed.

(** Without duplicate, a hashable identifier occurs at most once, and not at
    all when it was met before. *)
Lemma duplicates_none (ids seen : list value) (i : value) (k : hkey) :
  py_hash i = Some k ->
  duplicates ids seen = O ->
  (length (List.filter (fun x => value_eqb x i) ids) <= 1)%nat /\
  (py_in i seen = true -> List.filter (fun x => value_eqb x i) ids = []).
Proof.
  intros Hk. revert seen. induction ids as [|x rest IH]; intros seen Hd; simpl.
  - split; [lia|reflexivity].
  - simpl in Hd. destruct (py_in x seen) eqn:Ex; [discriminate|].
    destruct (IH _ Hd) as [Hlen Hseen].
    destruct (value_eqb x i) eqn:Exi.
    + apply (value_eqb_hashable x i k) in Exi; [|exact Hk]. subst x.
      assert (Hin : py_in i (seen ++ [i]) = true).
      { unfold py_in. rewrite existsb_app. simpl.
        rewrite (py_eq_refl_hashable i k Hk). now rewrite orb_true_r. }
      rewrite (Hseen Hin). split; [simpl; lia|congruence].
    + split; [exact Hlen|].
      intros Hin. apply Hseen. unfold py_in in *. rewrite existsb_app, Hin. reflexivity.
Qed.

Lemma duplicates_seen_length (ids seen : list value) (e : nat) (c : string) (w : world) :
  exists seen' lines,
    for_each ids (fun check_id acc =>
        if negb (py_in check_id (fst acc))
        then ret (fst acc ++ [check_id], snd acc)
        else bind (rich_print ("[red]ERROR: collection " +:+ c +:+ " has duplicated id='"
                               +:+ py_str check_id +:+ "'"))
                  (fun _ => ret (fst acc, (snd acc + 1)%nat))) (seen, e) w
    = (Ok (seen', (e + duplicates ids seen)%nat), printed w lines).
Proof.
  revert seen e w. induction ids as [|x rest IH]; intros seen e w.
  - exists seen, []. simpl. unfold ret. now rewrite Nat.add_0_r, printed_nil.
  - simpl. destruct (py_in x seen) eqn:Ex; cbn [negb].
    + destruct (IH seen (e + 1)%nat
                  (printed w ["[red]ERROR: collection " +:+ c +:+ " has duplicated id='"
                              +:+ py_str x +:+ "'"])) as [seen' [lines Hrun]].
      exists seen'. eexists. unfold bind at 1. unfold bind at 1. unfold rich_print at 1.
      unfold ret at 1. unfold printed in Hrun at 1. rewrite Hrun.
      rewrite printed_app. f_equal. f_equal. f_equal. lia.
    + destruct (IH (seen ++ [x]) e w) as [seen' [lines Hrun]].
      exists seen', lines. unfold bind at 1. unfold ret at 1. exact Hrun.
Qed.

Section EnsureIds.
Variable json_dumps : dict -> string.

Lemma ensure_ids_collect (docs : list dict) (ids : list value) (w w' : world)
    (r : list value) :
  for_each docs (fun doc ids =>
      match dict_get "#id" doc with
      | Some i => ret (ids ++ [i])
      | None => bind (rich_print ("[red]" +:+ json_dumps doc)) (fun _ => raise KeyError)
      end) ids w = (Ok r, w') ->
  w' = w /\ exists found, identifiers_of docs = Some found /\ r = ids ++ found.
Proof.
  revert ids. induction docs as [|d docs IH]; intros ids; simpl.
  - intros [= <- <-]. split; [reflexivity|]. exists []. now rewrite app_nil_r.
  - destruct (dict_get "#id" d) as [i|] eqn:Ei.
    + unfold bind at 1. unfold ret at 1. intros Hrun.
      destruct (IH _ Hrun) as [-> [found [Hf ->]]].
      split; [reflexivity|]. exists (i :: found). rewrite Hf. now rewrite <- app_assoc.
    + unfold bind, rich_print, raise. discriminate.
Qed.

End EnsureIds.

Lemma identifiers_of_find (docs : list dict) (ids : list value) (i : value) :
  identifiers_of (map strip_mongo_ids docs) = Some ids ->
  (forall d, In d docs -> dict_has "#id" d = true) /\
  length (find [("#id", i)] docs) = length (List.filter (fun x => value_eqb x i) ids).
Proof.
  revert ids. induction docs as [|d docs IH]; intros ids.
  - simpl. intros [= <-]. split; [intros d []|reflexivity].
  - cbn [map identifiers_of]. rewrite strip_mongo_ids_id.
    destruct (dict_get "#id" d) as [v|] eqn:Ev; [|discriminate].
    destruct (identifiers_of (map strip_mongo_ids docs)) as [rest|]; [|discriminate].
    intros [= <-]. destruct (IH rest eq_refl) as [Hall Hlen]. split.
    + intros d' [<-|Hin]; [unfold dict_has; now rewrite Ev|now apply Hall].
    + change (find [("#id", i)] (d :: docs))
        with (if matches [("#id", i)] d then d :: find [("#id", i)] docs
              else find [("#id", i)] docs).
      unfold matches. simpl. rewrite Ev, andb_true_r.
      destruct (value_eqb v i); simpl; now rewrite Hlen.
Qed.

Section EnsureIdsRun.
Variable json_dumps : dict -> string.

(** The pass of [__ensure_ids] over one collection. *)
Lemma ensure_ids_collection (c : string) (e e' : nat) (w w' : world) :
  str_in c collection_names = true ->
  bind (get_documents c [] false) (fun documents =>
    bind (for_each documents (fun doc ids =>
            match dict_get "#id" doc with
            | Some i => ret (ids ++ [i])
            | None => bind (rich_print ("[red]" +:+ json_dumps doc)) (fun _ => raise KeyError)
            end) [])
      (fun ids =>
         bind (for_each ids (fun check_id acc =>
                 if negb (py_in check_id (fst acc))
                 then ret (fst acc ++ [check_id], snd acc)
                 else bind (rich_print ("[red]ERROR: collection " +:+ c
                                        +:+ " has duplicated id='"
                                        +:+ py_str check_id +:+ "'"))
                           (fun _ => ret (fst acc, (snd acc + 1)%nat))) ([], e))
           (fun r => ret (snd r)))) w = (Ok e', w') ->
  db w' = db w /\ db_history w' = db_history w /\
  exists ids,
    identifiers_of (map strip_mongo_ids (coll (db w) c)) = Some ids /\
    e' = (e + duplicates ids [])%nat.
Proof.
  intros Hn. rewrite (bind_run _ _ _ _ _ (get_documents_all c w Hn)).
  unfold bind at 1.
  destruct (for_each (map strip_mongo_ids (coll (db w) c)) _ [] w) as [[ids|ex] w1] eqn:Hc;
    [|discriminate].
  destruct (ensure_ids_collect json_dumps _ _ _ _ _ Hc) as [-> [found [Hf ->]]].
  simpl app.
  destruct (duplicates_seen_length found [] e c w) as [seen' [lines Hrun]].
  unfold bind at 1. rewrite Hrun. unfold ret. intros [= <- <-].
  split; [reflexivity|]. split; [reflexivity|]. now exists found.
Qed.

Lemma ensure_ids_collections (cols : list string) (e e' : nat) (w w' : world) :
  (forall c, In c cols -> str_in c collection_names = true) ->
  for_each cols (fun c errors =>
    bind (get_documents c [] false) (fun documents =>
      bind (for_each documents (fun doc ids =>
              match dict_get "#id" doc with
              | Some i => ret (ids ++ [i])
              | None => bind (rich_print ("[red]" +:+ json_dumps doc))
                          (fun _ => raise KeyError)
              end) [])
        (fun ids =>
           bind (for_each ids (fun check_id acc =>
                   if negb (py_in check_id (fst acc))
                   then ret (fst acc ++ [check_id], snd acc)
                   else bind (rich_print ("[red]ERROR: collection " +:+ c
                                          +:+ " has duplicated id='"
                                          +:+ py_str check_id +:+ "'"))
                             (fun _ => ret (fst acc, (snd acc + 1)%nat))) ([], errors))
             (fun r => ret (snd r))))) e w = (Ok e', w') ->
  (e <= e')%nat /\ db w' = db w /\ db_history w' = db_history w /\
  (e' = e -> forall c, In c cols ->
     exists ids, identifiers_of (map strip_mongo_ids (coll (db w) c)) = Some ids /\
                 duplicates ids [] = O).
Proof.
  revert e w. induction cols as [|c cols IH]; intros e w Hnames; simpl for_each.
  - intros [= <- <-]. repeat split; auto. intros _ c [].
  - unfold bind at 1.
    match goal with |- context [bind (get_documents c [] false) ?k w] =>
      destruct (bind (get_documents c [] false) k w) as [[e1|ex] w1] eqn:Hc end;
      [|discriminate].
    apply ensure_ids_collection in Hc; [|apply Hnames; now left].
    destruct Hc as [Hd [Hh [ids [Hids ->]]]].
    intros Hrest. apply IH in Hrest; [|intros c' Hc'; apply Hnames; now right].
    destruct Hrest as [Hle [Hd' [Hh' Hgood]]].
    split; [lia|]. split; [congruence|]. split; [congruence|].
    intros -> c' [<-|Hin].
    + exists ids. split; [exact Hids|lia].
    + rewrite <- Hd. apply Hgood; [lia|exact Hin].
Qed.

(** X2. When [__ensure_ids] returns, every document of every known
    collection of the current store carries an [#id], and no known collection
    holds two documents under one hashable identifier: a lookup by identifier
    finds at most one. The pass writes to neither store. *)
Theorem ensure_ids_unique (w w' : world) :
  ensure_ids json_dumps w = (Ok tt, w') ->
  db w' = db w /\ db_history w' = db_history w /\
  forall c, In c collection_names ->
    (forall d, In d (coll (db w) c) -> dict_has "#id" d = true) /\
    (forall i k, py_hash i = Some k ->
       (length (find [("#id", i)] (coll (db w) c)) <= 1)%nat /\
       link_checkable w (c, i) = true).
Proof.
  unfold ensure_ids. unfold bind at 1.
  match goal with |- context [for_each collection_names ?body 0%nat w] =>
    destruct (for_each collection_names body 0%nat w) as [[e|ex] w1] eqn:Hrun end;
    [|discriminate].
  apply ensure_ids_collections in Hrun; [|intros c Hc; now apply str_in_In].
  destruct Hrun as [_ [Hd [Hh Hgood]]].
  destruct e as [|e]; [|discriminate]. intros [= <-].
  split; [exact Hd|]. split; [exact Hh|].
  intros c Hc. destruct (Hgood eq_refl c Hc) as [ids [Hids Hdup]].
  split; [apply (identifiers_of_find _ ids JNull Hids)|].
  intros i k Hk.
  assert (Hlen : (length (find [("#id", i)] (coll (db w) c)) <= 1)%nat).
  { rewrite (proj2 (identifiers_of_find _ ids i Hids)).
    apply (duplicates_none ids [] i k Hk Hdup). }
  split; [exact Hlen|].
  unfold link_checkable. simpl. rewrite Hk. now apply Nat.leb_le.
Qed.

End EnsureIdsRun.

Lemma duplicates_after_seen (l rest seen : list value) (a b : value) :
  In a seen -> py_eq b a = true ->
  (1 <= duplicates (l ++ b :: rest) seen)%nat.
Proof.
  intros Hin Heq. revert seen Hin. induction l as [|x l IH]; intros seen Hin; simpl.
  - assert (Hb : py_in b seen = true).
    { unfold py_in. apply existsb_exists. now exists a. }
    rewrite Hb. lia.
  - destruct (py_in x seen); [lia|]. apply IH. apply in_or_app. now left.
Qed.

(** Two identifiers of the list that are [==] make at least one duplicate. *)
Lemma duplicates_found (l1 l2 l3 seen : list value) (a b : value) :
  py_eq b a = true ->
  (1 <= duplicates (l1 ++ a :: l2 ++ b :: l3) seen)%nat.
Proof.
  intros Heq. revert seen. induction l1 as [|x l1 IH]; intros seen; simpl.
  - destruct (py_in a seen); [lia|].
    apply (duplicates_after_seen l2 l3 _ a b); [|exact Heq].
    apply in_or_app. right. now left.
  - destruct (py_in x seen); [lia|apply IH].
Qed.

Lemma identifiers_of_app (l l' : list dict) :
  identifiers_of (l ++ l')
  = match identifiers_of l, identifiers_of l' with
    | Some a, Some b => Some (a ++ b)
    | _, _ => None
    end.
Proof.
  induction l as [|d l IH]; simpl.
  - now destruct (identifiers_of l').
  - rewrite IH. destruct (dict_get "#id" d); [|reflexivity].
    destruct (identifiers_of l); [|reflexivity]. now destruct (identifiers_of l').
Qed.

Section EnsureIdsFails.
Variable json_dumps : dict -> string.

Lemma ensure_ids_collect_run (docs : list dict) (ids found : list value) (w : world) :
  identifiers_of docs = Some found ->
  for_each docs (fun doc ids =>
      match dict_get "#id" doc with
      | Some i => ret (ids ++ [i])
      | None => bind (rich_print ("[red]" +:+ json_dumps doc)) (fun _ => raise KeyError)
      end) ids w = (Ok (ids ++ found), w).
Proof.
  revert ids found. induction docs as [|d docs IH]; intros ids found; simpl.
  - intros [= <-]. unfold ret. now rewrite app_nil_r.
  - destruct (dict_get "#id" d) as [i|]; [|discriminate].
    destruct (identifiers_of docs) as [rest|]; [|discriminate].
    intros [= <-]. unfold bind at 1. unfold ret at 1.
    rewrite (IH _ rest eq_refl). now rewrite <- app_assoc.
Qed.

Lemma ensure_ids_collections_run (cols : list string) (e : nat) (w : world) :
  (forall c, In c cols -> str_in c collection_names = true) ->
  (forall c, In c cols -> identifiers_of (map strip_mongo_ids (coll (db w) c)) <> None) ->
  exists e' lines,
    for_each cols (fun c errors =>
      bind (get_documents c [] false) (fun documents =>
        bind (for_each documents (fun doc ids =>
                match dict_get "#id" doc with
                | Some i => ret (ids ++ [i])
                | None => bind (rich_print ("[red]" +:+ json_dumps doc))
                            (fun _ => raise KeyError)
                end) [])
          (fun ids =>
             bind (for_each ids (fun check_id acc =>
                     if negb (py_in check_id (fst acc))
                     then ret (fst acc ++ [check_id], snd acc)
                     else bind (rich_print ("[red]ERROR: collection " +:+ c
                                            +:+ " has duplicated id='"
                                            +:+ py_str check_id +:+ "'"))
                               (fun _ => ret (fst acc, (snd acc + 1)%nat))) ([], errors))
               (fun r => ret (snd r))))) e w = (Ok e', printed w lines) /\
    (e <= e')%nat /\
    (forall c ids, In c cols ->
       identifiers_of (map strip_mongo_ids (coll (db w) c)) = Some ids ->
       (e + duplicates ids [] <= e')%nat).
Proof.
  revert e w. induction cols as [|c cols IH]; intros e w Hnames Hids.
  - exists e, []. simpl. unfold ret. rewrite printed_nil.
    split; [reflexivity|]. split; [lia|intros c ids []].
  - destruct (identifiers_of (map strip_mongo_ids (coll (db w) c))) as [found|] eqn:Hf.
    2:{ exfalso. apply (Hids c); [now left|exact Hf]. }
    destruct (duplicates_seen_length found [] e c w) as [seen' [lines1 Hrun1]].
    destruct (IH (e + duplicates found [])%nat (printed w lines1)) as [e' [lines [Hrun [Hle Hall]]]].
    { intros c' Hc'. apply Hnames. now right. }
    { intros c' Hc'. apply Hids. now right. }
    exists e', (lines1 ++ lines). split; [|split].
    + simpl for_each. rewrite (bind_run _ _ w (printed w lines1) (e + duplicates found [])%nat).
      * rewrite Hrun. now rewrite printed_app.
      * rewrite (bind_run _ _ _ _ _ (get_documents_all c w (Hnames c (or_introl eq_refl)))).
        rewrite (bind_run _ _ _ _ _ (ensure_ids_collect_run _ [] found w Hf)).
        simpl app. unfold bind at 1. rewrite Hrun1. reflexivity.
    + lia.
    + intros c' ids [<-|Hin] Hids'.
      * rewrite Hf in Hids'. injection Hids' as <-. exact Hle.
      * specialize (Hall c' ids Hin Hids'). lia.
Qed.

(** X3. When every document of the known collections carries an [#id] and
    some known collection holds two documents whose identifiers are [==],
    [__ensure_ids] raises [ValueError]. *)
Theorem ensure_ids_rejects_duplicates (w : world) (c : string) (l1 l2 l3 : list dict)
    (d1 d2 : dict) (a b : value) :
  (forall c', In c' collection_names ->
     identifiers_of (map strip_mongo_ids (coll (db w) c')) <> None) ->
  In c collection_names ->
  coll (db w) c = l1 ++ d1 :: l2 ++ d2 :: l3 ->
  dict_get "#id" d1 = Some a ->
  dict_get "#id" d2 = Some b ->
  py_eq b a = true ->
  exists w', ensure_ids json_dumps w = (Raised ValueError, w') /\
             db w' = db w /\ db_history w' = db_history w.
Proof.
  intros Hall Hc Hcoll Ha Hb Heq.
  destruct (ensure_ids_collections_run collection_names 0%nat w)
    as [e' [lines [Hrun [_ Hsum]]]].
  { intros c' Hc'. now apply str_in_In. }
  { exact Hall. }
  destruct (identifiers_of (map strip_mongo_ids (coll (db w) c))) as [ids|] eqn:Hids.
  2:{ exfalso. now apply (Hall c). }
  specialize (Hsum c ids Hc Hids).
  assert (Hdup : (1 <= duplicates ids [])%nat).
  { rewrite Hcoll in Hids. rewrite map_app in Hids. cbn [map] in Hids.
    rewrite map_app in Hids. cbn [map] in Hids.
    rewrite identifiers_of_app in Hids. cbn [identifiers_of] in Hids.
    rewrite identifiers_of_app in Hids. cbn [identifiers_of] in Hids.
    rewrite !strip_mongo_ids_id, Ha, Hb in Hids.
    destruct (identifiers_of (map strip_mongo_ids l1)) as [i1|]; [|discriminate].
    destruct (identifiers_of (map strip_mongo_ids l2)) as [i2|]; [|discriminate].
    destruct (identifiers_of (map strip_mongo_ids l3)) as [i3|]; [|discriminate].
    injection Hids as <-. now apply duplicates_found. }
  exists (printed w lines). unfold ensure_ids.
  rewrite (bind_run _ _ _ _ _ Hrun).
  destruct e' as [|e']; [lia|]. split; [reflexivity|]. now split.
Qed.

End EnsureIdsFails.

(** ** reset_version_history *)

Lemma replace_first_own (flt d : dict) (l : list dict) :
  find flt l = [d] -> replace_first flt d l = l.
Proof.
  induction l as [|x l IH]; simpl; [reflexivity|].
  destruct (matches flt x) eqn:E.
  - intros [= -> _]. reflexivity.
  - intros Hf. now rewrite IH.
Qed.

Lemma replace_one_own (c : string) (flt d : dict) (dbs : database) :
  find flt (coll dbs c) = [d] -> replace_one c flt d dbs = dbs.
Proof.
  intros Hf. unfold replace_one. apply alter_id. intros x Hx.
  unfold coll in Hf. rewrite Hx in Hf. simpl in Hf. now apply replace_first_own.
Qed.

Lemma coll_insert_one_other (c c' : string) (doc : dict) (d : database) :
  c <> c' -> coll (insert_one c doc d) c' = coll d c'.
Proof. intros Hne. unfold insert_one, coll. now rewrite lookup_insert_ne. Qed.

(** The loop of [reset_version_history] over the documents of a collection,
    each of which is the only one of the collection under its identifier. *)
Lemma reset_version_history_collection (col : string) (docs : list dict) (w : world) :
  (forall d, In d docs ->
     dict_has "#version" d = true /\
     exists i, dict_get "#id" d = Some i /\ find [("#id", i)] (coll (db w) col) = [d]) ->
  exists w',
    for_each docs (fun doc _ =>
      v <- getitem "#version" doc ;;
      (if negb (py_eq v (JNum 1)) then
         i <- getitem "#id" doc ;;
         v <- getitem "#version" doc ;;
         rich_print ("modifying " +:+ col +:+ " " +:+ py_str i +:+ " v=" +:+ py_str v) ;;;
         i <- getitem "#id" doc ;;
         d <- gets db ;;
         set_db (replace_one col [("#id", i)] doc d)
       else ret tt) ;;;
      h <- gets db_history ;;
      set_db_history (insert_one col doc h)) tt w = (Ok tt, w') /\
    db w' = db w /\ cache w' = cache w /\
    coll (db_history w') col = coll (db_history w) col ++ docs /\
    (forall c, c <> col -> coll (db_history w') c = coll (db_history w) c).
Proof.
  revert w. induction docs as [|d docs IH]; intros w Hdocs.
  - exists w. simpl. unfold ret. rewrite app_nil_r. auto.
  - destruct (Hdocs d (or_introl eq_refl)) as [Hv [i [Hi Hfind]]].
    unfold dict_has in Hv. destruct (dict_get "#version" d) as [v|] eqn:Ev; [|discriminate].
    set (w1 := World (db w) (insert_one col d (db_history w)) (cache w) (used_time w)
                 (console w ++ (if negb (py_eq v (JNum 1))
                                then ["modifying " +:+ col +:+ " " +:+ py_str i
                                      +:+ " v=" +:+ py_str v]
                                else [])) (tick w)).
    destruct (IH w1) as [w' [Hrun [Hd [Hc [Hh Ho]]]]].
    { intros d' Hd'. apply Hdocs. now right. }
    exists w'. split; [|split; [|split; [|split]]].
    + simpl for_each. rewrite (bind_run _ _ w w1 tt); [exact Hrun|].
      unfold getitem. rewrite Ev, Hi. unfold w1.
      clear IH Hrun.
      unfold bind, ret, gets, set_db, set_db_history, rich_print; simpl.
      destruct (py_eq v (JNum 1)); simpl.
      * now rewrite app_nil_r.
      * now rewrite (replace_one_own col _ d (db w) Hfind).
    + exact Hd.
    + exact Hc.
    + rewrite Hh. unfold w1. simpl. rewrite coll_insert_one. now rewrite <- app_assoc.
    + intros c Hc'. rewrite (Ho c Hc'). unfold w1. simpl.
      apply coll_insert_one_other. congruence.
Qed.

Lemma dict_pop_absent_has (d : dict) : dict_get "_id" d = None -> strip_mongo_ids d = d.
Proof. apply dict_pop_absent. Qed.

Lemma map_strip_no_id (l : list dict) :
  (forall d, In d l -> dict_get "_id" d = None) -> map strip_mongo_ids l = l.
Proof.
  induction l as [|d l IH]; intros Hl; simpl; [reflexivity|].
  rewrite (dict_pop_absent_has d) by (apply Hl; now left).
  rewrite IH; [reflexivity|]. intros d' Hd'. apply Hl. now right.
Qed.

Lemma reset_version_history_collections (cols : list string) (w : world) :
  List.NoDup cols ->
  (forall c, In c cols -> In c collection_names) ->
  (forall c d, In c cols -> In d (coll (db w) c) ->
     dict_get "_id" d = None /\ dict_has "#version" d = true /\
     exists i, dict_get "#id" d = Some i /\ find [("#id", i)] (coll (db w) c) = [d]) ->
  exists w',
    for_each cols (fun col _ =>
      docs <- get_documents col [] false ;;
      for_each docs (fun doc _ =>
        v <- getitem "#version" doc ;;
        (if negb (py_eq v (JNum 1)) then
           i <- getitem "#id" doc ;;
           v <- getitem "#version" doc ;;
           rich_print ("modifying " +:+ col +:+ " " +:+ py_str i +:+ " v=" +:+ py_str v) ;;;
           i <- getitem "#id" doc ;;
           d <- gets db ;;
           set_db (replace_one col [("#id", i)] doc d)
         else ret tt) ;;;
        h <- gets db_history ;;
        set_db_history (insert_one col doc h)) tt) tt w = (Ok tt, w') /\
    db w' = db w /\ cache w' = cache w /\
    (forall c, In c cols -> coll (db_history w') c = coll (db_history w) c ++ coll (db w) c) /\
    (forall c, ~ In c cols -> coll (db_history w') c = coll (db_history w) c).
Proof.
  revert w. induction cols as [|col cols IH]; intros w Hnd Hnames Hdocs.
  - exists w. simpl. unfold ret. split; [reflexivity|]. split; [reflexivity|].
    split; [reflexivity|]. split; [intros c []|auto].
  - apply List.NoDup_cons_iff in Hnd. destruct Hnd as [Hnotin Hnd].
    assert (Hcol : str_in col collection_names = true)
      by (apply str_in_In, Hnames; now left).
    assert (Hstrip : map strip_mongo_ids (coll (db w) col) = coll (db w) col).
    { apply map_strip_no_id. intros d Hd. now apply (Hdocs col d (or_introl eq_refl)). }
    destruct (reset_version_history_collection col (coll (db w) col) w)
      as [w1 [Hrun1 [Hd1 [Hc1 [Hh1 Ho1]]]]].
    { intros d Hd. destruct (Hdocs col d (or_introl eq_refl) Hd) as [_ [Hv Hi]]. auto. }
    destruct (IH w1 Hnd) as [w' [Hrun [Hd [Hc [Hh Ho]]]]].
    { intros c Hin. apply Hnames. now right. }
    { intros c d Hin. rewrite Hd1. apply Hdocs. now right. }
    exists w'. split; [|split; [|split; [|split]]].
    + simpl for_each. rewrite (bind_run _ _ w w1 tt); [exact Hrun|].
      rewrite (bind_run _ _ _ _ _ (get_documents_all col w Hcol)).
      rewrite Hstrip. exact Hrun1.
    + congruence.
    + congruence.
    + intros c [<-|Hin].
      * rewrite (Ho col Hnotin). exact Hh1.
      * rewrite (Hh c Hin), Hd1. rewrite (Ho1 c); [reflexivity|].
        intros ->. contradiction.
    + intros c Hnin. rewrite (Ho c); [|intros Hin; apply Hnin; now right].
      apply Ho1. intros ->. apply Hnin. now left.
Qed.

Lemma collection_names_NoDup : List.NoDup collection_names.
Proof.
  unfold collection_names.
  repeat (apply List.NoDup_cons; [simpl; intuition discriminate|]).
  apply List.NoDup_nil.
Qed.

(** X4. On a database in which every document of the known collections
    carries a [#version], has no [_id] field and is the only one of its
    collection under its [#id], [reset_version_history] succeeds, makes the
    history store the copy of the current store, collection by collection and
    in order, and leaves the current store as it was: no [#version] is reset
    to 1, whatever the version a document carries. *)
Theorem reset_version_history_keeps_versions (w : world) :
  (forall c d, In c collection_names -> In d (coll (db w) c) ->
     dict_get "_id" d = None /\ dict_has "#version" d = true /\
     exists i, dict_get "#id" d = Some i /\ find [("#id", i)] (coll (db w) c) = [d]) ->
  exists w',
    reset_version_history w = (Ok tt, w') /\
    db w' = db w /\ cache w' = cache w /\
    (forall c, In c collection_names -> coll (db_history w') c = coll (db w) c) /\
    (forall c, ~ In c collection_names -> coll (db_history w') c = []).
Proof.
  intros Hdocs.
  set (w0 := World (db w) ∅ (cache w) (used_time w) (console w) (tick w)).
  destruct (reset_version_history_collections collection_names w0 collection_names_NoDup)
    as [w' [Hrun [Hd [Hc [Hh Ho]]]]].
  { auto. }
  { exact Hdocs. }
  exists w'. split; [|split; [|split; [|split]]].
  - unfold reset_version_history.
    rewrite (bind_run (set_db_history ∅) _ w w0 tt eq_refl). exact Hrun.
  - exact Hd.
  - exact Hc.
  - intros c Hin. rewrite (Hh c Hin). reflexivity.
  - intros c Hin. rewrite (Ho c Hin). reflexivity.
Qed.

(** ** get_unit and the collections get_document knows *)

(** [get_document] touches the cache under its own collection only. *)
Lemma get_document_cache_other (collection : string) (document_id : value) (version : Z)
    (w : world) (c : string) :
  c <> collection ->
  cache (snd (get_document collection document_id version w)) !! c = cache w !! c.
Proof.
  intros Hne. unfold get_document, get_from_cache, add_to_cache.
  destruct w as [d h ch u o t].
  unfold bind, ret, raise, gets, getitem, set_cache, add_used_time, rich_print, time_now.
  simpl.
  destruct (ch !! collection) as [entries|] eqn:Ec; simpl.
  - destruct (py_hash document_id) as [k|] eqn:Ek; simpl; [|reflexivity].
    destruct (entries !! k) as [[timestamp cdoc]|] eqn:Ee; simpl.
    + destruct (Z.gtb _ _); simpl.
      * destruct (negb (Z.eqb version 0)); simpl;
        (destruct (negb (str_in collection collection_names)); simpl;
         [now rewrite lookup_insert_ne by congruence|]);
        (destruct (find _ _) as [|h0 [|h1 rest]]; simpl;
         try (now rewrite lookup_insert_ne by congruence));
        (destruct (dict_get "#id" (strip_mongo_ids h0)) as [i0|]; simpl;
         [|now rewrite lookup_insert_ne by congruence]);
        rewrite lookup_insert_eq; simpl;
        (destruct (py_hash i0); simpl; now rewrite ?lookup_insert_ne by congruence).
      * destruct cdoc as [|kv rest]; simpl; [|reflexivity].
        destruct (negb (Z.eqb version 0)); simpl;
        (destruct (negb (str_in collection collection_names)); simpl; [reflexivity|]);
        (destruct (find _ _) as [|h0 [|h1 rest]]; simpl; try reflexivity);
        (destruct (dict_get "#id" (strip_mongo_ids h0)) as [i0|]; simpl; [|reflexivity]);
        rewrite Ec; simpl;
        (destruct (py_hash i0); simpl; now rewrite ?lookup_insert_ne by congruence).
    + destruct (negb (Z.eqb version 0)); simpl;
      (destruct (negb (str_in collection collection_names)); simpl; [reflexivity|]);
      (destruct (find _ _) as [|h0 [|h1 rest]]; simpl; try reflexivity);
      (destruct (dict_get "#id" (strip_mongo_ids h0)) as [i0|]; simpl; [|reflexivity]);
      rewrite Ec; simpl;
      (destruct (py_hash i0); simpl; now rewrite ?lookup_insert_ne by congruence).
  - destruct (negb (Z.eqb version 0)); simpl;
    (destruct (negb (str_in collection collection_names)); simpl; [reflexivity|]);
    (destruct (find _ _) as [|h0 [|h1 rest]]; simpl; try reflexivity);
    (destruct (dict_get "#id" (strip_mongo_ids h0)) as [i0|]; simpl; [|reflexivity]);
    rewrite Ec; simpl; rewrite ?lookup_insert_eq; simpl;
    (destruct (py_hash i0); simpl; now rewrite ?lookup_insert_ne by congruence).
Qed.

(** Outside the known collections, and with nothing in the cache for the
    collection, [get_document] raises [LookupError] before it reads a store. *)
Lemma get_document_unknown_collection (collection : string) (document_id : value)
    (version : Z) (w : world) :
  str_in collection collection_names = false ->
  cache w !! collection = None ->
  exists w', get_document collection document_id version w = (Raised LookupError, w') /\
             db w' = db w /\ db_history w' = db_history w /\ cache w' = cache w.
Proof.
  intros Hc Hcache. unfold get_document, get_from_cache.
  unfold bind, ret, gets, time_now, raise, rich_print. simpl. rewrite Hcache. simpl.
  rewrite Hc. simpl.
  destruct (negb (Z.eqb version 0)); simpl; eexists; (split; [reflexivity|]); simpl; auto.
Qed.

(** X5. [get_unit] reads the collection [units_old], which is not one of
    [collection_names]: as long as the cache holds nothing for [units_old] the
    call raises [LookupError] for every identifier, whatever the stores hold,
    and leaves the stores and the cache as they were. No [get_document], on
    any collection, makes the cache hold something for [units_old]. *)
Theorem get_unit_never_found (identifier : value) (w : world) :
  cache w !! "units_old" = None ->
  (exists w', get_unit identifier w = (Raised LookupError, w') /\
              db w' = db w /\ db_history w' = db_history w /\ cache w' = cache w) /\
  (forall collection document_id version,
     cache (snd (get_document collection document_id version w)) !! "units_old" = None).
Proof.
  intros Hc. split.
  - now apply get_document_unknown_collection.
  - intros collection document_id version.
    destruct (String.eqb collection "units_old") eqn:E.
    + apply String.eqb_eq in E. subst collection.
      destruct (get_document_unknown_collection "units_old" document_id version w eq_refl Hc)
        as [w' [-> [_ [_ Hcache]]]]. simpl. now rewrite Hcache.
    + apply String.eqb_neq in E. rewrite get_document_cache_other by congruence. exact Hc.
Qed.

(** ** exists *)



(** ** Writes are to both stores or to none *)

Lemma bind_inv {A B} (m : M A) (k : A -> M B) (w w' : world) (r : result B) :
  bind m k w = (r, w') ->
  (exists e, m w = (Raised e, w') /\ r = Raised e) \/
  (exists a w1, m w = (Ok a, w1) /\ k a w1 = (r, w')).
Proof.
  unfold bind. destruct (m w) as [[a|e] w1].
  - intros Hk. right. now exists a, w1.
  - intros [= <- <-]. left. now exists e.
Qed.

Lemma read_only_run {A} (m : M A) (w w' : world) (r : result A) :
  read_only m -> m w = (r, w') -> db w' = db w /\ db_history w' = db_history w.
Proof. intros Hm Hrun. specialize (Hm w). now rewrite Hrun in Hm. Qed.

Lemma read_only_get_timestamp_string : read_only get_timestamp_string.
Proof. intros w. now split. Qed.

Lemma read_only_increment_version (metadata : dict) : read_only (increment_version metadata).
Proof.
  unfold increment_version. apply read_only_bind; [apply read_only_getitem|].
  intros [| | | | |]; try apply read_only_raise; apply read_only_ret.
Qed.

Lemma read_only_validate_document (doc : dict) (collection : string) (exception : bool) :
  read_only (validate_document doc collection exception).
Proof.
  unfold validate_document.
  apply read_only_bind; [apply read_only_validate_schema|]. intros errors.
  apply read_only_bind.
  - destruct (mmm_schemas !! collection); [apply read_only_validate_schema|].
    apply read_only_bind; [apply read_only_rich_print|]. intros _. apply read_only_ret.
  - intros [|e errors']; [apply read_only_ret|].
    apply read_only_bind.
    + apply read_only_for_each. intros x acc. apply read_only_rich_print.
    + intros _. destruct exception; [apply read_only_raise|apply read_only_ret].
Qed.


(** The two writes that end [replace_document], once the document is built. *)
Lemma replace_document_writes (collection : string) (document_id : value) (new : dict)
    (w w' : world) (r : result dict) :
  bind (gets db) (fun d =>
    bind (set_db (replace_one collection [("#id", document_id)] new d)) (fun _ =>
      bind (gets db_history) (fun h =>
        bind (set_db_history (insert_one collection new h)) (fun _ => ret new)))) w = (r, w') ->
  r = Ok new /\ w' = restored collection document_id new w.
Proof. unfold bind, gets, set_db, set_db_history, ret. simpl. intros [= <- <-]. now split. Qed.

(** The two writes that end [insert_document]. *)
Lemma insert_document_writes (collection : string) (new : dict)
    (w w' : world) (r : result dict) :
  bind (gets db) (fun d =>
    bind (set_db (insert_one collection new d)) (fun _ =>
      bind (gets db_history) (fun h =>
        bind (set_db_history (insert_one collection new h)) (fun _ => ret new)))) w = (r, w') ->
  r = Ok new /\ w' = stored collection new w.
Proof. unfold bind, gets, set_db, set_db_history, ret. simpl. intros [= <- <-]. now split. Qed.

(** What [replace_document] has written, by outcome. *)
Lemma replace_document_outcome (collection : string) (document_id : value)
    (document : dict) (author : string) (force : bool) (w w' : world) (r : result dict) :
  replace_document collection document_id document author force w = (r, w') ->
  (forall e, r = Raised e -> db w' = db w /\ db_history w' = db_history w) /\
  (forall new, r = Ok new ->
     db w' = replace_one collection [("#id", document_id)] new (db w) /\
     db_history w' = insert_one collection new (db_history w)).
Proof.
  unfold replace_document. intros Hrun.
  apply bind_inv in Hrun. destruct Hrun as [[e0 [Hrun ->]]|[doc_id [w1 [H1 Hrun]]]].
  { apply (read_only_run _ _ _ _ (read_only_getitem _ _)) in Hrun.
    split; [intros e _; exact Hrun|discriminate]. }
  apply (read_only_run _ _ _ _ (read_only_getitem _ _)) in H1. destruct H1 as [Hd1 Hh1].
  destruct (negb (py_eq doc_id document_id)).
  { injection Hrun as <- <-. split; [intros e _; now split|discriminate]. }
  apply bind_inv in Hrun. destruct Hrun as [[e0 [Hrun ->]]|[old [w2 [H2 Hrun]]]].
  { apply get_document_frame in Hrun. destruct Hrun as [Hd Hh].
    split; [intros e _; split; congruence|discriminate]. }
  apply get_document_frame in H2. destruct H2 as [Hd2 Hh2].
  apply bind_inv in Hrun. destruct Hrun as [[e0 [Hrun ->]]|[metadata [w3 [H3 Hrun]]]].
  { apply (read_only_run _ _ _ _ (read_only_increment_version _)) in Hrun.
    destruct Hrun as [Hd Hh]. split; [intros e _; split; congruence|discriminate]. }
  apply (read_only_run _ _ _ _ (read_only_increment_version _)) in H3.
  destruct H3 as [Hd3 Hh3].
  apply bind_inv in Hrun. destruct Hrun as [[e0 [Hrun ->]]|[now [w4 [H4 Hrun]]]].
  { discriminate. }
  apply (read_only_run _ _ _ _ read_only_get_timestamp_string) in H4.
  destruct H4 as [Hd4 Hh4].
  apply bind_inv in Hrun. destruct Hrun as [[e0 [Hrun ->]]|[[] [w5 [H5 Hrun]]]].
  { assert (Hro : db w' = db w4 /\ db_history w' = db_history w4).
    { destruct (py_eq _ _); [destruct force|];
        [apply (read_only_run _ _ _ _ (read_only_rich_print _) Hrun)
        |apply (read_only_run _ _ _ _ (read_only_raise _) Hrun)
        |apply (read_only_run _ _ _ _ (read_only_ret _) Hrun)]. }
    destruct Hro as [Hd Hh]. split; [intros e _; split; congruence|discriminate]. }
  assert (Hro : db w5 = db w4 /\ db_history w5 = db_history w4).
  { destruct (py_eq _ _); [destruct force|];
      [apply (read_only_run _ _ _ _ (read_only_rich_print _) H5)
      |apply (read_only_run _ _ _ _ (read_only_raise _) H5)
      |apply (read_only_run _ _ _ _ (read_only_ret _) H5)]. }
  destruct Hro as [Hd5 Hh5].
  apply bind_inv in Hrun. destruct Hrun as [[e0 [Hrun ->]]|[valid [w6 [H6 Hrun]]]].
  { apply (read_only_run _ _ _ _ (read_only_validate_document _ _ _)) in Hrun.
    destruct Hrun as [Hd Hh]. split; [intros e _; split; congruence|discriminate]. }
  apply (read_only_run _ _ _ _ (read_only_validate_document _ _ _)) in H6.
  destruct H6 as [Hd6 Hh6].
  apply replace_document_writes in Hrun. destruct Hrun as [-> ->].
  split; [discriminate|]. intros new [= <-]. simpl. split; congruence.
Qed.




(** ** Computations that only print *)

Lemma prints_only_ret {A} (a : A) : prints_only (ret a).
Proof. intros w. exists []. simpl. now rewrite printed_nil. Qed.

Lemma prints_only_raise {A} (e : exn) : prints_only (@raise A e).
Proof. intros w. exists []. simpl. now rewrite printed_nil. Qed.

Lemma prints_only_bind {A B} (m : M A) (k : A -> M B) :
  prints_only m -> (forall a, prints_only (k a)) -> prints_only (bind m k).
Proof.
  intros Hm Hk w. unfold bind. destruct (Hm w) as [lines Hw].
  destruct (m w) as [[a|e] w1]; simpl in Hw; subst w1.
  - destruct (Hk a (printed w lines)) as [lines' Hw']. exists (lines ++ lines').
    now rewrite Hw', printed_app.
  - now exists lines.
Qed.

Lemma prints_only_rich_print (s : string) : prints_only (rich_print s).
Proof. intros w. now exists [s]. Qed.

Lemma prints_only_getitem (k : string) (d : dict) : prints_only (getitem k d).
Proof. unfold getitem. destruct (dict_get k d); [apply prints_only_ret|apply prints_only_raise]. Qed.

Lemma prints_only_for_each {A B} (l : list A) (body : A -> B -> M B) (acc : B) :
  (forall x acc, prints_only (body x acc)) -> prints_only (for_each l body acc).
Proof.
  intros Hbody. revert acc. induction l as [|x l IH]; intros acc; simpl.
  - apply prints_only_ret.
  - apply prints_only_bind; [apply Hbody|exact IH].
Qed.

Lemma prints_only_validate_schema (doc schema : dict) (errors : list string) (verbose : bool) :
  prints_only (validate_schema doc schema errors verbose).
Proof.
  unfold validate_schema.
  destruct (negb (dict_has "$id" schema)); [apply prints_only_raise|].
  apply prints_only_bind.
  - destruct verbose; [|apply prints_only_ret].
    apply prints_only_bind; [apply prints_only_getitem|]. intros doc_id.
    apply prints_only_bind; [apply prints_only_getitem|]. intros schema_id.
    apply prints_only_rich_print.
  - intros _. destruct (jsonschema_validate doc schema); [|apply prints_only_ret].
    apply prints_only_bind; [apply prints_only_getitem|]. intros doc_id.
    apply prints_only_bind; [apply prints_only_getitem|]. intros schema_id.
    apply prints_only_bind; [|intros _; apply prints_only_ret].
    destruct verbose; [apply prints_only_rich_print|apply prints_only_ret].
Qed.

(** [validate_document] prints and does nothing else, valid schemas or not,
    identifier or not. *)
Lemma prints_only_validate_document (doc : dict) (collection : string) (exception : bool) :
  prints_only (validate_document doc collection exception).
Proof.
  unfold validate_document.
  apply prints_only_bind; [apply prints_only_validate_schema|]. intros errors.
  apply prints_only_bind.
  - destruct (mmm_schemas !! collection); [apply prints_only_validate_schema|].
    apply prints_only_bind; [apply prints_only_rich_print|]. intros _. apply prints_only_ret.
  - intros [|e errors']; [apply prints_only_ret|].
    apply prints_only_bind.
    + apply prints_only_for_each. intros x acc. apply prints_only_rich_print.
    + intros _. destruct exception; [apply prints_only_raise|apply prints_only_ret].
Qed.

Lemma prints_only_run {A} (m : M A) (w w' : world) (r : result A) :
  prints_only m -> m w = (r, w') ->
  db w' = db w /\ db_history w' = db_history w /\ cache w' = cache w.
Proof.
  intros Hm Hrun. destruct (Hm w) as [lines Hw]. rewrite Hrun in Hw. simpl in Hw.
  subst w'. auto.
Qed.

(** ** insert_document and the identifiers of a collection *)

Lemma get_identifiers_collect (docs : list dict) (ids : list value) (w : world) :
  for_each docs (fun d ids => bind (getitem "#id" d) (fun i => ret (ids ++ [i]))) ids w
  = (match identifiers_of docs with
     | Some found => Ok (ids ++ found)
     | None => Raised KeyError
     end, w).
Proof.
  revert ids. induction docs as [|d docs IH]; intros ids; simpl.
  - unfold ret. now rewrite app_nil_r.
  - unfold getitem. destruct (dict_get "#id" d) as [i|]; [|reflexivity].
    unfold bind at 1. unfold bind at 1. unfold ret at 1. unfold ret at 1.
    rewrite IH. destruct (identifiers_of docs); [|reflexivity]. now rewrite <- app_assoc.
Qed.

(** [get_identifiers] on a known collection: the identifiers of its
    documents in store order, [KeyError] when a document has none. *)
Lemma get_identifiers_run (collection : string) (w : world) :
  str_in collection collection_names = true ->
  get_identifiers collection w
  = (match identifiers_of (map strip_mongo_ids (coll (db w) collection)) with
     | Some ids => Ok ids
     | None => Raised KeyError
     end, w).
Proof.
  intros Hc. unfold get_identifiers.
  rewrite (bind_run _ _ _ _ _ (get_documents_all collection w Hc)).
  apply get_identifiers_collect.
Qed.

(** An [insert_document] without [update] that returns: the collection is
    known, the identifier of the document was not among those of the
    collection, and the document returned, which carries that identifier, is
    appended to both stores; the cache is not touched. *)
Lemma insert_document_new (collection : string) (document : dict) (author : string)
    (force force_meta : bool) (w w' : world) (new : dict) :
  insert_document collection document author force force_meta false w = (Ok new, w') ->
  str_in collection collection_names = true /\
  exists doc_id ids,
    dict_get "#id" document = Some doc_id /\
    dict_get "#id" new = Some doc_id /\
    identifiers_of (map strip_mongo_ids (coll (db w) collection)) = Some ids /\
    py_in doc_id ids = false /\
    db w' = insert_one collection new (db w) /\
    db_history w' = insert_one collection new (db_history w) /\
    cache w' = cache w.
Proof.
  unfold insert_document. intros Hrun.
  destruct (str_in collection collection_names) eqn:Hc; cbn [negb] in Hrun; [|discriminate].
  split; [reflexivity|].
  unfold getitem in Hrun at 1.
  destruct (dict_get "#id" document) as [doc_id|] eqn:Hid; [|discriminate].
  rewrite (bind_run (ret doc_id) _ w w doc_id eq_refl) in Hrun.
  rewrite (bind_run _ _ _ _ _ (get_identifiers_run collection w Hc)) in Hrun
    || (unfold bind in Hrun at 1; rewrite (get_identifiers_run collection w Hc) in Hrun).
  destruct (identifiers_of (map strip_mongo_ids (coll (db w) collection))) as [ids|] eqn:Hids;
    [|discriminate].
  destruct (py_in doc_id ids) eqn:Hin; [discriminate|].
  exists doc_id, ids. split; [reflexivity|].
  apply bind_inv in Hrun. destruct Hrun as [[e0 [_ Hr]]|[new0 [w3 [H3 Hrun]]]]; [discriminate|].
  assert (Hnew : dict_get "#id" new0 = Some doc_id /\ db w3 = db w /\
                 db_history w3 = db_history w /\ cache w3 = cache w).
  { destruct force_meta; cbn [negb] in H3.
    - injection H3 as <- <-. auto.
    - unfold bind, get_timestamp_string, ret in H3. injection H3 as <- <-.
      split; [|simpl; auto]. now rewrite (dict_get_update_contents "#id" _ document eq_refl). }
  destruct Hnew as [Hnid [Hd3 [Hh3 Hc3]]].
  apply bind_inv in Hrun. destruct Hrun as [[e0 [_ Hr]]|[valid [w4 [H4 Hrun]]]]; [discriminate|].
  apply (prints_only_run _ _ _ _ (prints_only_validate_document _ _ _)) in H4.
  destruct H4 as [Hd4 [Hh4 Hc4]].
  apply insert_document_writes in Hrun. destruct Hrun as [[= <-] ->].
  simpl. repeat split; congruence.
Qed.


(** X9. Once [insert_document] has stored a document, an [insert_document]
    without [update] of any document whose [#id] is [==] to the one stored
    raises [NameError], whatever its other arguments, and writes nothing. *)
Theorem insert_document_twice (collection : string) (document document' : dict)
    (author author' : string) (force force_meta force' force_meta' : bool)
    (w w' : world) (new : dict) (doc_id doc_id' : value) :
  insert_document collection document author force force_meta false w = (Ok new, w') ->
  dict_get "#id" document = Some doc_id ->
  dict_get "#id" document' = Some doc_id' ->
  py_eq doc_id' doc_id = true ->
  insert_document collection document' author' force' force_meta' false w'
  = (Raised NameError, w').
Proof.
  intros Hrun Hid Hid' Heq.
  apply insert_document_new in Hrun.
  destruct Hrun as [Hc [i [ids [Hi [Hnew [Hids [Hin [Hd [Hh Hcache]]]]]]]]].
  assert (i = doc_id) by congruence. subst i.
  apply (insert_document_existing collection document' author' force' force_meta' false w'
           doc_id' (ids ++ [doc_id]) Hc Hid').
  - rewrite (get_identifiers_run collection w' Hc), Hd, coll_insert_one, map_app.
    rewrite identifiers_of_app, Hids. cbn [map identifiers_of].
    now rewrite strip_mongo_ids_id, Hnew.
  - unfold py_in. rewrite existsb_app. simpl. rewrite Heq. now rewrite orb_true_r.
Qed.

Lemma duplicates_fresh (ids seen : list value) (i : value) :
  duplicates ids seen = O -> py_in i (seen ++ ids) = false ->
  duplicates (ids ++ [i]) seen = O.
Proof.
  revert seen. induction ids as [|x rest IH]; intros seen; simpl.
  - rewrite app_nil_r. now intros _ ->.
  - destruct (py_in x seen); [discriminate|]. intros Hd Hin. apply IH; [exact Hd|].
    now rewrite <- app_assoc.
Qed.

Lemma duplicates_seen_fewer (ids seen seen' : list value) :
  (forall v, py_in v seen = true -> py_in v seen' = true) ->
  duplicates ids seen' = O -> duplicates ids seen = O.
Proof.
  revert seen seen'. induction ids as [|x rest IH]; intros seen seen' Hsub; simpl;
    [reflexivity|].
  destruct (py_in x seen') eqn:E'; [discriminate|].
  destruct (py_in x seen) eqn:E; [rewrite (Hsub x E) in E'; discriminate|].
  apply IH. intros v. unfold py_in in *. rewrite !existsb_app.
  intros Hv. apply orb_true_iff in Hv. apply orb_true_iff.
  destruct Hv as [Hv|Hv]; [left; now apply Hsub|now right].
Qed.

Lemma identifiers_of_delete_first (flt : dict) (docs : list dict) (ids seen : list value) :
  identifiers_of (map strip_mongo_ids docs) = Some ids ->
  duplicates ids seen = O ->
  exists ids', identifiers_of (map strip_mongo_ids (delete_first flt docs)) = Some ids' /\
               duplicates ids' seen = O.
Proof.
  revert ids seen. induction docs as [|d docs IH]; intros ids seen.
  - simpl. intros [= <-] Hd. now exists [].
  - cbn [map identifiers_of delete_first]. rewrite strip_mongo_ids_id.
    destruct (dict_get "#id" d) as [i|] eqn:Ei; [|discriminate].
    destruct (identifiers_of (map strip_mongo_ids docs)) as [rest|] eqn:Er; [|discriminate].
    intros [= <-]. simpl. destruct (py_in i seen) eqn:Ein; [discriminate|]. intros Hd.
    destruct (matches flt d).
    + exists rest. split; [exact Er|].
      apply (duplicates_seen_fewer rest seen (seen ++ [i])); [|exact Hd].
      intros v Hv. unfold py_in in *. now rewrite existsb_app, Hv.
    + destruct (IH rest (seen ++ [i]) eq_refl Hd) as [ids' [Hids' Hd']].
      exists (i :: ids'). cbn [map identifiers_of]. rewrite strip_mongo_ids_id, Ei, Hids'.
      split; [reflexivity|]. simpl. now rewrite Ein.
Qed.

Lemma duplicates_clean_run (ids seen : list value) (e : nat) (c : string) (w : world) :
  duplicates ids seen = O ->
  for_each ids (fun check_id acc =>
      if negb (py_in check_id (fst acc))
      then ret (fst acc ++ [check_id], snd acc)
      else bind (rich_print ("[red]ERROR: collection " +:+ c +:+ " has duplicated id='"
                             +:+ py_str check_id +:+ "'"))
                (fun _ => ret (fst acc, (snd acc + 1)%nat))) (seen, e) w
  = (Ok (seen ++ ids, e), w).
Proof.
  revert seen. induction ids as [|x rest IH]; intros seen; simpl.
  - intros _. unfold ret. now rewrite app_nil_r.
  - destruct (py_in x seen); [discriminate|]. intros Hd. cbn [negb].
    unfold bind at 1. unfold ret at 1. rewrite (IH _ Hd). now rewrite <- app_assoc.
Qed.

Section KeepsUnique.
Variable json_dumps : dict -> string.

Lemma ensure_ids_collections_clean (cols : list string) (e : nat) (w : world) :
  (forall c, In c cols -> str_in c collection_names = true) ->
  (forall c, In c cols ->
     exists ids, identifiers_of (map strip_mongo_ids (coll (db w) c)) = Some ids /\
                 duplicates ids [] = O) ->
  for_each cols (fun c errors =>
    bind (get_documents c [] false) (fun documents =>
      bind (for_each documents (fun doc ids =>
              match dict_get "#id" doc with
              | Some i => ret (ids ++ [i])
              | None => bind (rich_print ("[red]" +:+ json_dumps doc))
                          (fun _ => raise KeyError)
              end) [])
        (fun ids =>
           bind (for_each ids (fun check_id acc =>
                   if negb (py_in check_id (fst acc))
                   then ret (fst acc ++ [check_id], snd acc)
                   else bind (rich_print ("[red]ERROR: collection " +:+ c
                                          +:+ " has duplicated id='"
                                          +:+ py_str check_id +:+ "'"))
                             (fun _ => ret (fst acc, (snd acc + 1)%nat))) ([], errors))
             (fun r => ret (snd r))))) e w = (Ok e, w).
Proof.
  revert e w. induction cols as [|c cols IH]; intros e w Hnames Hclean; [reflexivity|].
  destruct (Hclean c (or_introl eq_refl)) as [ids [Hids Hdup]].
  simpl for_each. rewrite (bind_run _ _ w w e).
  - apply IH; intros c' Hc'; [apply Hnames|apply Hclean]; now right.
  - rewrite (bind_run _ _ _ _ _ (get_documents_all c w (Hnames c (or_introl eq_refl)))).
    rewrite (bind_run _ _ _ _ _ (ensure_ids_collect_run json_dumps _ [] ids w Hids)).
    simpl app. now rewrite (bind_run _ _ _ _ _ (duplicates_clean_run ids [] e c w Hdup)).
Qed.

(** [__ensure_ids] returns exactly on the databases in which every document
    of the known collections carries an identifier and no collection holds a
    duplicate. *)
Lemma ensure_ids_returns (w : world) :
  (exists w', ensure_ids json_dumps w = (Ok tt, w')) <->
  (forall c, In c collection_names ->
     exists ids, identifiers_of (map strip_mongo_ids (coll (db w) c)) = Some ids /\
                 duplicates ids [] = O).
Proof.
  split.
  - intros [w' Hrun] c Hc. unfold ensure_ids in Hrun.
    apply bind_inv in Hrun. destruct Hrun as [[e0 [_ Hr]]|[e [w1 [Hloop Hrun]]]]; [discriminate|].
    apply ensure_ids_collections in Hloop; [|intros c' Hc'; now apply str_in_In].
    destruct Hloop as [_ [_ [_ Hgood]]].
    destruct e as [|e]; [|discriminate]. now apply Hgood.
  - intros Hclean. exists w. unfold ensure_ids.
    rewrite (bind_run _ _ w w 0%nat); [reflexivity|].
    apply ensure_ids_collections_clean; [|exact Hclean].
    intros c Hc. now apply str_in_In.
Qed.

(** X10. [insert_document] keeps the identifiers unique: on a database
    [__ensure_ids] accepts, the database an [insert_document] without [update]
    leaves when it returns is accepted as well. *)
Theorem insert_document_keeps_ids_unique (collection : string) (document : dict)
    (author : string) (force force_meta : bool) (w w0 w' : world) (new : dict) :
  ensure_ids json_dumps w = (Ok tt, w0) ->
  insert_document collection document author force force_meta false w = (Ok new, w') ->
  exists w1, ensure_ids json_dumps w' = (Ok tt, w1).
Proof.
  intros Hens Hrun. apply ensure_ids_returns.
  assert (Hclean := proj1 (ensure_ids_returns w) (ex_intro _ w0 Hens)).
  apply insert_document_new in Hrun.
  destruct Hrun as [Hc [i [ids [Hi [Hnew [Hids [Hin [Hd [Hh Hcache]]]]]]]]].
  intros c Hcin. rewrite Hd.
  destruct (String.eqb c collection) eqn:E.
  - apply String.eqb_eq in E. subst c. rewrite coll_insert_one, map_app, identifiers_of_app.
    rewrite Hids. cbn [map identifiers_of]. rewrite strip_mongo_ids_id, Hnew.
    exists (ids ++ [i]). split; [reflexivity|].
    destruct (Hclean collection Hcin) as [ids0 [Hids0 Hdup]].
    assert (ids0 = ids) by congruence. subst ids0.
    now apply duplicates_fresh.
  - apply String.eqb_neq in E. rewrite coll_insert_one_other by congruence.
    now apply Hclean.
Qed.

(** X11. [delete_document] keeps the identifiers unique: on a database
    [__ensure_ids] accepts, the database a [delete_document] leaves is
    accepted as well. *)
Theorem delete_document_keeps_ids_unique (collection : string) (document_id : value)
    (w w0 : world) :
  ensure_ids json_dumps w = (Ok tt, w0) ->
  exists w1,
    ensure_ids json_dumps (snd (delete_document collection document_id w)) = (Ok tt, w1).
Proof.
  intros Hens. apply ensure_ids_returns.
  assert (Hclean := proj1 (ensure_ids_returns w) (ex_intro _ w0 Hens)).
  intros c Hcin. unfold delete_document, bind, gets, set_db, delete_one. simpl.
  destruct (Hclean c Hcin) as [ids [Hids Hdup]].
  destruct (String.eqb c collection) eqn:E.
  - apply String.eqb_eq in E. subst c. rewrite coll_alter by reflexivity.
    now apply (identifiers_of_delete_first _ _ ids []).
  - apply String.eqb_neq in E. rewrite coll_alter_ne by congruence. now exists ids.
Qed.

End KeepsUnique.

(** ** Contacts by role, and get_quality_control *)

(** A loop that returns at the first element its body accepts. *)
Lemma for_each_first_match {A} (g : value -> M (option A)) (pre post : list value)
    (x : value) (w : world) :
  (forall y w, In y pre -> g y w = (Ok None, w)) ->
  for_each (pre ++ x :: post)
    (fun contact found => match found with
                          | Some _ => ret found
                          | None => g contact
                          end) None w
  = match g x w with
    | (Ok (Some a), w') => (Ok (Some a), w')
    | (Ok None, w') =>
        for_each post (fun contact found => match found with
                                            | Some _ => ret found
                                            | None => g contact
                                            end) None w'
    | (Raised e, w') => (Raised e, w')
    end.
Proof.
  intros Hpre. induction pre as [|y pre IH]; simpl.
  - unfold bind at 1. destruct (g x w) as [[[a|]|e] w']; try reflexivity.
    clear. revert w'. induction post as [|z post IH]; intros w'; [reflexivity|].
    simpl. unfold bind at 1. unfold ret at 1. apply IH.
  - unfold bind at 1. rewrite (Hpre y w (or_introl eq_refl)).
    apply IH. intros z w0 Hz. apply Hpre. now right.
Qed.

(** A contact that carries another role is passed over. *)
Lemma contact_by_role_other (role : string) (c : dict) (r : value) (w : world) :
  dict_get "role" c = Some r -> py_eq r (JStr role) = false ->
  contact_by_role role (JDict c) w = (Ok None, w).
Proof.
  intros Hr Hne. unfold contact_by_role, subscript, getitem. rewrite Hr.
  unfold bind, ret. now rewrite Hne.
Qed.

(** X12. [get_contact_by_role] is decided by the first contact of the list
    that has the role, the contacts before it carrying other roles: the
    document returned is the person the contact names with [@people], looked
    up in [people], even when the contact names an organization as well;
    without [@people], the organization it names with [@organizations];
    without either, [ValueError] is raised. What the lookup raises is raised:
    no later contact is tried. *)
Theorem get_contact_by_role_first_match (doc : dict) (role : string)
    (pre post : list value) (c : dict) (r : value) (w : world) :
  dict_get "contacts" doc = Some (JList (pre ++ JDict c :: post)) ->
  (forall y, In y pre ->
     exists cy ry, y = JDict cy /\ dict_get "role" cy = Some ry /\
                   py_eq ry (JStr role) = false) ->
  dict_get "role" c = Some r ->
  py_eq r (JStr role) = true ->
  get_contact_by_role doc role w
  = match dict_get "@people" c, dict_get "@organizations" c with
    | Some p, _ =>
        match get_document "people" p 0 w with
        | (Ok d, w') => (Ok (d, "people"), w')
        | (Raised e, w') => (Raised e, w')
        end
    | None, Some o =>
        match get_document "organizations" o 0 w with
        | (Ok d, w') => (Ok (d, "organizations"), w')
        | (Raised e, w') => (Raised e, w')
        end
    | None, None => (Raised ValueError, w)
    end.
Proof.
  intros Hcontacts Hpre Hr Heq. unfold get_contact_by_role, dict_has.
  rewrite Hcontacts. cbn [negb]. unfold getitem at 1. rewrite Hcontacts.
  rewrite (bind_run (ret _) _ w w _ eq_refl).
  rewrite (bind_run (py_iter (JList (pre ++ JDict c :: post))) _ w w _ eq_refl).
  unfold bind at 1.
  rewrite (for_each_first_match (contact_by_role role) pre post (JDict c) w).
  2:{ intros y w0 Hy. destruct (Hpre y Hy) as [cy [ry [-> [Hry Hne]]]].
      now apply (contact_by_role_other role cy ry). }
  unfold contact_by_role, subscript, getitem. rewrite Hr.
  rewrite (bind_run (ret r) _ w w r eq_refl). rewrite Heq.
  destruct (dict_get "@people" c) as [p|].
  - unfold bind. destruct (get_document "people" p 0 w) as [[d|e] w']; reflexivity.
  - destruct (dict_get "@organizations" c) as [o|]; [|reflexivity].
    unfold bind. destruct (get_document "organizations" o 0 w) as [[d|e] w']; reflexivity.
Qed.

(** X13. [get_people_from_role] and [get_organization_from_role] are decided
    by the first contact of the sensor that has the role as well, but each
    takes it for a contact of its own kind: when that contact names an
    organization and no person, [get_people_from_role] raises [KeyError],
    even if a later contact with the role names a person, and the other way
    round; otherwise the result is the lookup of the person, or of the
    organization, the contact names. *)
Theorem get_from_role_first_match (sensor_id : value) (role : string) (sensor : dict)
    (pre post : list value) (c : dict) (r : value) (w w1 : world) :
  get_sensor sensor_id w = (Ok sensor, w1) ->
  dict_get "contacts" sensor = Some (JList (pre ++ JDict c :: post)) ->
  (forall y, In y pre ->
     exists cy ry, y = JDict cy /\ dict_get "role" cy = Some ry /\
                   py_eq ry (JStr role) = false) ->
  dict_get "role" c = Some r ->
  py_eq r (JStr role) = true ->
  get_people_from_role sensor_id role w
  = match dict_get "@people" c with
    | Some p => get_people p w1
    | None => (Raised KeyError, w1)
    end /\
  get_organization_from_role sensor_id role w
  = match dict_get "@organizations" c with
    | Some o => get_organization o w1
    | None => (Raised KeyError, w1)
    end.
Proof.
  intros Hsensor Hcontacts Hpre Hr Heq.
  assert (Hother : forall (k : value -> M (option dict)) y w0, In y pre ->
            bind (subscript "role" y)
              (fun r0 => if py_eq r0 (JStr role) then k y else ret None) w0 = (Ok None, w0)).
  { intros k y w0 Hy. destruct (Hpre y Hy) as [cy [ry [-> [Hry Hne]]]].
    unfold subscript, getitem. rewrite Hry. unfold bind, ret. now rewrite Hne. }
  split.
  - unfold get_people_from_role. rewrite (bind_run _ _ _ _ _ Hsensor).
    unfold getitem at 1. rewrite Hcontacts.
    rewrite (bind_run (ret _) _ w1 w1 _ eq_refl).
    rewrite (bind_run (py_iter (JList (pre ++ JDict c :: post))) _ w1 w1 _ eq_refl).
    unfold bind at 1.
    rewrite (for_each_first_match
               (fun contact => bind (subscript "role" contact) (fun r0 =>
                  if py_eq r0 (JStr role)
                  then bind (subscript "@people" contact) (fun p =>
                         bind (get_people p) (fun d => ret (Some d)))
                  else ret None)) pre post (JDict c) w1).
    2:{ intros y w0 Hy.
        apply (Hother (fun contact => bind (subscript "@people" contact) (fun p =>
                         bind (get_people p) (fun d => ret (Some d)))) y w0 Hy). }
    unfold subscript, getitem. rewrite Hr.
    rewrite (bind_run (ret r) _ w1 w1 r eq_refl). rewrite Heq.
    destruct (dict_get "@people" c) as [p|]; [|reflexivity].
    rewrite (bind_run (ret p) _ w1 w1 p eq_refl).
    unfold bind. destruct (get_people p w1) as [[d|e] w']; reflexivity.
  - unfold get_organization_from_role. rewrite (bind_run _ _ _ _ _ Hsensor).
    unfold getitem at 1. rewrite Hcontacts.
    rewrite (bind_run (ret _) _ w1 w1 _ eq_refl).
    rewrite (bind_run (py_iter (JList (pre ++ JDict c :: post))) _ w1 w1 _ eq_refl).
    unfold bind at 1.
    rewrite (for_each_first_match
               (fun contact => bind (subscript "role" contact) (fun r0 =>
                  if py_eq r0 (JStr role)
                  then bind (subscript "@organizations" contact) (fun o =>
                         bind (get_organization o) (fun d => ret (Some d)))
                  else ret None)) pre post (JDict c) w1).
    2:{ intros y w0 Hy.
        apply (Hother (fun contact => bind (subscript "@organizations" contact) (fun o =>
                         bind (get_organization o) (fun d => ret (Some d)))) y w0 Hy). }
    unfold subscript, getitem. rewrite Hr.
    rewrite (bind_run (ret r) _ w1 w1 r eq_refl). rewrite Heq.
    destruct (dict_get "@organizations" c) as [o|]; [|reflexivity].
    rewrite (bind_run (ret o) _ w1 w1 o eq_refl).
    unfold bind. destruct (get_organization o w1) as [[d|e] w']; reflexivity.
Qed.


(** ** The cache is filed by identifier *)

Lemma cache_wf_delete (c : gmap string (gmap hkey (Z * dict))) (collection : string)
    (entries : gmap hkey (Z * dict)) (k : hkey) :
  cache_wf c -> c !! collection = Some entries ->
  cache_wf (<[collection := delete k entries]> c).
Proof.
  intros Hwf Hc col entries' k' t doc Hcol Hk'.
  destruct (decide (col = collection)) as [->|Hne].
  - rewrite lookup_insert_eq in Hcol. injection Hcol as <-.
    apply lookup_delete_Some in Hk'. destruct Hk' as [_ Hk'].
    exact (Hwf collection entries k' t doc Hc Hk').
  - rewrite lookup_insert_ne in Hcol by congruence.
    exact (Hwf col entries' k' t doc Hcol Hk').
Qed.

Lemma cache_wf_insert (c : gmap string (gmap hkey (Z * dict))) (collection : string)
    (k : hkey) (t : Z) (doc : dict) (i : value) :
  cache_wf c -> dict_get "#id" doc = Some i -> py_hash i = Some k ->
  cache_wf (<[collection := <[k := (t, doc)]> (default ∅ (c !! collection))]> c).
Proof.
  intros Hwf Hi Hk col entries' k' t' doc' Hcol Hk'.
  destruct (decide (col = collection)) as [->|Hne].
  - rewrite lookup_insert_eq in Hcol. injection Hcol as <-.
    destruct (decide (k' = k)) as [->|Hnk].
    + rewrite lookup_insert_eq in Hk'. injection Hk' as <- <-. now exists i.
    + rewrite lookup_insert_ne in Hk' by congruence.
      destruct (c !! collection) as [entries|] eqn:Ec; simpl in Hk'.
      * exact (Hwf collection entries k' t' doc' Ec Hk').
      * rewrite lookup_empty in Hk'. discriminate.
  - rewrite lookup_insert_ne in Hcol by congruence.
    exact (Hwf col entries' k' t' doc' Hcol Hk').
Qed.

Lemma cache_wf_fresh (c : gmap string (gmap hkey (Z * dict))) (collection : string) :
  cache_wf c -> cache_wf (<[collection := ∅]> c).
Proof.
  intros Hwf col entries' k' t' doc' Hcol Hk'.
  destruct (decide (col = collection)) as [->|Hne].
  - rewrite lookup_insert_eq in Hcol. injection Hcol as <-.
    rewrite lookup_empty in Hk'. discriminate.
  - rewrite lookup_insert_ne in Hcol by congruence.
    exact (Hwf col entries' k' t' doc' Hcol Hk').
Qed.

(** [__add_to_cache] keeps the cache well filed. *)
Lemma add_to_cache_wf (collection : string) (doc : dict) (w : world) :
  cache_wf (cache w) -> cache_wf (cache (snd (add_to_cache collection doc w))).
Proof.
  intros Hwf. unfold add_to_cache, getitem.
  destruct (dict_get "#id" doc) as [i|] eqn:Ei; [|exact Hwf].
  unfold bind, ret, raise, gets, set_cache, time_now. simpl.
  destruct (cache w !! collection) as [entries|] eqn:Ec; simpl.
  - destruct (py_hash i) as [k|] eqn:Ek; simpl; [|exact Hwf].
    now apply (cache_wf_insert _ collection k _ doc i).
  - destruct (py_hash i) as [k|] eqn:Ek; simpl; [|now apply cache_wf_fresh].
    apply (cache_wf_insert _ collection k _ doc i); [|exact Ei|exact Ek].
    now apply cache_wf_fresh.
Qed.

(** [__get_from_cache] keeps the cache well filed. *)
Lemma get_from_cache_wf (collection : string) (doc_id : value) (w : world) :
  cache_wf (cache w) -> cache_wf (cache (snd (get_from_cache collection doc_id w))).
Proof.
  intros Hwf. unfold get_from_cache.
  unfold bind, ret, raise, gets, set_cache, time_now. simpl.
  destruct (cache w !! collection) as [entries|] eqn:Ec; simpl; [|exact Hwf].
  destruct (py_hash doc_id) as [k|]; simpl; [|exact Hwf].
  destruct (entries !! k) as [[timestamp cdoc]|]; simpl; [|exact Hwf].
  destruct (Z.gtb _ _); simpl; [|exact Hwf].
  now apply cache_wf_delete.
Qed.

Lemma get_document_wf (collection : string) (document_id : value) (version : Z)
    (w : world) :
  cache_wf (cache w) ->
  cache_wf (cache (snd (get_document collection document_id version w))).
Proof.
  intros Hwf. unfold get_document.
  unfold bind at 1. unfold time_now at 1.
  set (w0 := World (db w) (db_history w) (cache w) (used_time w) (console w) (S (tick w))).
  assert (Hwf0 : cache_wf (cache w0)) by exact Hwf.
  unfold bind at 1.
  pose proof (get_from_cache_wf collection document_id w0 Hwf0) as Hwf1.
  destruct (get_from_cache collection document_id w0) as [[cdoc|e] w1]; simpl in Hwf1;
    [|exact Hwf1].
  assert (Hstore : forall w1, cache_wf (cache w1) ->
            cache_wf (cache (snd (
              bind (if negb (Z.eqb version 0)
                    then rich_print "[purple]Using historical database" else ret tt)
                (fun _ =>
                 if negb (str_in collection collection_names) then raise LookupError else
                 bind (gets (fun w => find (if negb (Z.eqb version 0)
                                            then [("#id", document_id); ("#version", JNum version)]
                                            else [("#id", document_id)])
                               (coll (if negb (Z.eqb version 0) then db_history w else db w)
                                  collection)))
                   (fun documents =>
                    match documents with
                    | [] => raise LookupError
                    | [d] =>
                        bind (add_to_cache collection (strip_mongo_ids d)) (fun _ =>
                          bind time_now (fun t' =>
                            bind (add_used_time (t' - time_time (tick w))) (fun _ =>
                              ret (strip_mongo_ids d))))
                    | _ => raise AssertionError
                    end)) w1)))).
  { clear. intros w1 Hw1. unfold bind at 1.
    assert (Hp : exists w2, (if negb (Z.eqb version 0)
                             then rich_print "[purple]Using historical database"
                             else ret tt) w1 = (Ok tt, w2) /\ cache w2 = cache w1).
    { destruct (negb (Z.eqb version 0)); eexists; split; reflexivity. }
    destruct Hp as [w2 [-> Hc2]].
    assert (Hw2 : cache_wf (cache w2)) by (now rewrite Hc2).
    destruct (negb (str_in collection collection_names)); [exact Hw2|].
    unfold bind at 1. unfold gets at 1.
    destruct (find _ _) as [|d [|d' l]]; [exact Hw2| |exact Hw2].
    unfold bind at 1.
    pose proof (add_to_cache_wf collection (strip_mongo_ids d) w2 Hw2) as Hadd.
    destruct (add_to_cache collection (strip_mongo_ids d) w2) as [[[]|e] w3]; simpl in Hadd;
      [|exact Hadd].
    exact Hadd. }
  destruct cdoc as [[|kv rest]|].
  - apply Hstore. exact Hwf1.
  - exact Hwf1.
  - apply Hstore. exact Hwf1.
Qed.

Lemma py_hash_py_eq (a b : value) (k : hkey) :
  py_hash a = Some k -> py_hash b = Some k -> py_eq a b = true.
Proof.
  intros Ha Hb. rewrite <- Hb in Ha.
  destruct a, b; simpl in *; try discriminate; try reflexivity;
    injection Ha as E.
  - apply Z.b2z_inj in E. subst. apply Bool.eqb_reflx.
  - now apply Z.eqb_eq.
  - apply Z.eqb_eq. now symmetry.
  - now apply Z.eqb_eq.
  - now apply String.eqb_eq.
Qed.

(** X15. The cache stays well filed, every entry under the hash of the
    identifier of its document, through every [get_document], whatever its
    outcome; and on a well filed cache the document [get_document] returns,
    from the cache or from a store, carries an [#id] that is [==] to the
    identifier asked for. *)
Theorem get_document_returns_requested_id (collection : string) (document_id : value)
    (version : Z) (w w' : world) (r : result dict) :
  cache_wf (cache w) ->
  get_document collection document_id version w = (r, w') ->
  cache_wf (cache w') /\
  forall doc, r = Ok doc ->
    exists i, dict_get "#id" doc = Some i /\ py_eq i document_id = true.
Proof.
  intros Hwf Hget. split.
  - pose proof (get_document_wf collection document_id version w Hwf) as Hwf'.
    now rewrite Hget in Hwf'.
  - intros doc ->.
    destruct (get_document_cases _ _ _ _ _ _ Hget)
      as [[doc' [[= <-] Hhit]]|[[Hr _]|[Hmiss _]]]; [|discriminate|].
    + unfold cache_answer, cached in Hhit.
      destruct (cache w !! collection) as [entries|] eqn:Ec; [|discriminate].
      destruct (py_hash document_id) as [k|] eqn:Ek; [|discriminate].
      destruct (entries !! k) as [[t [|kv rest]]|] eqn:Ee; try discriminate.
      destruct (Z.gtb _ _); [discriminate|]. injection Hhit as <-.
      destruct (Hwf collection entries k t _ Ec Ee) as [i [Hi Hk]].
      exists i. split; [exact Hi|]. now apply (py_hash_py_eq i document_id k).
    + destruct (get_document_miss _ _ _ _ _ _ Hmiss Hget)
        as [h [n [_ [Hfind [-> [_ [_ [_ [_ Hcached]]]]]]]]].
      assert (Hm : matches (lookup_filter document_id version) h = true).
      { eapply find_matches. rewrite Hfind. now left. }
      apply lookup_filter_matches_id in Hm. destruct Hm as [v [Hv Heq]].
      exists v. rewrite strip_mongo_ids_id. split; [exact Hv|].
      unfold cached in Hcached.
      destruct (py_hash document_id) as [k|] eqn:Ek;
        [|destruct (cache w' !! collection); discriminate].
      apply (py_hash_py_eq v document_id k); [|exact Ek].
      now rewrite (value_eqb_hash _ _ Heq).
Qed.

(** ** replace_document when the store holds nothing under the identifier *)

Lemma replace_first_no_match (flt new : dict) (l : list dict) :
  find flt l = [] -> replace_first flt new l = l.
Proof.
  induction l as [|x l IH]; simpl; [reflexivity|].
  destruct (matches flt x); [discriminate|]. intros Hf. now rewrite IH.
Qed.

Lemma replace_one_no_match (c : string) (flt new : dict) (d : database) :
  find flt (coll d c) = [] -> replace_one c flt new d = d.
Proof.
  intros Hf. unfold replace_one. apply alter_id. intros x Hx.
  unfold coll in Hf. rewrite Hx in Hf. now apply replace_first_no_match.
Qed.

Lemma bind_run_raised {A B} (m : M A) (k : A -> M B) (w w1 : world) (e : exn) :
  m w = (Raised e, w1) -> bind m k w = (Raised e, w1).
Proof. unfold bind. now intros ->. Qed.

(** A [replace_document] that returns has read the old document with
    [get_document]. *)
Lemma replace_document_read (collection : string) (document_id : value)
    (document : dict) (author : string) (force : bool) (w w' : world) (new : dict) :
  replace_document collection document_id document author force w = (Ok new, w') ->
  exists old w1, get_document collection document_id 0 w = (Ok old, w1).
Proof.
  unfold replace_document. intros Hrun.
  apply bind_inv in Hrun. destruct Hrun as [[e0 [_ Hr]]|[doc_id [w1 [H1 Hrun]]]];
    [discriminate|].
  unfold getitem in H1. destruct (dict_get "#id" document); [|discriminate].
  injection H1 as _ <-.
  destruct (negb (py_eq doc_id document_id)); [discriminate|].
  apply bind_inv in Hrun. destruct Hrun as [[e0 [_ Hr]]|[old [w2 [H2 _]]]]; [discriminate|].
  now exists old, w2.
Qed.

(** X16. [replace_document] does not insert. When the current store holds
    no document under the identifier, a [replace_document] that returns was
    answered by the cache (the document was deleted within the cache timeout):
    the current store is left as it was, the document is not put back, and
    the new version is appended to the history all the same. With no fresh
    cache entry the call raises [LookupError] and writes nothing. *)
Theorem replace_document_missing (collection : string) (document_id : value)
    (document : dict) (author : string) (force : bool) (w w' : world) (r : result dict) :
  find [("#id", document_id)] (coll (db w) collection) = [] ->
  replace_document collection document_id document author force w = (r, w') ->
  (forall new, r = Ok new ->
     cache_answer w collection document_id <> None /\
     db w' = db w /\
     db_history w' = insert_one collection new (db_history w)) /\
  (cache_answer w collection document_id = None ->
   forall doc_id, dict_get "#id" document = Some doc_id ->
     py_eq doc_id document_id = true -> py_hash document_id <> None ->
     r = Raised LookupError /\ db w' = db w /\ db_history w' = db_history w).
Proof.
  intros Hfind Hrun.
  assert (Hmiss : cache_answer w collection document_id = None ->
            forall old w1, get_document collection document_id 0 w <> (Ok old, w1)).
  { intros Hnone old w1 Hget.
    destruct (get_document_miss _ _ _ _ _ _ Hnone Hget) as [h [n [_ [Hf _]]]].
    unfold lookup_filter, lookup_store in Hf. cbn [Z.eqb] in Hf. congruence. }
  split.
  - intros new ->.
    destruct (replace_document_outcome _ _ _ _ _ _ _ _ Hrun) as [_ Hok].
    destruct (Hok new eq_refl) as [Hd Hh].
    split; [|split; [|exact Hh]].
    + intros Hnone. destruct (replace_document_read _ _ _ _ _ _ _ _ Hrun) as [old [w1 Hget]].
      exact (Hmiss Hnone old w1 Hget).
    + rewrite Hd. now apply replace_one_no_match.
  - intros Hnone doc_id Hid Heq Hhash.
    destruct (replace_document_outcome _ _ _ _ _ _ _ _ Hrun) as [Hraised _].
    assert (Hr : r = Raised LookupError).
    { unfold replace_document in Hrun. unfold getitem in Hrun at 1. rewrite Hid in Hrun.
      rewrite (bind_run (ret doc_id) _ w w doc_id eq_refl) in Hrun.
      rewrite Heq in Hrun. cbn [negb] in Hrun.
      destruct (get_document collection document_id 0 w) as [rg wg] eqn:Hget.
      destruct (get_document_cases _ _ _ _ _ _ Hget)
        as [[doc' [_ Hhit]]|[[_ [Hn _]]|[_ [w1 [Hd [Hh Hfetch]]]]]]; [congruence|congruence|].
      destruct (fetch_from_store_spec collection document_id 0 (time_time (tick w)) w1)
        as [w2 [Hspec _]].
      rewrite Hfetch in Hspec. injection Hspec as Hrg _.
      unfold lookup_store, lookup_filter in Hrg. cbn [Z.eqb] in Hrg.
      rewrite Hd, Hfind in Hrg.
      assert (Hrg' : rg = Raised LookupError)
        by (destruct (negb (str_in collection collection_names)); exact Hrg).
      clear Hrg. subst rg. rewrite (bind_run_raised _ _ _ _ _ Hget) in Hrun. now injection Hrun as <- _. }
    split; [exact Hr|]. now apply (Hraised LookupError).
Qed.

(** ** get_station_coordinates *)

(** X17. [get_station_coordinates] looks a station given by its name up in
    the collection [station], which is not one of [collection_names]
    ([stations] is): as long as the cache holds nothing for [station] the call
    raises [LookupError] for every name, whatever the stores hold, before any
    deployment is looked for, and leaves the stores and the cache as they
    were. *)
Theorem get_station_coordinates_by_name
    (get_station_deployments : dict -> M (list (dict * value))) (name : string) (w : world) :
  cache w !! "station" = None ->
  exists w',
    get_station_coordinates get_station_deployments (JStr name) w = (Raised LookupError, w') /\
    db w' = db w /\ db_history w' = db_history w /\ cache w' = cache w.
Proof.
  intros Hc.
  destruct (get_document_unknown_collection "station" (JStr name) 0 w eq_refl Hc)
    as [w' [Hget Hframe]].
  exists w'. split; [|exact Hframe].
  unfold get_station_coordinates. now rewrite (bind_run_raised _ _ _ _ _ Hget).
Qed.

(** ** insert_document with force *)


(** ** The documents replace_document and insert_document build *)

Lemma dict_get_update_inside (k : string) (v : value) (d other : dict) :
  List.NoDup (keys other) -> dict_get k other = Some v ->
  dict_get k (dict_update d other) = Some v.
Proof.
  unfold dict_update. revert d.
  induction other as [|[k0 v0] other IH]; intros d Hnd; simpl; [discriminate|].
  apply List.NoDup_cons_iff in Hnd. destruct Hnd as [Hnin Hnd].
  destruct (String.eqb k k0) eqn:E.
  - apply String.eqb_eq in E. subst k0. intros [= <-].
    fold (dict_update (dict_set k v0 d) other).
    rewrite dict_get_update_outside by exact Hnin. apply dict_get_set_eq.
  - intros Hget. now apply IH.
Qed.

Lemma dict_get_metadata_fields_other (k : string) (doc : dict) :
  startswith "#" k = false -> dict_get k (metadata_fields doc) = None.
Proof.
  intros Hk. unfold metadata_fields.
  induction doc as [|[k0 v0] doc IH]; simpl; [reflexivity|].
  destruct (startswith "#" k0) eqn:E0; simpl; [|exact IH].
  destruct (String.eqb k k0) eqn:E; [|exact IH].
  apply String.eqb_eq in E. subst k0. congruence.
Qed.

Lemma dict_get_Some_keys (k : string) (v : value) (d : dict) :
  dict_get k d = Some v -> In k (keys d).
Proof.
  induction d as [|[k0 v0] d IH]; simpl; [discriminate|].
  destruct (String.eqb k k0) eqn:E.
  - apply String.eqb_eq in E. subst k0. intros _. now left.
  - intros Hget. right. now apply IH.
Qed.

Lemma dict_has_update_contents (k : string) (metadata document : dict) :
  startswith "#" k = true ->
  dict_has k (dict_update metadata (strip_metadata_fields document)) = dict_has k metadata.
Proof. intros Hk. unfold dict_has. now rewrite dict_get_update_contents. Qed.

(** A field of the contents of the document [replace_document] and
    [insert_document] build is the one of the candidate. *)
Lemma dict_get_update_candidate (k : string) (metadata document : dict) :
  List.NoDup (keys document) -> startswith "#" k = false ->
  dict_get k metadata = None ->
  dict_get k (dict_update metadata (strip_metadata_fields document)) = dict_get k document.
Proof.
  intros Hnd Hk Hmeta.
  destruct (dict_get k document) as [v|] eqn:Ed.
  - apply dict_get_update_inside; [now apply strip_metadata_fields_NoDup|].
    now rewrite dict_get_strip_metadata_fields.
  - rewrite dict_get_update_outside; [exact Hmeta|].
    apply dict_get_None_keys. now rewrite dict_get_strip_metadata_fields.
Qed.

(** X19. The document a [replace_document] returns and writes is built on
    the document [get_document] has returned for the identifier: it carries
    the [#id] and the [#creationDate] of that document, its [#version] plus
    one, the author given (or the default one) and the timestamp of the call
    as [#modificationDate]. Every other field is the one of the candidate:
    the fields of the old document the candidate lacks are gone, and the
    metadata the candidate carries is ignored. *)
Theorem replace_document_result (collection : string) (document_id : value)
    (document : dict) (author : string) (force : bool) (w w1 w' : world) (old new : dict)
    (doc_id : value) (n : Z) :
  dict_get "#id" document = Some doc_id ->
  py_eq doc_id document_id = true ->
  get_document collection document_id 0 w = (Ok old, w1) ->
  dict_get "#version" old = Some (JNum n) ->
  List.NoDup (keys document) ->
  replace_document collection document_id document author force w = (Ok new, w') ->
  dict_get "#version" new = Some (JNum (n + 1)) /\
  dict_get "#id" new = dict_get "#id" old /\
  dict_get "#creationDate" new = dict_get "#creationDate" old /\
  dict_get "#author" new = Some (JStr (effective_author author)) /\
  dict_get "#modificationDate" new = Some (JStr (timestamp_at w1)) /\
  (forall k, startswith "#" k = false -> dict_get k new = dict_get k document).
Proof.
  intros Hid Heq Hget Hver Hnd Hrun.
  rewrite (replace_document_run collection document_id document author force w w1 old doc_id n
             Hid Heq Hget Hver) in Hrun.
  assert (Hnew : new = replaced_document old document (effective_author author)
                         (timestamp_at w1) n).
  { destruct (py_eq (JDict (strip_metadata_fields document))
                (JDict (strip_metadata_fields old)) && negb force); [discriminate|].
    destruct (validate_document _ _ _ _) as [[b|e] w2]; [|discriminate].
    now injection Hrun as <- _. }
  subst new. split; [|split; [|split; [|split; [|split]]]].
  - rewrite replaced_document_get; try reflexivity; discriminate.
  - rewrite replaced_document_get; try reflexivity; discriminate.
  - rewrite replaced_document_get; try reflexivity; discriminate.
  - unfold replaced_document. rewrite (dict_get_update_contents "#author" _ document eq_refl).
    apply dict_get_set_eq.
  - unfold replaced_document.
    rewrite (dict_get_update_contents "#modificationDate" _ document eq_refl).
    rewrite dict_get_set_ne by discriminate. apply dict_get_set_eq.
  - intros k Hk. unfold replaced_document.
    apply dict_get_update_candidate; [exact Hnd|exact Hk|].
    assert (Hne : forall k', startswith "#" k' = true -> k <> k').
    { intros k' Hk' ->. congruence. }
    rewrite !dict_get_set_ne by (apply Hne; reflexivity).
    now apply dict_get_metadata_fields_other.
Qed.

(** The document an [insert_document] without [update] returns. *)
Lemma insert_document_built (collection : string) (document : dict) (author : string)
    (force force_meta : bool) (w w' : world) (new : dict) (doc_id : value) :
  dict_get "#id" document = Some doc_id ->
  insert_document collection document author force force_meta false w = (Ok new, w') ->
  new = if force_meta then document
        else dict_update (generated_metadata doc_id (effective_author author) (timestamp_at w))
               (strip_metadata_fields document).
Proof.
  unfold insert_document. intros Hid Hrun.
  destruct (str_in collection collection_names) eqn:Hc; cbn [negb] in Hrun; [|discriminate].
  unfold getitem in Hrun at 1. rewrite Hid in Hrun.
  rewrite (bind_run (ret doc_id) _ w w doc_id eq_refl) in Hrun.
  apply bind_inv in Hrun. destruct Hrun as [[e0 [_ Hr]]|[ids [w2 [H2 Hrun]]]]; [discriminate|].
  rewrite (get_identifiers_run collection w Hc) in H2. injection H2 as _ <-.
  destruct (py_in doc_id ids); [discriminate|].
  apply bind_inv in Hrun. destruct Hrun as [[e0 [_ Hr]]|[new0 [w3 [H3 Hrun]]]]; [discriminate|].
  assert (Hnew0 : new0 = if force_meta then document
                         else dict_update (generated_metadata doc_id (effective_author author)
                                             (timestamp_at w))
                                (strip_metadata_fields document)).
  { destruct force_meta; cbn [negb] in H3; [now injection H3 as <- _|].
    unfold bind, get_timestamp_string, ret in H3. now injection H3 as <- _. }
  apply bind_inv in Hrun. destruct Hrun as [[e0 [_ Hr]]|[valid [w4 [H4 Hrun]]]]; [discriminate|].
  apply insert_document_writes in Hrun. destruct Hrun as [[= <-] _]. exact Hnew0.
Qed.

(** X20. The document an [insert_document] without [update] and without
    [force_meta] returns and stores, whatever the collection already holds,
    carries the [#id] of the candidate, [#version] 1, the timestamp of the
    call as [#creationDate] and as [#modificationDate], and the author given
    (or the default one). Every other field is the one of the candidate, and
    the other metadata the candidate carries, a [#version] for one, is
    ignored. *)
Theorem insert_document_result (collection : string) (document : dict) (author : string)
    (force : bool) (w w' : world) (new : dict) :
  List.NoDup (keys document) ->
  insert_document collection document author force false false w = (Ok new, w') ->
  dict_get "#id" new = dict_get "#id" document /\
  dict_get "#version" new = Some (JNum 1) /\
  dict_get "#creationDate" new = Some (JStr (timestamp_at w)) /\
  dict_get "#modificationDate" new = Some (JStr (timestamp_at w)) /\
  dict_get "#author" new = Some (JStr (effective_author author)) /\
  (forall k, startswith "#" k = false -> dict_get k new = dict_get k document) /\
  (forall k, startswith "#" k = true -> dict_has k new = true ->
     In k ["#id"; "#version"; "#creationDate"; "#modificationDate"; "#author"]).
Proof.
  intros Hnd Hrun.
  destruct (insert_document_new _ _ _ _ _ _ _ _ Hrun) as [_ [doc_id [ids [Hid _]]]].
  rewrite (insert_document_built _ _ _ _ _ _ _ _ doc_id Hid Hrun). rewrite Hid.
  split; [|split; [|split; [|split; [|split; [|split]]]]];
    try (now rewrite dict_get_update_contents).
  - intros k Hk. apply dict_get_update_candidate; [exact Hnd|exact Hk|].
    apply dict_get_None_keys. simpl.
    intros [<-|[<-|[<-|[<-|[<-|[]]]]]]; discriminate.
  - intros k Hk. rewrite (dict_has_update_contents k) by exact Hk.
    unfold dict_has. intros Hhas.
    destruct (dict_get k (generated_metadata doc_id (effective_author author) (timestamp_at w)))
      as [v|] eqn:Eg; [|discriminate].
    apply dict_get_Some_keys in Eg. exact Eg.
Qed.

(** ** get_timestamp_string *)

Lemma contains_cons (sep c : ascii) (s : string) :
  contains sep (String c s) = Ascii.eqb c sep || contains sep s.
Proof. unfold contains. simpl. now rewrite Ascii.eqb_sym. Qed.

Lemma before_dot_cons (c : ascii) (s : string) :
  before_dot (String c s)
  = if Ascii.eqb c "." then EmptyString else String c (before_dot s).
Proof. reflexivity. Qed.

Lemma split_on_cons (sep c : ascii) (s : string) :
  split_on sep (String c s)
  = if Ascii.eqb c sep then EmptyString :: split_on sep s
    else match split_on sep s with
         | seg :: segs => String c seg :: segs
         | [] => [String c EmptyString]
         end.
Proof. reflexivity. Qed.

Lemma before_dot_split_on (s : string) :
  before_dot s = hd EmptyString (split_on "." s).
Proof.
  induction s as [|c s IH]; [reflexivity|]. rewrite before_dot_cons, split_on_cons.
  destruct (Ascii.eqb c "."); [reflexivity|].
  rewrite IH. now destruct (split_on "." s).
Qed.

Lemma before_dot_clean (s : string) : contains "." (before_dot s) = false.
Proof.
  induction s as [|c s IH]; [reflexivity|]. rewrite before_dot_cons.
  destruct (Ascii.eqb c ".") eqn:E; [reflexivity|].
  now rewrite contains_cons, E, IH.
Qed.

Lemma before_dot_no_dot (s : string) : contains "." s = false -> before_dot s = s.
Proof.
  induction s as [|c s IH]; [reflexivity|]. rewrite before_dot_cons, contains_cons.
  destruct (Ascii.eqb c "."); [discriminate|].
  cbn [orb]. intros Hs. now rewrite IH.
Qed.

Lemma before_dot_fraction (seconds fraction : string) :
  contains "." seconds = false -> before_dot (seconds +:+ "." +:+ fraction) = seconds.
Proof.
  induction seconds as [|c s IH]; [reflexivity|].
  change (String c s +:+ "." +:+ fraction) with (String c (s +:+ "." +:+ fraction)).
  rewrite before_dot_cons, contains_cons.
  destruct (Ascii.eqb c "."); [discriminate|].
  cbn [orb]. intros Hs. now rewrite IH.
Qed.

(** X21. [get_timestamp_string] returns the first of the segments the ISO
    format of the current time splits into at [.], followed by [Z]: the
    stamp has no fractional part, whether the ISO format has one or, the
    microseconds being zero, has none. One reading of the clock is taken
    and nothing else changes. *)
Theorem get_timestamp_string_format (w : world) :
  exists stamp,
    get_timestamp_string w = (Ok (stamp +:+ "Z"), ticked w) /\
    stamp = hd EmptyString (split_on "." (utcnow_isoformat (tick w))) /\
    contains "." stamp = false /\
    (contains "." (utcnow_isoformat (tick w)) = false -> stamp = utcnow_isoformat (tick w)) /\
    (forall seconds fraction,
       contains "." seconds = false ->
       utcnow_isoformat (tick w) = seconds +:+ "." +:+ fraction -> stamp = seconds).
Proof.
  exists (before_dot (utcnow_isoformat (tick w))).
  split; [reflexivity|]. split; [apply before_dot_split_on|].
  split; [apply before_dot_clean|]. split; [apply before_dot_no_dot|].
  intros seconds fraction Hs ->. now apply before_dot_fraction.
Qed.

End MoreProperties.

(** * [mmm/common.py] *)

(** ** normalize_string *)

Lemma replace_char_map (old new : ascii) (s : string) :
  replace_char old new s = map_string (fun c => if Ascii.eqb c old then new else c) s.
Proof. induction s as [|c s IH]; simpl; [reflexivity|now rewrite IH]. Qed.

Lemma lower_map (s : string) : lower s = map_string lower_char s.
Proof. induction s as [|c s IH]; simpl; [reflexivity|now rewrite IH]. Qed.

Lemma map_string_compose (f g : ascii -> ascii) (s : string) :
  map_string g (map_string f s) = map_string (fun c => g (f c)) s.
Proof. induction s as [|c s IH]; simpl; [reflexivity|now rewrite IH]. Qed.

Lemma map_string_ext (f g : ascii -> ascii) (s : string) :
  (forall c, f c = g c) -> map_string f s = map_string g s.
Proof. intros Hfg. induction s as [|c s IH]; simpl; [reflexivity|now rewrite Hfg, IH]. Qed.

Lemma map_string_length (f : ascii -> ascii) (s : string) :
  String.length (map_string f s) = String.length s.
Proof. induction s as [|c s IH]; simpl; [reflexivity|now rewrite IH]. Qed.

Lemma map_string_In (f : ascii -> ascii) (s : string) (c : ascii) :
  In c (list_ascii_of_string (map_string f s)) ->
  exists c0, In c0 (list_ascii_of_string s) /\ c = f c0.
Proof.
  induction s as [|c1 s IH]; simpl; [intros []|].
  intros [<-|Hin].
  - exists c1. split; [now left|reflexivity].
  - destruct (IH Hin) as [c0 [Hc0 ->]]. exists c0. split; [now right|reflexivity].
Qed.

(** Character by character: the eleven replacements in a row put [_] in the
    place of a forbidden character and leave the others. *)
Lemma normalized_char_replacements (c : ascii) :
  fold_left (fun c char => if Ascii.eqb c char then "_"%char else c) forbidden_chars c
  = normalized_char false c.
Proof.
  destruct c as [[] [] [] [] [] [] [] []]; reflexivity.
Qed.

Lemma normalized_char_clean (lower_case : bool) (c : ascii) :
  existsb (Ascii.eqb (normalized_char lower_case c)) forbidden_chars = false.
Proof.
  destruct lower_case; destruct c as [[] [] [] [] [] [] [] []]; reflexivity.
Qed.

Lemma normalized_char_idempotent (lower_case : bool) (c : ascii) :
  normalized_char lower_case (normalized_char lower_case c) = normalized_char lower_case c.
Proof.
  destruct lower_case; destruct c as [[] [] [] [] [] [] [] []]; reflexivity.
Qed.

Lemma fold_replace_char_map (chars : list ascii) (s : string) :
  fold_left (fun outstring char => replace_char char "_" outstring) chars s
  = map_string (fun c => fold_left (fun c char => if Ascii.eqb c char then "_"%char else c)
                           chars c) s.
Proof.
  revert s. induction chars as [|char chars IH]; intros s; simpl.
  - induction s as [|c s IHs]; simpl; [reflexivity|now rewrite <- IHs].
  - rewrite IH, replace_char_map, map_string_compose. reflexivity.
Qed.

Lemma normalize_string_map (instring : string) (lower_case : bool) :
  normalize_string instring lower_case = map_string (normalized_char lower_case) instring.
Proof.
  unfold normalize_string.
  assert (Hbase : fold_left (fun outstring char => replace_char char "_" outstring)
                    forbidden_chars instring
                  = map_string (normalized_char false) instring).
  { rewrite fold_replace_char_map. apply map_string_ext.
    intros c. apply normalized_char_replacements. }
  rewrite Hbase. destruct lower_case; [|reflexivity].
  rewrite lower_map, map_string_compose. reflexivity.
Qed.

(** X22. [normalize_string] works character by character: the result has
    the length of the input, holds [_] wherever the input holds one of the
    eleven forbidden characters (the hyphen included) and, lower-cased on
    demand, the character of the input elsewhere. No forbidden character is
    left in it, and normalizing it again changes nothing. *)
Theorem normalize_string_clean (instring : string) (lower_case : bool) :
  (lower_case = true -> is_ascii instring = true) ->
  normalize_string instring lower_case = map_string (normalized_char lower_case) instring /\
  String.length (normalize_string instring lower_case) = String.length instring /\
  (forall c, In c forbidden_chars ->
     ~ In c (list_ascii_of_string (normalize_string instring lower_case))) /\
  normalize_string (normalize_string instring lower_case) lower_case
  = normalize_string instring lower_case.
Proof.
  intros _. split; [apply normalize_string_map|]. split; [|split].
  - rewrite normalize_string_map. apply map_string_length.
  - intros c Hc Hin. rewrite normalize_string_map in Hin.
    apply map_string_In in Hin. destruct Hin as [c0 [_ ->]].
    pose proof (normalized_char_clean lower_case c0) as Hclean.
    assert (Hex : existsb (Ascii.eqb (normalized_char lower_case c0)) forbidden_chars = true).
    { apply existsb_exists. exists (normalized_char lower_case c0).
      split; [exact Hc|apply Ascii.eqb_refl]. }
    congruence.
  - rewrite !normalize_string_map, map_string_compose.
    apply map_string_ext. apply normalized_char_idempotent.
Qed.

(** ** reverse_dictionary *)

Section AssocLemmas.
Context {K V : Type} `{EqDecision K}.

Lemma assoc_set_fresh (k : K) (v : V) (d : list (K * V)) :
  ~ In k (map fst d) -> assoc_set k v d = d ++ [(k, v)].
Proof.
  induction d as [|[k' v'] d IH]; simpl; [reflexivity|].
  intros Hnin. destruct (decide (k = k')) as [->|Hne]; [exfalso; apply Hnin; now left|].
  rewrite IH; [reflexivity|]. intros Hin. apply Hnin. now right.
Qed.

Lemma assoc_get_set (k k' : K) (v : V) (d : list (K * V)) :
  assoc_get k' (assoc_set k v d) = if decide (k' = k) then Some v else assoc_get k' d.
Proof.
  induction d as [|[k0 v0] d IH]; simpl.
  - destruct (decide (k' = k)); reflexivity.
  - destruct (decide (k = k0)) as [->|Hne]; simpl.
    + destruct (decide (k' = k0)); reflexivity.
    + destruct (decide (k' = k0)) as [->|Hne'].
      * destruct (decide (k0 = k)); [congruence|reflexivity].
      * exact IH.
Qed.

End AssocLemmas.

Lemma list_find_app {A} (f : A -> bool) (l l' : list A) :
  List.find f (l ++ l')
  = match List.find f l with Some a => Some a | None => List.find f l' end.
Proof.
  induction l as [|a l IH]; simpl; [reflexivity|]. destruct (f a); [reflexivity|exact IH].
Qed.

Section ReverseDictionary.
Context {K V : Type} `{EqDecision K} `{EqDecision V}.

Lemma reverse_dictionary_acc (data : list (K * V)) (acc : list (V * K)) :
  List.NoDup (map fst acc ++ map snd data) ->
  fold_left (fun acc kv => assoc_set (snd kv) (fst kv) acc) data acc
  = acc ++ map (fun kv => (snd kv, fst kv)) data.
Proof.
  revert acc. induction data as [|[k v] data IH]; intros acc Hnd; cbn [fold_left map fst snd].
  - now rewrite app_nil_r.
  - cbn [map fst snd] in Hnd. rewrite assoc_set_fresh.
    + rewrite IH; [now rewrite <- app_assoc|].
      rewrite map_app. simpl. rewrite <- app_assoc. exact Hnd.
    + apply List.NoDup_remove_2 in Hnd. intros Hin. apply Hnd. apply in_or_app. now left.
Qed.

Lemma reverse_dictionary_get_acc (data : list (K * V)) (acc : list (V * K)) (v : V) :
  assoc_get v (fold_left (fun acc kv => assoc_set (snd kv) (fst kv) acc) data acc)
  = match List.find (fun kv => bool_decide (snd kv = v)) (rev data) with
    | Some kv => Some (fst kv)
    | None => assoc_get v acc
    end.
Proof.
  revert acc. induction data as [|[k v0] data IH]; intros acc; cbn [fold_left rev fst snd];
    [reflexivity|].
  rewrite IH. rewrite list_find_app.
  destruct (List.find _ (rev data)) as [kv|]; [reflexivity|]. simpl.
  rewrite assoc_get_set.
  destruct (decide (v = v0)) as [->|Hne].
  - rewrite bool_decide_eq_true_2 by reflexivity. reflexivity.
  - rewrite bool_decide_eq_false_2 by congruence. reflexivity.
Qed.

End ReverseDictionary.

(** X23. [reverse_dictionary] maps every value of the dictionary to the
    last of the keys that hold it, the keys before being dropped. When no two
    keys hold the same value nothing is dropped: the pairs come out swapped
    and in order, and reversing twice gives the dictionary back. *)
Theorem reverse_dictionary_involutive {K V : Type} `{EqDecision K} `{EqDecision V}
    (data : list (K * V)) :
  List.NoDup (map fst data) ->
  (forall v, assoc_get v (reverse_dictionary data)
             = option_map fst (List.find (fun kv => bool_decide (snd kv = v)) (rev data))) /\
  (List.NoDup (map snd data) ->
   reverse_dictionary data = map (fun kv => (snd kv, fst kv)) data /\
   reverse_dictionary (reverse_dictionary data) = data).
Proof.
  intros Hkeys. split.
  - intros v. unfold reverse_dictionary. rewrite reverse_dictionary_get_acc.
    destruct (List.find _ _); reflexivity.
  - intros Hvals.
    assert (Hswap : reverse_dictionary data = map (fun kv => (snd kv, fst kv)) data).
    { unfold reverse_dictionary. now rewrite reverse_dictionary_acc. }
    split; [exact Hswap|].
    rewrite Hswap. unfold reverse_dictionary. rewrite reverse_dictionary_acc.
    + simpl. rewrite map_map. simpl. clear.
      induction data as [|[k v] data IH]; [reflexivity|]. simpl. now rewrite IH.
    + simpl. rewrite map_map. simpl. exact Hkeys.
Qed.

(** ** __get_field and load_fields_from_dict *)







Lemma keys_dict_set (k : string) (v : value) (d : dict) :
  keys (dict_set k v d) = if dict_has k d then keys d else keys d ++ [k].
Proof.
  unfold dict_has, keys. induction d as [|[k0 v0] d IH]; simpl; [reflexivity|].
  destruct (String.eqb k k0) eqn:E; simpl.
  - reflexivity.
  - rewrite IH. now destruct (dict_get k d).
Qed.

Lemma dict_set_NoDup (k : string) (v : value) (d : dict) :
  List.NoDup (keys d) -> List.NoDup (keys (dict_set k v d)).
Proof.
  intros Hnd. rewrite keys_dict_set. unfold dict_has.
  destruct (dict_get k d) eqn:E; [exact Hnd|].
  apply dict_get_None_keys in E.
  apply List.NoDup_app; [exact Hnd|repeat constructor; simpl; tauto|].
  intros x Hx [<-|[]]. contradiction.
Qed.

Lemma dict_get_pop_eq (k : string) (d : dict) :
  List.NoDup (keys d) -> dict_get k (dict_pop k d) = None.
Proof.
  unfold keys. induction d as [|[k0 v0] d IH]; simpl; [reflexivity|].
  intros Hnd. apply List.NoDup_cons_iff in Hnd. destruct Hnd as [Hnin Hnd].
  destruct (String.eqb k k0) eqn:E.
  - apply String.eqb_eq in E. subst k0. now apply dict_get_None_keys.
  - simpl. rewrite E. now apply IH.
Qed.

Lemma str_in_cons (s x : string) (l : list string) :
  str_in s (x :: l) = String.eqb s x || str_in s l.
Proof. reflexivity. Qed.

(** The first loop of [load_fields_from_dict], from the results so far. *)
Lemma load_fields_loop (doc : dict) (fields : list string) (acc : dict) :
  let loaded :=
    fold_left (fun results field =>
                 match results with
                 | None => None
                 | Some results =>
                     match get_field (JDict doc) field with
                     | Found result => Some (dict_set field result results)
                     | Missing => Some results
                     | AttributeError => None
                     end
                 end) fields (Some acc) in
  (loaded = None <-> exists f, In f fields /\ get_field (JDict doc) f = AttributeError) /\
  (forall results, loaded = Some results ->
     (List.NoDup (keys acc) -> List.NoDup (keys results)) /\
     forall f, dict_get f results
               = match get_field (JDict doc) f with
                 | Found v => if str_in f fields then Some v else dict_get f acc
                 | _ => dict_get f acc
                 end).
Proof.
  cbv zeta. revert acc. induction fields as [|field fields IH]; intros acc.
  - simpl. split.
    + split; [discriminate|]. intros [f [[] _]].
    + intros results [= <-]. split; [auto|]. intros f.
      destruct (get_field (JDict doc) f); reflexivity.
  - cbn [fold_left].
    assert (Hnone : forall l : list string,
              fold_left (fun results field =>
                 match results with
                 | None => None
                 | Some results =>
                     match get_field (JDict doc) field with
                     | Found result => Some (dict_set field result results)
                     | Missing => Some results
                     | AttributeError => None
                     end
                 end) l None = None).
    { induction l as [|x l IHl]; [reflexivity|exact IHl]. }
    destruct (get_field (JDict doc) field) as [v| |] eqn:Ef.
    + destruct (IH (dict_set field v acc)) as [IHn IHs]. split.
      * rewrite IHn. split.
        -- intros [f [Hin Hf]]. exists f. split; [now right|exact Hf].
        -- intros [f [[<-|Hin] Hf]]; [congruence|]. now exists f.
      * intros results Hres. destruct (IHs results Hres) as [Hnd Hget]. split.
        -- intros Hacc. apply Hnd. now apply dict_set_NoDup.
        -- intros f. rewrite Hget.
           destruct (String.eqb f field) eqn:E.
           ++ apply String.eqb_eq in E. subst f. rewrite Ef, dict_get_set_eq.
              rewrite str_in_cons, String.eqb_refl. cbn [orb].
              now destruct (str_in field fields).
           ++ rewrite str_in_cons, E. cbn [orb]. apply String.eqb_neq in E.
              now rewrite dict_get_set_ne by exact E.
    + destruct (IH acc) as [IHn IHs]. split.
      * rewrite IHn. split.
        -- intros [f [Hin Hf]]. exists f. split; [now right|exact Hf].
        -- intros [f [[<-|Hin] Hf]]; [congruence|]. now exists f.
      * intros results Hres. destruct (IHs results Hres) as [Hnd Hget]. split; [exact Hnd|].
        intros f. rewrite Hget.
        destruct (get_field (JDict doc) f) eqn:Eff; try reflexivity.
        rewrite str_in_cons. destruct (String.eqb f field) eqn:E; [|reflexivity].
        apply String.eqb_eq in E. subst f. congruence.
    + rewrite Hnone. split.
      * split; [|reflexivity]. intros _. exists field. split; [now left|exact Ef].
      * discriminate.
Qed.

(** X25. [load_fields_from_dict] raises (an [AttributeError]) exactly when
    one of the fields asked for runs into a value that is not a dictionary.
    Otherwise, without [rename], the result holds exactly the fields asked
    for that [__get_field] finds in the document, each with the value found,
    and the fields that are missing are left out. A [rename] of [k] to [k']
    moves what the result holds under [k], if anything, to [k']: nothing is
    left under [k]. *)
Theorem load_fields_from_dict_fields (doc : dict) (fields : list string) :
  (load_fields_from_dict doc fields [] = None <->
   exists f, In f fields /\ get_field (JDict doc) f = AttributeError) /\
  (forall results, load_fields_from_dict doc fields [] = Some results ->
     (forall f, dict_get f results
                = match get_field (JDict doc) f with
                  | Found v => if str_in f fields then Some v else None
                  | _ => None
                  end) /\
     (forall k k', k <> k' ->
        exists renamed,
          load_fields_from_dict doc fields [(k, k')] = Some renamed /\
          dict_get k renamed = None /\
          dict_get k' renamed
          = match dict_get k results with
            | Some v => Some v
            | None => dict_get k' results
            end /\
          (forall f, f <> k -> f <> k' -> dict_get f renamed = dict_get f results))).
Proof.
  pose proof (load_fields_loop doc fields []) as Hloop. cbv zeta in Hloop.
  destruct Hloop as [Hnone Hsome].
  unfold load_fields_from_dict. split.
  - rewrite <- Hnone. destruct (fold_left _ fields (Some [])); [|tauto].
    split; discriminate.
  - intros results Hres.
    destruct (fold_left _ fields (Some [])) as [loaded|] eqn:El; [|discriminate].
    cbn [fold_left] in Hres. injection Hres as <-.
    destruct (Hsome loaded eq_refl) as [Hnd Hget].
    specialize (Hnd (List.NoDup_nil _)). split.
    + intros f. rewrite Hget. destruct (get_field (JDict doc) f); reflexivity.
    + intros k k' Hne. eexists. split; [reflexivity|]. cbn [fold_left fst snd].
      destruct (dict_get k loaded) as [v|] eqn:Ek.
      * split; [|split].
        -- rewrite dict_get_set_ne by exact Hne. now apply dict_get_pop_eq.
        -- apply dict_get_set_eq.
        -- intros f Hfk Hfk'. rewrite dict_get_set_ne by exact Hfk'.
           now apply dict_get_pop_ne.
      * split; [exact Ek|]. split; [reflexivity|]. reflexivity.
Qed.

(** ** detect_common_path *)

Lemma common_index_spec (pre rest : list string) (others : list (list string)) :
  (forall p j, In p others -> (j < length pre)%nat ->
     nth_error p j = nth_error (pre ++ rest) j) ->
  match common_index rest others (length pre) with
  | Some i =>
      (i < length (pre ++ rest))%nat /\
      (forall p j, In p others -> (j < i)%nat -> nth_error p j = nth_error (pre ++ rest) j) /\
      exists p, In p others /\ nth_error p i <> nth_error (pre ++ rest) i
  | None =>
      forall p j, In p others -> (j < length (pre ++ rest))%nat ->
        nth_error p j = nth_error (pre ++ rest) j
  end.
Proof.
  revert pre. induction rest as [|compare rest IH]; intros pre Hpre.
  - simpl. rewrite app_nil_r in *. exact Hpre.
  - cbn [common_index].
    assert (Hhead : nth_error (pre ++ compare :: rest) (length pre) = Some compare).
    { rewrite List.nth_error_app2 by lia. now rewrite Nat.sub_diag. }
    destruct (existsb _ others) eqn:Ex.
    + split; [rewrite List.length_app; simpl; lia|]. split; [exact Hpre|].
      apply existsb_exists in Ex. destruct Ex as [p [Hp Hbad]]. exists p. split; [exact Hp|].
      rewrite Hhead. apply orb_true_iff in Hbad. destruct Hbad as [Hlen|Hne].
      * apply Nat.leb_le in Hlen. apply List.nth_error_None in Hlen. congruence.
      * intros Hnth. apply List.nth_error_nth with (d := EmptyString) in Hnth.
        rewrite Hnth, String.eqb_refl in Hne. discriminate.
    + specialize (IH (pre ++ [compare])).
      rewrite List.length_app in IH. simpl in IH. rewrite Nat.add_1_r in IH.
      rewrite <- app_assoc in IH. simpl in IH. apply IH.
      intros p j Hp Hj.
      destruct (Nat.eq_dec j (length pre)) as [->|Hne]; [|apply Hpre; [exact Hp|lia]].
      rewrite Hhead.
      assert (Hok : (Nat.leb (length p) (length pre)
                     || negb (String.eqb compare (nth (length pre) p EmptyString))) = false).
      { destruct (Nat.leb (length p) (length pre)
                  || negb (String.eqb compare (nth (length pre) p EmptyString))) eqn:E;
          [|reflexivity].
        assert (existsb (fun p => Nat.leb (length p) (length pre)
                  || negb (String.eqb compare (nth (length pre) p EmptyString))) others = true).
        { apply existsb_exists. now exists p. }
        congruence. }
      apply orb_false_iff in Hok. destruct Hok as [Hlen Heq].
      apply Nat.leb_gt in Hlen. apply negb_false_iff in Heq. apply String.eqb_eq in Heq.
      rewrite (List.nth_error_nth' p EmptyString Hlen). now rewrite <- Heq.
Qed.

(** X26. [detect_common_path] compares the paths segment by segment, the
    first path against the others. It returns the segments of the first path
    before the first index at which some other path has another segment or
    has run out, joined with [/] and followed by [/]. When there is no such
    index, the first path being, segment by segment, the beginning of every
    other, the index runs off the first path and [IndexError] is raised: so
    it is for a single path and for paths that are all equal, and for no
    path at all. *)
Theorem detect_common_path_segments (paths : list string) :
  fst (detect_common_path paths) = paths /\
  (forall p, snd (detect_common_path [p]) = None) /\
  match map (split_on "/") paths with
  | [] => snd (detect_common_path paths) = None
  | first :: others =>
      (snd (detect_common_path paths) = None <->
       forall p j, In p others -> (j < length first)%nat ->
         nth_error p j = nth_error first j) /\
      (forall c, snd (detect_common_path paths) = Some c ->
         exists i, (i < length first)%nat /\
           c = join "/" (firstn i first) +:+ "/" /\
           (forall p j, In p others -> (j < i)%nat -> nth_error p j = nth_error first j) /\
           exists p, In p others /\ nth_error p i <> nth_error first i)
  end.
Proof.
  split; [reflexivity|]. split.
  - intros p. unfold detect_common_path. cbn [snd map].
    pose proof (common_index_spec [] (split_on "/" p) []) as Hspec. cbn [app length] in Hspec.
    destruct (common_index (split_on "/" p) [] 0) as [i|]; [|reflexivity].
    destruct Hspec as [_ [_ [q [[] _]]]]. intros q j [].
  - unfold detect_common_path. cbn [snd].
    destruct (map (split_on "/") paths) as [|first others]; [reflexivity|].
    pose proof (common_index_spec [] first others) as Hspec. cbn [app length] in Hspec.
    destruct (common_index first others 0) as [i|].
    + destruct Hspec as [Hi [Hsame [p [Hp Hdiff]]]]; [intros q j _ Hj; lia|]. split.
      * split; [discriminate|]. intros Hall. exfalso. apply Hdiff. now apply Hall.
      * intros c [= <-]. exists i. split; [exact Hi|]. split; [reflexivity|].
        split; [exact Hsame|]. now exists p.
    + split; [|discriminate]. split; [|reflexivity]. intros _. apply Hspec.
      intros q j _ Hj. lia.
Qed.

(** * The other methods at work on the scenario *)

Ltac each_collection Hcol tac :=
  repeat (destruct Hcol as [<-|Hcol]; [tac|]); try contradiction.

(** X1 on the scenario: the database is emptied after the replace. *)
Lemma drop_all_empties_current_witness :
  exists w', drop_all w_replaced = (Ok tt, w') /\
    (forall col, In col collection_names -> coll (db w') col = []) /\
    (forall c, ~ In c collection_names -> coll (db w') c = coll (db w_replaced) c) /\
    db_history w' = db_history w_replaced /\ cache w' = cache w_replaced.
Proof.
  apply (drop_all_empties_current w_replaced).
  intros col d Hcol Hd. simpl in Hcol.
  each_collection Hcol ltac:(vm_compute in Hd; try contradiction;
                             destruct Hd as [<-|[]]; reflexivity).
Defined.

(** X2 on the scenario: the database after the replace is accepted. *)
Lemma ensure_ids_unique_witness :
  db w_replaced = db w_replaced /\ db_history w_replaced = db_history w_replaced /\
  forall c, In c collection_names ->
    (forall d, In d (coll (db w_replaced) c) -> dict_has "#id" d = true) /\
    (forall i k, py_hash i = Some k ->
       (length (find [("#id", i)] (coll (db w_replaced) c)) <= 1)%nat /\
       link_checkable w_replaced (c, i) = true).
Proof.
  apply (ensure_ids_unique demo_json_dumps w_replaced w_replaced).
  vm_compute. reflexivity.
Defined.

(** X3: the database that holds the sensor twice is rejected. *)
Lemma ensure_ids_rejects_duplicates_witness :
  exists w', ensure_ids demo_json_dumps w_duplicated = (Raised ValueError, w') /\
             db w' = db w_duplicated /\ db_history w' = db_history w_duplicated.
Proof.
  apply (ensure_ids_rejects_duplicates demo_json_dumps w_duplicated "sensors" [] [] []
           sensor_v1 sensor_v1 (JStr "s1") (JStr "s1")).
  - intros c Hc. simpl in Hc. each_collection Hc ltac:(vm_compute; discriminate).
  - simpl. tauto.
  - vm_compute. reflexivity.
  - reflexivity.
  - reflexivity.
  - reflexivity.
Defined.

(** X4 on the scenario: after the replace the sensor is at version 2, and
    stays there. *)
Lemma reset_version_history_keeps_versions_witness :
  exists w',
    reset_version_history w_replaced = (Ok tt, w') /\
    db w' = db w_replaced /\ cache w' = cache w_replaced /\
    (forall c, In c collection_names -> coll (db_history w') c = coll (db w_replaced) c) /\
    (forall c, ~ In c collection_names -> coll (db_history w') c = []).
Proof.
  apply (reset_version_history_keeps_versions w_replaced).
  intros c d Hc Hd. simpl in Hc.
  each_collection Hc ltac:(vm_compute in Hd;
                           first [contradiction
                                 |destruct Hd as [<-|[]];
                                  split; [reflexivity|]; split; [reflexivity|];
                                  exists (JStr "s1"); split; vm_compute; reflexivity]).
Defined.

(** X5 on the scenario. *)
Lemma get_unit_never_found_witness :
  (exists w', get_unit (H := demo_runtime) (JStr "m") w_read = (Raised LookupError, w') /\
              db w' = db w_read /\ db_history w' = db_history w_read /\
              cache w' = cache w_read) /\
  (forall collection document_id version,
     cache (snd (get_document (H := demo_runtime) collection document_id version w_read))
       !! "units_old" = None).
Proof.
  apply (get_unit_never_found (H := demo_runtime) (JStr "m") w_read).
  vm_compute. reflexivity.
Defined.




(** X9 on the scenario: the sensor cannot be inserted a second time. *)
Lemma insert_document_twice_witness :
  insert_document (H := demo_runtime) "sensors" sensor_ctd2 "alice" true true false w_inserted
  = (Raised NameError, w_inserted).
Proof.
  apply (insert_document_twice (H := demo_runtime) "sensors" sensor_ctd sensor_ctd2
           EmptyString "alice" false false true true empty_world w_inserted sensor_v1
           (JStr "s1") (JStr "s1")).
  - vm_compute. reflexivity.
  - reflexivity.
  - reflexivity.
  - reflexivity.
Defined.

(** X10 on the scenario: a second sensor is inserted. *)
Lemma insert_document_keeps_ids_unique_witness :
  exists w1, ensure_ids demo_json_dumps w_two = (Ok tt, w1).
Proof.
  apply (insert_document_keeps_ids_unique (H := demo_runtime) demo_json_dumps "sensors"
           sensor_adcp EmptyString false false w_inserted w_inserted w_two sensor_adcp_v1).
  - vm_compute. reflexivity.
  - vm_compute. reflexivity.
Defined.

(** X11 on the scenario: the sensor is deleted. *)
Lemma delete_document_keeps_ids_unique_witness :
  exists w1,
    ensure_ids demo_json_dumps (snd (delete_document "sensors" (JStr "s1") w_replaced))
    = (Ok tt, w1).
Proof.
  apply (delete_document_keeps_ids_unique demo_json_dumps "sensors" (JStr "s1")
           w_replaced w_replaced).
  vm_compute. reflexivity.
Defined.

(** X12: the owner of the sensor with two contacts is the organization. *)
Lemma get_contact_by_role_first_match_witness :
  get_contact_by_role (H := demo_runtime) sensor_contacts "owner" w_contacts
  = match dict_get "@people" contact_owner, dict_get "@organizations" contact_owner with
    | Some p, _ =>
        match get_document (H := demo_runtime) "people" p 0 w_contacts with
        | (Ok d, w') => (Ok (d, "people"), w')
        | (Raised e, w') => (Raised e, w')
        end
    | None, Some o =>
        match get_document (H := demo_runtime) "organizations" o 0 w_contacts with
        | (Ok d, w') => (Ok (d, "organizations"), w')
        | (Raised e, w') => (Raised e, w')
        end
    | None, None => (Raised ValueError, w_contacts)
    end.
Proof.
  apply (get_contact_by_role_first_match (H := demo_runtime) sensor_contacts "owner"
           [JDict contact_maintainer] [] contact_owner (JStr "owner") w_contacts).
  - reflexivity.
  - intros y [<-|[]]. exists contact_maintainer, (JStr "maintainer").
    split; [reflexivity|]. split; reflexivity.
  - reflexivity.
  - reflexivity.
Defined.

(** X13: the owner of the sensor is no person. *)
Lemma get_from_role_first_match_witness :
  get_people_from_role (H := demo_runtime) (JStr "s3") "owner" w_contacts
  = match dict_get "@people" contact_owner with
    | Some p => get_people (H := demo_runtime) p w_contacts_read
    | None => (Raised KeyError, w_contacts_read)
    end /\
  get_organization_from_role (H := demo_runtime) (JStr "s3") "owner" w_contacts
  = match dict_get "@organizations" contact_owner with
    | Some o => get_organization (H := demo_runtime) o w_contacts_read
    | None => (Raised KeyError, w_contacts_read)
    end.
Proof.
  apply (get_from_role_first_match (H := demo_runtime) (JStr "s3") "owner" sensor_contacts
           [JDict contact_maintainer] [] contact_owner (JStr "owner") w_contacts
           w_contacts_read).
  - vm_compute. reflexivity.
  - reflexivity.
  - intros y [<-|[]]. exists contact_maintainer, (JStr "maintainer").
    split; [reflexivity|]. split; reflexivity.
  - reflexivity.
  - reflexivity.
Defined.

(** X15 on the scenario: the read of the sensor after its insert. *)
Lemma get_document_returns_requested_id_witness :
  cache_wf (cache w_read) /\
  forall doc, Ok sensor_v1 = Ok doc ->
    exists i, dict_get "#id" doc = Some i /\ py_eq i (JStr "s1") = true.
Proof.
  apply (get_document_returns_requested_id (H := demo_runtime) "sensors" (JStr "s1") 0
           w_inserted w_read (Ok sensor_v1)).
  - intros collection entries k timestamp doc Hc. vm_compute in Hc. discriminate.
  - vm_compute. reflexivity.
Defined.

(** X16 on the scenario, under the jumping clock: the sensor was deleted,
    the cache still holds its version 2, and a replace goes to the history
    alone. *)
Lemma replace_document_missing_witness :
  (forall new,
     fst (replace_document (H := jump_runtime) "sensors" (JStr "s1") sensor_ctd EmptyString
            false w_emptied) = Ok new ->
     cache_answer (H := jump_runtime) w_emptied "sensors" (JStr "s1") <> None /\
     db w_history_only = db w_emptied /\
     db_history w_history_only = insert_one "sensors" new (db_history w_emptied)) /\
  (cache_answer (H := jump_runtime) w_emptied "sensors" (JStr "s1") = None ->
   forall doc_id, dict_get "#id" sensor_ctd = Some doc_id ->
     py_eq doc_id (JStr "s1") = true -> py_hash (JStr "s1") <> None ->
     fst (replace_document (H := jump_runtime) "sensors" (JStr "s1") sensor_ctd EmptyString
            false w_emptied) = Raised LookupError /\
     db w_history_only = db w_emptied /\ db_history w_history_only = db_history w_emptied).
Proof.
  apply (replace_document_missing (H := jump_runtime) "sensors" (JStr "s1") sensor_ctd
           EmptyString false w_emptied w_history_only).
  - vm_compute. reflexivity.
  - vm_compute. reflexivity.
Defined.

(** X17 on the scenario. *)
Lemma get_station_coordinates_by_name_witness :
  exists w',
    get_station_coordinates (H := demo_runtime) (fun _ => ret []) (JStr "OBSEA") w_read
    = (Raised LookupError, w') /\
    db w' = db w_read /\ db_history w' = db_history w_read /\ cache w' = cache w_read.
Proof.
  apply (get_station_coordinates_by_name (H := demo_runtime) (fun _ => ret []) "OBSEA" w_read).
  vm_compute. reflexivity.
Defined.


(** X19 on the scenario: the replace of the sensor. *)
Lemma replace_document_result_witness :
  dict_get "#version" sensor_v2 = Some (JNum (1 + 1)) /\
  dict_get "#id" sensor_v2 = dict_get "#id" sensor_v1 /\
  dict_get "#creationDate" sensor_v2 = dict_get "#creationDate" sensor_v1 /\
  dict_get "#author" sensor_v2 = Some (JStr (effective_author (H := demo_runtime) EmptyString)) /\
  dict_get "#modificationDate" sensor_v2 = Some (JStr (timestamp_at (H := demo_runtime) w_read)) /\
  (forall k, startswith "#" k = false -> dict_get k sensor_v2 = dict_get k sensor_ctd2).
Proof.
  apply (replace_document_result (H := demo_runtime) "sensors" (JStr "s1") sensor_ctd2
           EmptyString false w_inserted w_read w_replaced sensor_v1 sensor_v2 (JStr "s1") 1).
  - reflexivity.
  - reflexivity.
  - vm_compute. reflexivity.
  - reflexivity.
  - simpl. constructor; [simpl; intros [Heq|[]]; discriminate|].
    constructor; [simpl; tauto|constructor].
  - vm_compute. reflexivity.
Defined.

(** X20 on the scenario: the insert of a second sensor. *)
Lemma insert_document_result_witness :
  dict_get "#id" sensor_adcp_v1 = dict_get "#id" sensor_adcp /\
  dict_get "#version" sensor_adcp_v1 = Some (JNum 1) /\
  dict_get "#creationDate" sensor_adcp_v1
  = Some (JStr (timestamp_at (H := demo_runtime) w_inserted)) /\
  dict_get "#modificationDate" sensor_adcp_v1
  = Some (JStr (timestamp_at (H := demo_runtime) w_inserted)) /\
  dict_get "#author" sensor_adcp_v1
  = Some (JStr (effective_author (H := demo_runtime) EmptyString)) /\
  (forall k, startswith "#" k = false -> dict_get k sensor_adcp_v1 = dict_get k sensor_adcp) /\
  (forall k, startswith "#" k = true -> dict_has k sensor_adcp_v1 = true ->
     In k ["#id"; "#version"; "#creationDate"; "#modificationDate"; "#author"]).
Proof.
  apply (insert_document_result (H := demo_runtime) "sensors" sensor_adcp EmptyString false
           w_inserted w_two sensor_adcp_v1).
  - simpl. constructor; [simpl; intros [Heq|[]]; discriminate|].
    constructor; [simpl; tauto|constructor].
  - vm_compute. reflexivity.
Defined.

(** X22 on a name with forbidden characters. *)
Lemma normalize_string_clean_witness :
  normalize_string "SBE 37/CTD-a" true = map_string (normalized_char true) "SBE 37/CTD-a" /\
  String.length (normalize_string "SBE 37/CTD-a" true) = String.length "SBE 37/CTD-a" /\
  (forall c, In c forbidden_chars ->
     ~ In c (list_ascii_of_string (normalize_string "SBE 37/CTD-a" true))) /\
  normalize_string (normalize_string "SBE 37/CTD-a" true) true
  = normalize_string "SBE 37/CTD-a" true.
Proof.
  apply (normalize_string_clean "SBE 37/CTD-a" true).
  intros _. reflexivity.
Defined.

(** X23 on a table of two names. *)
Lemma reverse_dictionary_involutive_witness :
  (forall v, assoc_get v (reverse_dictionary short_names)
             = option_map fst (List.find (fun kv => bool_decide (snd kv = v))
                                 (rev short_names))) /\
  (List.NoDup (map snd short_names) ->
   reverse_dictionary short_names = map (fun kv => (snd kv, fst kv)) short_names /\
   reverse_dictionary (reverse_dictionary short_names) = short_names).
Proof.
  apply (reverse_dictionary_involutive short_names).
  simpl. constructor; [simpl; intros [Heq|[]]; discriminate|].
  constructor; [simpl; tauto|constructor].
Defined.
